(** * ThermSmart BLE thermometer sensors: a shallow embedding

    The development follows the sources of the repository:
    - [therm-smart.js] ([src/unnamed/part_000]): the BCD time codec,
      [ThermSmart.powerOn], [ThermSmart.scanForReadings],
      [ThermSmart.connect] and [ThermSmart.write];
    - the legacy, connection-oriented class [ThermSmartSensor], whose source
      follows the listening script in [src/scripts/listen.js] (line numbers
      are those of that file): [readRelativeHumidity], [isPoweredOn],
      [scan], [connect], [handleDisconnect], [loadTemperatureData];
    - the parts of the JavaScript runtime and of the radio library (noble)
      those functions rely on: 32-bit integer operators, [Buffer] reads,
      [parseInt], promises, event emitters and timers.

    Asynchronous code is written as explicit state passing: every object the
    code mutates is a field of a [world] record, every callback the radio or
    the timer queue may invoke is an [event], and [deliver] runs the listeners
    the code registered for it. A [then] callback runs as soon as its promise
    is fulfilled, before the next event. *)

From Stdlib Require Import ZArith NArith QArith List String Ascii Bool Lia.
From Stdlib Require Import Strings.Byte Strings.HexString.
Import ListNotations.
Local Open Scope string_scope.
Local Open Scope Z_scope.

(* ================================================================== *)
(** ** JavaScript runtime *)

Module JS.

(** [ToInt32]: the operand conversion of the bitwise operators. A Number
    holding an integer is a [Z]; the conversion wraps it into
    [-2^31 .. 2^31-1]. *)
Definition to_int32 (z : Z) : Z :=
  (z + 2147483648) mod 4294967296 - 2147483648.

(** [a & b], [a << n], [a >> n] on 32-bit integers. *)
Definition band (a b : Z) : Z := Z.land (to_int32 a) (to_int32 b).
Definition shl (a n : Z) : Z := to_int32 (Z.shiftl (to_int32 a) (n mod 32)).
Definition shr (a n : Z) : Z := Z.shiftr (to_int32 a) (n mod 32).

(** [a / b] on integers is a fraction; [ToInt32] of a fraction drops its
    fractional part (it rounds toward zero) before wrapping. *)
Definition div (a b : Z) : Q := (inject_Z a / inject_Z b)%Q.

Definition trunc (q : Q) : Z := Z.quot (Qnum q) (Zpos (Qden q)).

(** [q << n] where the left operand may be a fraction. *)
Definition shl_frac (q : Q) (n : Z) : Z := shl (trunc q) n.

(** [a % b]: the remainder has the sign of the dividend. *)
Definition rem (a b : Z) : Z := Z.rem a b.

(** A [Buffer] is a sequence of bytes. *)
Definition Buffer := list byte.

Definition byte_val (b : byte) : Z := Z.of_N (Byte.to_N b).

(** [buf[i]]: the byte at [i], [undefined] ([None]) out of range. *)
Definition index (buf : Buffer) (i : nat) : option Z :=
  option_map byte_val (nth_error buf i).

(** [buf.slice(start)] for [start >= 0]. *)
Definition slice (buf : Buffer) (start : nat) : Buffer := skipn start buf.

(** [buf.readUIntLE(offset, byteLength)]: the little-endian unsigned value
    of [byteLength] bytes from [offset]; [None] is the RangeError thrown
    when the read leaves the buffer. *)
Fixpoint le_value (bs : list byte) : Z :=
  match bs with
  | [] => 0
  | b :: rest => byte_val b + 256 * le_value rest
  end.

Definition readUIntLE (buf : Buffer) (offset byteLength : nat) : option Z :=
  if (offset + byteLength <=? List.length buf)%nat
  then Some (le_value (firstn byteLength (skipn offset buf)))
  else None.

Definition readUInt16LE (buf : Buffer) (offset : nat) : option Z :=
  readUIntLE buf offset 2.

Definition readUInt8 (buf : Buffer) (offset : nat) : option Z :=
  readUIntLE buf offset 1.

(** [n.toString(16)] for an integer [n >= 0]: lower-case digits, no leading
    zero. *)
Definition toString16 (n : Z) : string :=
  match n with
  | Zpos p => HexString.Raw.of_pos p ""
  | _ => "0"
  end.

(** [buf.toString('hex', start, end)]: two lower-case hexadecimal digits
    per byte of the range, which is cut to the buffer. *)
Definition hex_digit (n : N) : ascii :=
  match n with
  | 0 => "0" | 1 => "1" | 2 => "2" | 3 => "3" | 4 => "4" | 5 => "5"
  | 6 => "6" | 7 => "7" | 8 => "8" | 9 => "9" | 10 => "a" | 11 => "b"
  | 12 => "c" | 13 => "d" | 14 => "e" | _ => "f"
  end%N%char.

Fixpoint hex_of_bytes (bs : list byte) : string :=
  match bs with
  | [] => ""
  | b :: rest =>
      String (hex_digit (Byte.to_N b / 16))
        (String (hex_digit (Byte.to_N b mod 16)) (hex_of_bytes rest))
  end.

Definition toString_hex (buf : Buffer) (start end_ : nat) : string :=
  hex_of_bytes (firstn (end_ - start) (skipn start buf)).

(** [parseInt(s)] with no radix. Leading white space is skipped, a sign is
    read, a [0x] prefix selects base 16 and anything else base 10; the
    longest prefix of digits of that base is the value, and a string
    without one gives [NaN] ([None]). *)
Definition is_space (c : ascii) : bool :=
  let n := nat_of_ascii c in
  ((n =? 32) || ((9 <=? n) && (n <=? 13)) || (n =? 160))%nat.

Fixpoint skip_space (s : string) : string :=
  match s with
  | String c rest => if is_space c then skip_space rest else s
  | EmptyString => s
  end.

Definition digit_value (radix : Z) (c : ascii) : option Z :=
  let n := Z.of_nat (nat_of_ascii c) in
  let v := if (48 <=? n) && (n <=? 57) then Some (n - 48)
           else if (97 <=? n) && (n <=? 122) then Some (n - 87)
           else if (65 <=? n) && (n <=? 90) then Some (n - 55)
           else None in
  match v with
  | Some d => if d <? radix then Some d else None
  | None => None
  end.

(** The digits read so far are [acc]; [None] while no digit was read. *)
Fixpoint parse_digits (radix : Z) (s : string) (acc : option Z) : option Z :=
  match s with
  | String c rest =>
      match digit_value radix c with
      | Some d =>
          parse_digits radix rest
            (Some (match acc with Some a => a * radix + d | None => d end))
      | None => acc
      end
  | EmptyString => acc
  end.

Definition parseInt (s : string) : option Z :=
  let s := skip_space s in
  let '(sign, s) :=
    match s with
    | String "-" rest => (-1, rest)
    | String "+" rest => (1, rest)
    | _ => (1, s)
    end in
  let '(radix, s) :=
    match s with
    | String "0" (String "x" rest) => (16, rest)
    | String "0" (String "X" rest) => (16, rest)
    | _ => (10, s)
    end in
  option_map (Z.mul sign) (parse_digits radix s None).

(** [s.replace(/:/g, '')]. *)
Fixpoint strip_colons (s : string) : string :=
  match s with
  | String c rest =>
      if Ascii.eqb c ":" then strip_colons rest
      else String c (strip_colons rest)
  | EmptyString => EmptyString
  end.

(** A promise: pending, or settled once and for all. Resolving or
    rejecting a settled promise does nothing. *)
Inductive promise (A : Type) : Type :=
| Pending
| Resolved (value : A)
| Rejected (reason : string).
Arguments Pending {A}.
Arguments Resolved {A} value.
Arguments Rejected {A} reason.

Definition resolve {A} (v : A) (p : promise A) : promise A :=
  match p with Pending => Resolved v | _ => p end.

Definition reject {A} (e : string) (p : promise A) : promise A :=
  match p with Pending => Rejected e | _ => p end.

End JS.

(* ================================================================== *)
(** ** Time codec ([therm-smart.js], lines 12-18) *)

Module TimeCodec.
Import JS.

(** [b => (((b & 0xf0) >> 4) * 10) + (b & 0xf)] *)
Definition bcdByteToInt (b : Z) : Z :=
  shr (band b 0xf0) 4 * 10 + band b 0xf.

(** [i => ((i / 10) << 4) + (i % 10)] *)
Definition intToBCDByte (i : Z) : Z :=
  shl_frac (div i 10) 4 + rem i 10.

Definition bcd_roundtrip_at (n : Z) : bool :=
  (bcdByteToInt (intToBCDByte n) =? n)
  && (intToBCDByte n =? 16 * (n / 10) + n mod 10)
  && (shr (band (intToBCDByte n) 0xf0) 4 =? n / 10)
  && (band (intToBCDByte n) 0xf =? n mod 10).

End TimeCodec.

(* ================================================================== *)
(** ** Byte decoders of the legacy class ([src/scripts/listen.js], lines 56-62) *)

Module SensorCodec.
Import JS.

(** [parseInt(data.toString('hex', position, position + 1))] *)
Definition readRelativeHumidity (data : Buffer) (position : nat) : option Z :=
  parseInt (toString_hex data position (position + 1)).

(** The reading of one byte by [readRelativeHumidity]: both digits when
    both are decimal, the high digit alone when only the low one is a
    letter, and no number when the high digit is a letter. *)
Definition humidity_of_byte (b : byte) : option Z :=
  let hi := Z.of_N (Byte.to_N b / 16) in
  let lo := Z.of_N (Byte.to_N b mod 16) in
  if hi <=? 9
  then if lo <=? 9 then Some (10 * hi + lo) else Some hi
  else None.

End SensorCodec.

(* ================================================================== *)
(** ** The radio library's values *)

Module Noble.
Import JS.

(** A discovered peripheral. [address] and [manufacturerData] may be
    [undefined] ([None]). *)
Record peripheral : Type := {
  id : string;
  address : option string;
  localName : option string;
  manufacturerData : option Buffer
}.

(** A GATT characteristic object; [handle] tells apart the objects of two
    discoveries. *)
Record characteristic : Type := {
  uuid : string;
  handle : nat
}.

Definition characteristic_eqb (a b : characteristic) : bool :=
  String.eqb (uuid a) (uuid b) && Nat.eqb (handle a) (handle b).

(** [characteristics.find(c => c.uuid === u)] *)
Definition find_uuid (u : string) (cs : list characteristic)
  : option characteristic :=
  List.find (fun c => String.eqb (uuid c) u) cs.

End Noble.

(* ================================================================== *)
(** ** Readings *)

Module Reading.

(** Modelled from the spec: the module [./reading] ([Reading] and
    [Reading.parseReadings]) is not among the sources. The kinds of reading
    of section 3 of the specification. *)
Inductive reading_type : Type := temperature | humidity | battery_level.

(** Modelled from the spec: the sensor roles of section 3. *)
Inductive sensor_role : Type := indoor | outdoor.

(** Modelled from the spec: the record of section 3. The parser,
    [Reading.parseReadings], stays a parameter of the scan. *)
Record t : Type := {
  type : reading_type;
  sensor : option sensor_role;
  value : Q;
  symbol : option string
}.

End Reading.

(* ================================================================== *)
(** ** [ThermSmart]: scanning ([therm-smart.js], lines 21-152) *)

Module Scan.
Import JS Noble.

Definition COMPANY_ID : Z := 0x4842.
Definition SERVICE_UUID : string := "fff0".

(** What running a function body gives: it returns, after the calls it made
    to the caller's handler, or it throws. *)
Inductive completion (A : Type) : Type :=
| Returns (calls : list A)
| Throws (error : string).
Arguments Returns {A} calls.
Arguments Throws {A} error.

(** [v && v.replace(/:/g, '')] *)
Definition stripped (address : option string) : option string :=
  match address with
  | Some a => if String.eqb a "" then Some "" else Some (strip_colons a)
  | None => None
  end.

(** A truthy string: neither [undefined] nor empty. *)
Definition truthy (v : option string) : option string :=
  match v with
  | Some a => if String.eqb a "" then None else Some a
  | None => None
  end.

(** [addresses.indexOf(address) === -1] *)
Definition not_listed (addresses : list string) (address : option string) : bool :=
  match address with
  | Some a => negb (existsb (String.eqb a) addresses)
  | None => true
  end.

(** A [Buffer] read that throws when it leaves the buffer. *)
Definition or_throw {A B} (v : option A) (k : A -> completion B) : completion B :=
  match v with
  | Some a => k a
  | None => Throws "RangeError"
  end.

Section DiscoverHandler.

(** [Reading.parseReadings] *)
Variable parseReadings : Buffer -> list Reading.t.
(** Whether [scanForReadings] was given a [readingHandler]. *)
Variable readingHandler : bool.
(** The optional list of addresses; [None] is a falsy argument. *)
Variable addresses : option (list string).

(** Lines 107-115: the allow-list, then one call of [readingHandler] per
    reading parsed from the bytes after the 8-byte header. *)
Definition deliver_readings (p : peripheral) (data : Buffer)
           (address : option string) : completion (Reading.t * peripheral) :=
  if match addresses with
     | Some l => not_listed l address
     | None => false
     end
  then Returns []
  else if readingHandler
       then Returns (map (fun r => (r, p)) (parseReadings (slice data 8)))
       else Returns [].

(** The [discoverHandler] of [scanForReadings] (lines 94-116). The calls
    are those of [readingHandler], in order. *)
Definition discoverHandler (p : peripheral)
  : completion (Reading.t * peripheral) :=
  match manufacturerData p with
  | None => Throws "TypeError"          (* [data.length] of [undefined] *)
  | Some data =>
      if (List.length data <? 9)%nat then Returns []
      else
        or_throw (readUInt16LE data 0) (fun company =>
        if negb (company =? COMPANY_ID) then Returns []
        else
          let address := stripped (address p) in
          match truthy address with
          | Some a =>
              or_throw (readUIntLE data 2 6) (fun derived =>
              if negb (String.eqb (toString16 derived) a) then Returns []
              else deliver_readings p data address)
          | None => deliver_readings p data address
          end)
  end.

End DiscoverHandler.

(** *** The scan as a whole

    [noble] is the process-wide radio object: its [state], its listeners and
    the timer queue are fields of the world. *)

Inductive listener : Type :=
| powerOn_stateChangeHandler      (* lines 32-38 *)
| scan_discoverHandler            (* lines 94-116 *)
| scan_scanStopHandler            (* lines 118-120 *)
| scan_stateChangeHandler.        (* lines 122-130 *)

Definition listener_eqb (a b : listener) : bool :=
  match a, b with
  | powerOn_stateChangeHandler, powerOn_stateChangeHandler
  | scan_discoverHandler, scan_discoverHandler
  | scan_scanStopHandler, scan_scanStopHandler
  | scan_stateChangeHandler, scan_stateChangeHandler => true
  | _, _ => false
  end.

(** [emitter.removeListener(name, l)]: the most recently added instance of
    [l] goes. *)
Fixpoint remove_last (l : listener) (ls : list listener) : list listener :=
  match ls with
  | [] => []
  | x :: rest =>
      if listener_eqb x l && negb (existsb (listener_eqb l) rest)
      then rest
      else x :: remove_last l rest
  end.

(** Calls into the radio, in the order made. *)
Inductive request : Type :=
| startScanning (serviceUUIDs : list string) (allowDuplicates : bool)
| stopScanning.

Record world : Type := {
  noble_state : string;
  now : Z;                               (* the clock, in ms *)
  timeout : option Z;                    (* when [powerOn]'s timer is due *)
  on_stateChange : list listener;
  on_discover : list listener;
  on_scanStop : list listener;
  requests : list request;
  starting : bool;                       (* [startScanning]'s callback is due *)
  p_powerOn : promise unit;              (* the promise of [powerOn()] *)
  p_scan : promise unit;                 (* the promise of [scanForReadings] *)
  calls : list (Reading.t * peripheral); (* calls of [readingHandler] *)
  uncaught : list string                 (* errors thrown out of a listener *)
}.

(** Assignments to one field. *)
Definition set_noble_state (v : string) (w : world) : world :=
  {| noble_state := v; now := now w; timeout := timeout w; on_stateChange :=
     on_stateChange w; on_discover := on_discover w; on_scanStop :=
     on_scanStop w; requests := requests w; starting := starting w;
     p_powerOn := p_powerOn w; p_scan := p_scan w; calls := calls w;
     uncaught := uncaught w |}.

Definition set_now (v : Z) (w : world) : world :=
  {| noble_state := noble_state w; now := v; timeout := timeout w;
     on_stateChange := on_stateChange w; on_discover := on_discover w;
     on_scanStop := on_scanStop w; requests := requests w; starting :=
     starting w; p_powerOn := p_powerOn w; p_scan := p_scan w; calls :=
     calls w; uncaught := uncaught w |}.

Definition set_timeout (v : option Z) (w : world) : world :=
  {| noble_state := noble_state w; now := now w; timeout := v;
     on_stateChange := on_stateChange w; on_discover := on_discover w;
     on_scanStop := on_scanStop w; requests := requests w; starting :=
     starting w; p_powerOn := p_powerOn w; p_scan := p_scan w; calls :=
     calls w; uncaught := uncaught w |}.

Definition set_on_stateChange (v : list listener) (w : world) : world :=
  {| noble_state := noble_state w; now := now w; timeout := timeout w;
     on_stateChange := v; on_discover := on_discover w; on_scanStop :=
     on_scanStop w; requests := requests w; starting := starting w;
     p_powerOn := p_powerOn w; p_scan := p_scan w; calls := calls w;
     uncaught := uncaught w |}.

Definition set_on_discover (v : list listener) (w : world) : world :=
  {| noble_state := noble_state w; now := now w; timeout := timeout w;
     on_stateChange := on_stateChange w; on_discover := v; on_scanStop :=
     on_scanStop w; requests := requests w; starting := starting w;
     p_powerOn := p_powerOn w; p_scan := p_scan w; calls := calls w;
     uncaught := uncaught w |}.

Definition set_on_scanStop (v : list listener) (w : world) : world :=
  {| noble_state := noble_state w; now := now w; timeout := timeout w;
     on_stateChange := on_stateChange w; on_discover := on_discover w;
     on_scanStop := v; requests := requests w; starting := starting w;
     p_powerOn := p_powerOn w; p_scan := p_scan w; calls := calls w;
     uncaught := uncaught w |}.

Definition set_requests (v : list request) (w : world) : world :=
  {| noble_state := noble_state w; now := now w; timeout := timeout w;
     on_stateChange := on_stateChange w; on_discover := on_discover w;
     on_scanStop := on_scanStop w; requests := v; starting := starting w;
     p_powerOn := p_powerOn w; p_scan := p_scan w; calls := calls w;
     uncaught := uncaught w |}.

Definition set_starting (v : bool) (w : world) : world :=
  {| noble_state := noble_state w; now := now w; timeout := timeout w;
     on_stateChange := on_stateChange w; on_discover := on_discover w;
     on_scanStop := on_scanStop w; requests := requests w; starting := v;
     p_powerOn := p_powerOn w; p_scan := p_scan w; calls := calls w;
     uncaught := uncaught w |}.

Definition set_p_powerOn (v : promise unit) (w : world) : world :=
  {| noble_state := noble_state w; now := now w; timeout := timeout w;
     on_stateChange := on_stateChange w; on_discover := on_discover w;
     on_scanStop := on_scanStop w; requests := requests w; starting :=
     starting w; p_powerOn := v; p_scan := p_scan w; calls := calls w;
     uncaught := uncaught w |}.

Definition set_p_scan (v : promise unit) (w : world) : world :=
  {| noble_state := noble_state w; now := now w; timeout := timeout w;
     on_stateChange := on_stateChange w; on_discover := on_discover w;
     on_scanStop := on_scanStop w; requests := requests w; starting :=
     starting w; p_powerOn := p_powerOn w; p_scan := v; calls := calls w;
     uncaught := uncaught w |}.

Definition set_calls (v : list (Reading.t * peripheral)) (w : world) : world :=
  {| noble_state := noble_state w; now := now w; timeout := timeout w;
     on_stateChange := on_stateChange w; on_discover := on_discover w;
     on_scanStop := on_scanStop w; requests := requests w; starting :=
     starting w; p_powerOn := p_powerOn w; p_scan := p_scan w; calls := v;
     uncaught := uncaught w |}.

Definition set_uncaught (v : list string) (w : world) : world :=
  {| noble_state := noble_state w; now := now w; timeout := timeout w;
     on_stateChange := on_stateChange w; on_discover := on_discover w;
     on_scanStop := on_scanStop w; requests := requests w; starting :=
     starting w; p_powerOn := p_powerOn w; p_scan := p_scan w; calls :=
     calls w; uncaught := v |}.

(** The radio at rest. *)
Definition idle (state : string) (t : Z) : world :=
  {| noble_state := state; now := t; timeout := None;
     on_stateChange := []; on_discover := []; on_scanStop := [];
     requests := []; starting := false;
     p_powerOn := Pending; p_scan := Pending; calls := []; uncaught := [] |}.

Inductive event : Type :=
| StateChange (state : string)     (* noble emits 'stateChange' *)
| Elapse (ms : Z)                  (* time passes *)
| ScanStarted (error : option string)   (* the callback of [startScanning] *)
| Discover (p : peripheral)        (* noble emits 'discover' *)
| ScanStop.                        (* noble emits 'scanStop' *)

Section ScanForReadings.

Variable parseReadings : Buffer -> list Reading.t.
Variable readingHandler : bool.
Variable addresses : option (list string).

(** Lines 93 and 132: once [powerOn()] is fulfilled the scan is requested,
    with duplicates allowed. *)
Definition start_scan (w : world) : world :=
  set_starting true
    (set_requests (requests w ++ [startScanning [SERVICE_UUID] true]) w).

(** [ThermSmart.powerOn().then(...)] (line 92): [powerOn()] is the call
    made by [scanForReadings]; its fulfilment starts the scan and its
    rejection rejects the whole call. *)
Definition powerOn_resolve (w : world) : world :=
  match p_powerOn w with
  | Pending => start_scan (set_p_powerOn (Resolved tt) w)
  | _ => w
  end.

Definition powerOn_reject (e : string) (w : world) : world :=
  match p_powerOn w with
  | Pending => set_p_scan (reject e (p_scan w)) (set_p_powerOn (Rejected e) w)
  | _ => w
  end.

(** [ThermSmart.powerOn] (lines 21-42), called at time [now w]. *)
Definition powerOn (w : world) : world :=
  if String.eqb (noble_state w) "poweredOn"
  then powerOn_resolve w
  else
    set_on_stateChange (on_stateChange w ++ [powerOn_stateChangeHandler])
      (set_timeout (Some (now w + 5000)) w).

(** [ThermSmart.scanForReadings(readingHandler, addresses)] (lines 91-144). *)
Definition scanForReadings (w : world) : world := powerOn w.

(** The timer's callback (lines 27-30). *)
Definition powerOn_timeout (w : world) : world :=
  powerOn_reject
    ("Timeout while waiting for power on (state: " ++ noble_state w ++ ")")
    (set_on_stateChange
       (remove_last powerOn_stateChangeHandler (on_stateChange w))
       (set_timeout None w)).

(** One listener, called with the event's argument. *)
Definition run_listener (l : listener) (ev : event) (w : world) : world :=
  match l, ev with
  | powerOn_stateChangeHandler, StateChange state =>
      if String.eqb state "poweredOn"
      then
        powerOn_resolve
          (set_on_stateChange
             (remove_last powerOn_stateChangeHandler (on_stateChange w))
             (set_timeout None w))                          (* clearTimeout *)
      else w
  | scan_stateChangeHandler, StateChange state =>
      if negb (String.eqb state "poweredOn")
      then
        set_p_scan (reject ("State changed to " ++ state) (p_scan w))
          (set_requests (requests w ++ [stopScanning])
             (set_on_stateChange
                (remove_last scan_stateChangeHandler (on_stateChange w))
                (set_on_scanStop
                   (remove_last scan_scanStopHandler (on_scanStop w))
                   (set_on_discover
                      (remove_last scan_discoverHandler (on_discover w)) w))))
      else w
  | scan_discoverHandler, Discover p =>
      match discoverHandler parseReadings readingHandler addresses p with
      | Returns cs => set_calls (calls w ++ cs) w
      | Throws e => set_uncaught (uncaught w ++ [e]) w
      end
  | scan_scanStopHandler, ScanStop => set_p_scan (resolve tt (p_scan w)) w
  | _, _ => w
  end.

(** [emit]: the listeners registered when the event is emitted are called in
    the order they were added; an error thrown by one ends the round. *)
Fixpoint emit (ls : list listener) (ev : event) (w : world) : world :=
  match ls with
  | [] => w
  | l :: rest =>
      let w' := run_listener l ev w in
      if (List.length (uncaught w) <? List.length (uncaught w'))%nat
      then w'
      else emit rest ev w'
  end.

(** One turn of the event loop. *)
Definition deliver (ev : event) (w : world) : world :=
  match ev with
  | StateChange state =>
      emit (on_stateChange w) ev (set_noble_state state w)
  | Elapse ms =>
      let w1 := set_now (now w + ms) w in
      match timeout w with
      | Some due => if due <=? now w1 then powerOn_timeout w1 else w1
      | None => w1
      end
  | ScanStarted error =>
      if starting w
      then
        match error with
        | Some e => set_p_scan (reject e (p_scan w)) (set_starting false w)
        | None =>
            set_on_stateChange (on_stateChange w ++ [scan_stateChangeHandler])
              (set_on_scanStop (on_scanStop w ++ [scan_scanStopHandler])
                 (set_on_discover (on_discover w ++ [scan_discoverHandler])
                    (set_starting false w)))
        end
      else w
  | Discover _ => emit (on_discover w) ev w
  | ScanStop => emit (on_scanStop w) ev w
  end.

Definition run (evs : list event) (w : world) : world :=
  fold_left (fun w ev => deliver ev w) evs w.

End ScanForReadings.

(** The time that passes during a run of events, and whether an event
    brings the radio to the powered-on state. *)
Fixpoint elapsed (evs : list event) : Z :=
  match evs with
  | [] => 0
  | Elapse ms :: rest => ms + elapsed rest
  | _ :: rest => elapsed rest
  end.

Definition powers_on (ev : event) : bool :=
  match ev with
  | StateChange state => String.eqb state "poweredOn"
  | _ => false
  end.

Definition timeout_message (state : string) : string :=
  "Timeout while waiting for power on (state: " ++ state ++ ")".

(** [powerOn] is waiting: its timer is armed for [t0 + 5000] and not due. *)
Definition armed (t0 : Z) (w : world) : Prop :=
  timeout w = Some (t0 + 5000) /\ now w < t0 + 5000
  /\ on_stateChange w = [powerOn_stateChangeHandler]
  /\ on_discover w = [] /\ on_scanStop w = [] /\ starting w = false
  /\ p_powerOn w = Pending /\ p_scan w = Pending.

(** The timer has fired. *)
Definition fired (w : world) : Prop :=
  exists state,
    p_scan w = Rejected (timeout_message state)
    /\ p_powerOn w = Rejected (timeout_message state)
    /\ timeout w = None /\ on_stateChange w = []
    /\ on_discover w = [] /\ on_scanStop w = [] /\ starting w = false.

End Scan.

(* ================================================================== *)
(** ** [ThermSmart]: the device session ([therm-smart.js], lines 154-294) *)

Module Session.
Import JS Noble.

Definition SERVICE_UUID : string := "fff0".
Definition WRITE_CHARACTERISTIC_UUID : string := "fff3".
Definition NOTIFY_CHARACTERISTIC_UUID : string := "fff4".

(** The closures the class registers as listeners. *)
Inductive listener : Type :=
| getCharacteristics_disconnectHandler            (* lines 189-191 *)
| setupListeners_disconnectHandler                (* lines 219-221 *)
| write_dataHandler (responseCommand : Z).        (* lines 237-242 *)

Definition listener_eqb (a b : listener) : bool :=
  match a, b with
  | getCharacteristics_disconnectHandler, getCharacteristics_disconnectHandler
  | setupListeners_disconnectHandler, setupListeners_disconnectHandler => true
  | write_dataHandler x, write_dataHandler y => x =? y
  | _, _ => false
  end.

(** Calls into the radio, in the order made. *)
Inductive request : Type :=
| req_connect
| req_discover (serviceUUIDs characteristicUUIDs : list string)
| req_subscribe (c : characteristic)
| req_write (c : characteristic) (data : Buffer) (withoutResponse : bool).

(** The callbacks the radio still owes. *)
Inductive callback : Type := cb_connect | cb_discover | cb_subscribe | cb_write.

Definition callback_eqb (a b : callback) : bool :=
  match a, b with
  | cb_connect, cb_connect | cb_discover, cb_discover
  | cb_subscribe, cb_subscribe | cb_write, cb_write => true
  | _, _ => false
  end.

Fixpoint remove_first (c : callback) (cs : list callback) : list callback :=
  match cs with
  | [] => []
  | x :: rest => if callback_eqb x c then rest else x :: remove_first c rest
  end.

(** Events the instance emits itself. *)
Inductive signal : Type :=
| sig_connecting
| sig_connected
| sig_write (data : Buffer) (error : option string).

(** One [ThermSmart] instance with its peripheral. One [connect()] and one
    [write()] are in flight at a time; their promises are fields. *)
Record world : Type := {
  peripheral_state : string;                    (* [this.peripheral.state] *)
  on_disconnect : list listener;                (* of [this.peripheral] *)
  writeCharacteristic : option characteristic;
  notifyCharacteristic : option characteristic;
  on_data : list (characteristic * listener);   (* per characteristic object *)
  requests : list request;
  due : list callback;
  emitted : list signal;
  p_link : promise unit;                 (* lines 165-177 *)
  p_getCharacteristics : promise unit;   (* lines 188-214 *)
  p_setupListeners : promise unit;       (* lines 218-232 *)
  p_connect : promise unit;              (* the promise [connect()] returns *)
  write_args : option (Buffer * option Z);
  p_write : promise (option Buffer);     (* the promise [write()] returns *)
  uncaught : list string                 (* errors thrown out of a callback *)
}.

(** Assignments to one field. *)
Definition set_peripheral_state (v : string) (w : world) : world :=
  {| peripheral_state := v; on_disconnect := on_disconnect w;
     writeCharacteristic := writeCharacteristic w; notifyCharacteristic :=
     notifyCharacteristic w; on_data := on_data w; requests := requests w;
     due := due w; emitted := emitted w; p_link := p_link w;
     p_getCharacteristics := p_getCharacteristics w; p_setupListeners :=
     p_setupListeners w; p_connect := p_connect w; write_args := write_args
     w; p_write := p_write w; uncaught := uncaught w |}.

Definition set_on_disconnect (v : list listener) (w : world) : world :=
  {| peripheral_state := peripheral_state w; on_disconnect := v;
     writeCharacteristic := writeCharacteristic w; notifyCharacteristic :=
     notifyCharacteristic w; on_data := on_data w; requests := requests w;
     due := due w; emitted := emitted w; p_link := p_link w;
     p_getCharacteristics := p_getCharacteristics w; p_setupListeners :=
     p_setupListeners w; p_connect := p_connect w; write_args := write_args
     w; p_write := p_write w; uncaught := uncaught w |}.

Definition set_writeCharacteristic (v : option characteristic) (w : world) : world :=
  {| peripheral_state := peripheral_state w; on_disconnect := on_disconnect
     w; writeCharacteristic := v; notifyCharacteristic :=
     notifyCharacteristic w; on_data := on_data w; requests := requests w;
     due := due w; emitted := emitted w; p_link := p_link w;
     p_getCharacteristics := p_getCharacteristics w; p_setupListeners :=
     p_setupListeners w; p_connect := p_connect w; write_args := write_args
     w; p_write := p_write w; uncaught := uncaught w |}.

Definition set_notifyCharacteristic (v : option characteristic) (w : world) : world :=
  {| peripheral_state := peripheral_state w; on_disconnect := on_disconnect
     w; writeCharacteristic := writeCharacteristic w; notifyCharacteristic
     := v; on_data := on_data w; requests := requests w; due := due w;
     emitted := emitted w; p_link := p_link w; p_getCharacteristics :=
     p_getCharacteristics w; p_setupListeners := p_setupListeners w;
     p_connect := p_connect w; write_args := write_args w; p_write :=
     p_write w; uncaught := uncaught w |}.

Definition set_on_data (v : list (characteristic * listener)) (w : world) : world :=
  {| peripheral_state := peripheral_state w; on_disconnect := on_disconnect
     w; writeCharacteristic := writeCharacteristic w; notifyCharacteristic
     := notifyCharacteristic w; on_data := v; requests := requests w; due :=
     due w; emitted := emitted w; p_link := p_link w; p_getCharacteristics
     := p_getCharacteristics w; p_setupListeners := p_setupListeners w;
     p_connect := p_connect w; write_args := write_args w; p_write :=
     p_write w; uncaught := uncaught w |}.

Definition set_requests (v : list request) (w : world) : world :=
  {| peripheral_state := peripheral_state w; on_disconnect := on_disconnect
     w; writeCharacteristic := writeCharacteristic w; notifyCharacteristic
     := notifyCharacteristic w; on_data := on_data w; requests := v; due :=
     due w; emitted := emitted w; p_link := p_link w; p_getCharacteristics
     := p_getCharacteristics w; p_setupListeners := p_setupListeners w;
     p_connect := p_connect w; write_args := write_args w; p_write :=
     p_write w; uncaught := uncaught w |}.

Definition set_due (v : list callback) (w : world) : world :=
  {| peripheral_state := peripheral_state w; on_disconnect := on_disconnect
     w; writeCharacteristic := writeCharacteristic w; notifyCharacteristic
     := notifyCharacteristic w; on_data := on_data w; requests := requests
     w; due := v; emitted := emitted w; p_link := p_link w;
     p_getCharacteristics := p_getCharacteristics w; p_setupListeners :=
     p_setupListeners w; p_connect := p_connect w; write_args := write_args
     w; p_write := p_write w; uncaught := uncaught w |}.

Definition set_emitted (v : list signal) (w : world) : world :=
  {| peripheral_state := peripheral_state w; on_disconnect := on_disconnect
     w; writeCharacteristic := writeCharacteristic w; notifyCharacteristic
     := notifyCharacteristic w; on_data := on_data w; requests := requests
     w; due := due w; emitted := v; p_link := p_link w; p_getCharacteristics
     := p_getCharacteristics w; p_setupListeners := p_setupListeners w;
     p_connect := p_connect w; write_args := write_args w; p_write :=
     p_write w; uncaught := uncaught w |}.

Definition set_p_link (v : promise unit) (w : world) : world :=
  {| peripheral_state := peripheral_state w; on_disconnect := on_disconnect
     w; writeCharacteristic := writeCharacteristic w; notifyCharacteristic
     := notifyCharacteristic w; on_data := on_data w; requests := requests
     w; due := due w; emitted := emitted w; p_link := v;
     p_getCharacteristics := p_getCharacteristics w; p_setupListeners :=
     p_setupListeners w; p_connect := p_connect w; write_args := write_args
     w; p_write := p_write w; uncaught := uncaught w |}.

Definition set_p_getCharacteristics (v : promise unit) (w : world) : world :=
  {| peripheral_state := peripheral_state w; on_disconnect := on_disconnect
     w; writeCharacteristic := writeCharacteristic w; notifyCharacteristic
     := notifyCharacteristic w; on_data := on_data w; requests := requests
     w; due := due w; emitted := emitted w; p_link := p_link w;
     p_getCharacteristics := v; p_setupListeners := p_setupListeners w;
     p_connect := p_connect w; write_args := write_args w; p_write :=
     p_write w; uncaught := uncaught w |}.

Definition set_p_setupListeners (v : promise unit) (w : world) : world :=
  {| peripheral_state := peripheral_state w; on_disconnect := on_disconnect
     w; writeCharacteristic := writeCharacteristic w; notifyCharacteristic
     := notifyCharacteristic w; on_data := on_data w; requests := requests
     w; due := due w; emitted := emitted w; p_link := p_link w;
     p_getCharacteristics := p_getCharacteristics w; p_setupListeners := v;
     p_connect := p_connect w; write_args := write_args w; p_write :=
     p_write w; uncaught := uncaught w |}.

Definition set_p_connect (v : promise unit) (w : world) : world :=
  {| peripheral_state := peripheral_state w; on_disconnect := on_disconnect
     w; writeCharacteristic := writeCharacteristic w; notifyCharacteristic
     := notifyCharacteristic w; on_data := on_data w; requests := requests
     w; due := due w; emitted := emitted w; p_link := p_link w;
     p_getCharacteristics := p_getCharacteristics w; p_setupListeners :=
     p_setupListeners w; p_connect := v; write_args := write_args w; p_write
     := p_write w; uncaught := uncaught w |}.

Definition set_write_args (v : option (Buffer * option Z)) (w : world) : world :=
  {| peripheral_state := peripheral_state w; on_disconnect := on_disconnect
     w; writeCharacteristic := writeCharacteristic w; notifyCharacteristic
     := notifyCharacteristic w; on_data := on_data w; requests := requests
     w; due := due w; emitted := emitted w; p_link := p_link w;
     p_getCharacteristics := p_getCharacteristics w; p_setupListeners :=
     p_setupListeners w; p_connect := p_connect w; write_args := v; p_write
     := p_write w; uncaught := uncaught w |}.

Definition set_p_write (v : promise (option Buffer)) (w : world) : world :=
  {| peripheral_state := peripheral_state w; on_disconnect := on_disconnect
     w; writeCharacteristic := writeCharacteristic w; notifyCharacteristic
     := notifyCharacteristic w; on_data := on_data w; requests := requests
     w; due := due w; emitted := emitted w; p_link := p_link w;
     p_getCharacteristics := p_getCharacteristics w; p_setupListeners :=
     p_setupListeners w; p_connect := p_connect w; write_args := write_args
     w; p_write := v; uncaught := uncaught w |}.

Definition set_uncaught (v : list string) (w : world) : world :=
  {| peripheral_state := peripheral_state w; on_disconnect := on_disconnect
     w; writeCharacteristic := writeCharacteristic w; notifyCharacteristic
     := notifyCharacteristic w; on_data := on_data w; requests := requests
     w; due := due w; emitted := emitted w; p_link := p_link w;
     p_getCharacteristics := p_getCharacteristics w; p_setupListeners :=
     p_setupListeners w; p_connect := p_connect w; write_args := write_args
     w; p_write := p_write w; uncaught := v |}.

(** [new ThermSmart(peripheral)] (lines 154-160). *)
Definition new (state : string) : world :=
  {| peripheral_state := state; on_disconnect := [];
     writeCharacteristic := None; notifyCharacteristic := None;
     on_data := []; requests := []; due := []; emitted := [];
     p_link := Pending; p_getCharacteristics := Pending;
     p_setupListeners := Pending; p_connect := Pending;
     write_args := None; p_write := Pending; uncaught := [] |}.

(** [emitter.removeListener(name, l)] *)
Fixpoint remove_listener (l : listener) (ls : list listener) : list listener :=
  match ls with
  | [] => []
  | x :: rest =>
      if listener_eqb x l && negb (existsb (listener_eqb l) rest)
      then rest
      else x :: remove_listener l rest
  end.

(** [c.removeListener('data', l)] on the characteristic object [c]. *)
Fixpoint remove_data_listener (c : characteristic) (l : listener)
         (ls : list (characteristic * listener))
  : list (characteristic * listener) :=
  match ls with
  | [] => []
  | (c', l') :: rest =>
      if characteristic_eqb c' c && listener_eqb l' l
         && negb (existsb (fun x => characteristic_eqb (fst x) c
                                    && listener_eqb (snd x) l) rest)
      then rest
      else (c', l') :: remove_data_listener c l rest
  end.

Definition issue (r : request) (c : callback) (w : world) : world :=
  set_due (due w ++ [c]) (set_requests (requests w ++ [r]) w).

(** The tail of the chain of [connect] (lines 182-184). *)
Definition setupListeners_settle (r : option string) (w : world) : world :=
  match p_setupListeners w with
  | Pending =>
      match r with
      | None =>
          set_p_connect (resolve tt (p_connect w))
            (set_emitted (emitted w ++ [sig_connected])
               (set_p_setupListeners (Resolved tt) w))
      | Some e =>
          set_p_connect (reject e (p_connect w))
            (set_p_setupListeners (Rejected e) w)
      end
  | _ => w
  end.

(** [_setupListeners] (lines 217-233). With no notify characteristic the
    executor throws, which rejects its promise. *)
Definition _setupListeners (w : world) : world :=
  let w1 := set_on_disconnect
              (on_disconnect w ++ [setupListeners_disconnectHandler])
              (set_p_setupListeners Pending w) in
  match notifyCharacteristic w1 with
  | Some c => issue (req_subscribe c) cb_subscribe w1
  | None => setupListeners_settle (Some "TypeError") w1
  end.

Definition getCharacteristics_settle (r : option string) (w : world) : world :=
  match p_getCharacteristics w with
  | Pending =>
      match r with
      | None => _setupListeners (set_p_getCharacteristics (Resolved tt) w)
      | Some e =>
          set_p_connect (reject e (p_connect w))
            (set_p_getCharacteristics (Rejected e) w)
      end
  | _ => w
  end.

(** [_getCharacteristics] (lines 187-215). *)
Definition _getCharacteristics (w : world) : world :=
  issue (req_discover [SERVICE_UUID] []) cb_discover
    (set_on_disconnect
       (on_disconnect w ++ [getCharacteristics_disconnectHandler])
       (set_p_getCharacteristics Pending w)).

Definition link_settle (r : option string) (w : world) : world :=
  match p_link w with
  | Pending =>
      match r with
      | None => _getCharacteristics (set_p_link (Resolved tt) w)
      | Some e =>
          set_p_connect (reject e (p_connect w)) (set_p_link (Rejected e) w)
      end
  | _ => w
  end.

(** [connect()] (lines 162-185). *)
Definition connect (w : world) : world :=
  let w1 := set_p_connect Pending
              (set_p_link Pending
                 (set_emitted (emitted w ++ [sig_connecting]) w)) in
  if String.eqb (peripheral_state w1) "connected"
  then link_settle None w1
  else issue req_connect cb_connect w1.

(** [write(data, responseCommand)] (lines 235-258); [None] is [null]. A
    missing characteristic makes the executor throw, which rejects. *)
Definition write (data : Buffer) (responseCommand : option Z) (w : world)
  : world :=
  let w1 := set_p_write Pending
              (set_write_args (Some (data, responseCommand)) w) in
  let listening :=
    match responseCommand with
    | Some x =>
        match notifyCharacteristic w1 with
        | Some n => Some (set_on_data (on_data w1 ++ [(n, write_dataHandler x)]) w1)
        | None => None
        end
    | None => Some w1
    end in
  match listening with
  | None => set_p_write (Rejected "TypeError") w1
  | Some w2 =>
      match writeCharacteristic w2 with
      | Some c => issue (req_write c data false) cb_write w2
      | None => set_p_write (Rejected "TypeError") w2
      end
  end.

(** [readTime()], [syncTime()] and [identify()] as far as their command goes
    (lines 260-294). *)
Definition readTime (w : world) : world := write [xd1; x01] (Some 0xd1) w.
Definition identify (w : world) : world := write [xd5] None w.

Inductive event : Type :=
| Connected (error : option string)       (* callback of [peripheral.connect] *)
| Discovered (error : option string) (characteristics : list characteristic)
| Subscribed (error : option string)      (* callback of [subscribe] *)
| Written (error : option string)         (* callback of [write] *)
| Data (c : characteristic) (receivedData : Buffer)   (* [c] emits 'data' *)
| Disconnect.                             (* the peripheral emits 'disconnect' *)

(** One listener, called with the event's argument. *)
Definition run_listener (l : listener) (ev : event) (w : world) : world :=
  match l, ev with
  | getCharacteristics_disconnectHandler, Disconnect =>
      getCharacteristics_settle (Some "Peripheral disconnected unexpectedly") w
  | setupListeners_disconnectHandler, Disconnect =>
      setupListeners_settle (Some "Peripheral disconnected unexpectedly") w
  | write_dataHandler responseCommand, Data _ receivedData =>
      match index receivedData 0 with
      | Some b =>
          if b =? responseCommand
          then
            match notifyCharacteristic w with
            | Some n =>
                set_p_write (resolve (Some receivedData) (p_write w))
                  (set_on_data
                     (remove_data_listener n (write_dataHandler responseCommand)
                        (on_data w)) w)
            | None => set_uncaught (uncaught w ++ ["TypeError"]) w
            end
          else w
      | None => w
      end
  | _, _ => w
  end.

Fixpoint emit (ls : list listener) (ev : event) (w : world) : world :=
  match ls with
  | [] => w
  | l :: rest =>
      let w' := run_listener l ev w in
      if (List.length (uncaught w) <? List.length (uncaught w'))%nat
      then w'
      else emit rest ev w'
  end.

(** The listeners of the characteristic object [c]. *)
Definition data_listeners (c : characteristic)
           (ls : list (characteristic * listener)) : list listener :=
  map snd (filter (fun x => characteristic_eqb (fst x) c) ls).

(** The callback of [writeCharacteristic.write] (lines 248-256). *)
Definition write_callback (error : option string) (w : world) : world :=
  match write_args w with
  | None => w
  | Some (data, responseCommand) =>
      let w1 := set_emitted (emitted w ++ [sig_write data error]) w in
      match error with
      | Some e =>
          match notifyCharacteristic w1 with
          | Some n =>
              set_p_write (reject e (p_write w1))
                (match responseCommand with
                 | Some x =>
                     set_on_data
                       (remove_data_listener n (write_dataHandler x) (on_data w1))
                       w1
                 | None => w1
                 end)
          | None => set_uncaught (uncaught w1 ++ ["TypeError"]) w1
          end
      | None =>
          match responseCommand with
          | None => set_p_write (resolve None (p_write w1)) w1
          | Some _ => w1
          end
      end
  end.

(** The callback of [discoverSomeServicesAndCharacteristics]
    (lines 197-212). *)
Definition discover_callback (error : option string)
           (characteristics : list characteristic) (w : world) : world :=
  let w1 := set_on_disconnect
              (remove_listener getCharacteristics_disconnectHandler
                 (on_disconnect w)) w in
  match error with
  | Some e => getCharacteristics_settle (Some e) w1
  | None =>
      getCharacteristics_settle None
        (set_notifyCharacteristic
           (find_uuid NOTIFY_CHARACTERISTIC_UUID characteristics)
           (set_writeCharacteristic
              (find_uuid WRITE_CHARACTERISTIC_UUID characteristics) w1))
  end.

(** The callback of [notifyCharacteristic.subscribe] (lines 224-231). *)
Definition subscribe_callback (error : option string) (w : world) : world :=
  setupListeners_settle error
    (set_on_disconnect
       (remove_listener setupListeners_disconnectHandler (on_disconnect w)) w).

Definition owed (c : callback) (w : world) : bool :=
  existsb (callback_eqb c) (due w).

Definition paid (c : callback) (w : world) : world :=
  set_due (remove_first c (due w)) w.

(** One turn of the event loop. A callback runs only when its request was
    made. The radio library sets the state of the peripheral before it calls
    back or emits; 'disconnect' listeners are all one-shot ([once]). *)
Definition deliver (ev : event) (w : world) : world :=
  match ev with
  | Connected error =>
      if owed cb_connect w
      then
        match error with
        | None =>
            link_settle None
              (set_peripheral_state "connected" (paid cb_connect w))
        | Some e => link_settle (Some e) (paid cb_connect w)
        end
      else w
  | Discovered error characteristics =>
      if owed cb_discover w
      then discover_callback error characteristics (paid cb_discover w)
      else w
  | Subscribed error =>
      if owed cb_subscribe w
      then subscribe_callback error (paid cb_subscribe w)
      else w
  | Written error =>
      if owed cb_write w
      then write_callback error (paid cb_write w)
      else w
  | Data c _ => emit (data_listeners c (on_data w)) ev w
  | Disconnect =>
      emit (on_disconnect w) ev
        (set_on_disconnect [] (set_peripheral_state "disconnected" w))
  end.

Definition run (evs : list event) (w : world) : world :=
  fold_left (fun w ev => deliver ev w) evs w.

(** The [Ready] state of the specification: connected, with both
    characteristics resolved. *)
Definition ready (w : world) : Prop :=
  peripheral_state w = "connected"
  /\ writeCharacteristic w <> None
  /\ notifyCharacteristic w <> None.

(** Whether an event leaves a pending [write(_, x)] waiting: it is neither
    a failure of the write nor a notification of characteristic [n] that
    starts with [x]. *)
Definition passes (x : Z) (n : characteristic) (ev : event) : bool :=
  match ev with
  | Data c d =>
      negb (characteristic_eqb c n
            && match index d 0 with Some b => b =? x | None => false end)
  | Written (Some _) => false
  | _ => true
  end.

(** No call is in flight and no listener is left over. *)
Definition quiet (w : world) : Prop :=
  due w = [] /\ on_data w = [] /\ on_disconnect w = [].

(** A [write(data, x)] is waiting for its response on [n]. *)
Definition waiting (data : Buffer) (x : Z) (n : characteristic) (w : world)
  : Prop :=
  notifyCharacteristic w = Some n
  /\ p_write w = Pending
  /\ on_data w = [(n, write_dataHandler x)]
  /\ on_disconnect w = []
  /\ write_args w = Some (data, Some x)
  /\ (due w = [cb_write] \/ due w = []).

(** The stages of a [connect()] in flight. *)
Definition linking (w : world) : Prop :=
  due w = [cb_connect] /\ p_link w = Pending /\ p_connect w = Pending.

Definition discovering (w : world) : Prop :=
  due w = [cb_discover] /\ p_getCharacteristics w = Pending
  /\ p_connect w = Pending /\ peripheral_state w = "connected".

Definition subscribing (n : characteristic) (c : option characteristic)
           (w : world) : Prop :=
  due w = [cb_subscribe] /\ p_setupListeners w = Pending
  /\ p_connect w = Pending /\ peripheral_state w = "connected"
  /\ notifyCharacteristic w = Some n /\ writeCharacteristic w = c.

Definition completion_of (w : world) (cs : list characteristic) : list event :=
  (if String.eqb (peripheral_state w) "connected" then [] else [Connected None])
    ++ [Discovered None cs; Subscribed None].

Definition reconnected (w : world) (cs : list characteristic) : world :=
  run (completion_of w cs) (connect w).

End Session.

(* ================================================================== *)
(** ** [ThermSmartSensor]: the legacy class ([src/scripts/listen.js], lines 64-240) *)

Module Sensor.
Import JS Noble.

Definition SERVICE_UUID : string := "fff0".
Definition WRITE_CHARACTERISTIC_UUID : string := "fff3".
Definition NOTIFY_CHARACTERISTIC_UUID : string := "fff4".
Definition GET_TEMPERATURE_COMMAND : Z := 0xd2.

Inductive listener : Type :=
| isPoweredOn_stateChangeHandler        (* lines 80-85 *)
| scan_discoverHandler                  (* lines 99-113 *)
| scan_stateChangeHandler               (* lines 115-122 *)
| handleDisconnect_bound                (* line 102 *)
| load_dataHandler.                     (* lines 200-207 *)

Definition listener_eqb (a b : listener) : bool :=
  match a, b with
  | isPoweredOn_stateChangeHandler, isPoweredOn_stateChangeHandler
  | scan_discoverHandler, scan_discoverHandler
  | scan_stateChangeHandler, scan_stateChangeHandler
  | handleDisconnect_bound, handleDisconnect_bound
  | load_dataHandler, load_dataHandler => true
  | _, _ => false
  end.

Inductive request : Type :=
| req_startScanning (serviceUUIDs : list string) (allowDuplicates : bool)
| req_stopScanning
| req_connect
| req_discover (serviceUUIDs characteristicUUIDs : list string)
| req_subscribe (c : characteristic)
| req_write (c : characteristic) (data : Buffer) (withoutResponse : bool).

Inductive callback : Type :=
| cb_startScanning | cb_connect | cb_discover | cb_subscribe | cb_write.

Definition callback_eqb (a b : callback) : bool :=
  match a, b with
  | cb_startScanning, cb_startScanning | cb_connect, cb_connect
  | cb_discover, cb_discover | cb_subscribe, cb_subscribe
  | cb_write, cb_write => true
  | _, _ => false
  end.

Fixpoint remove_first (c : callback) (cs : list callback) : list callback :=
  match cs with
  | [] => []
  | x :: rest => if callback_eqb x c then rest else x :: remove_first c rest
  end.

(** The method the caller invoked; the methods are chained:
    [loadTemperatureData] continues [connect], which continues [scan],
    which continues [isPoweredOn]. *)
Inductive entry : Type :=
| call_isPoweredOn | call_scan | call_connect | call_loadTemperatureData.

Definition continues_scan (e : entry) : bool :=
  match e with call_isPoweredOn => false | _ => true end.
Definition continues_connect (e : entry) : bool :=
  match e with call_connect | call_loadTemperatureData => true | _ => false end.
Definition continues_load (e : entry) : bool :=
  match e with call_loadTemperatureData => true | _ => false end.

(** One [ThermSmartSensor] instance, the radio and the peripheral object it
    holds or is about to hold. One call of an entry point is in flight at a
    time. *)
Record world : Type := {
  noble_state : string;
  now : Z;                                   (* the clock, in ms *)
  on_stateChange : list listener;            (* of noble *)
  on_discover : list listener;               (* of noble *)
  address : option string;                   (* [this.address]; [None] is null *)
  peripheral : option Noble.peripheral;      (* [this.peripheral] *)
  peripheral_state : string;                 (* [state] of that peripheral *)
  on_disconnect : list listener;             (* of that peripheral *)
  writeCharacteristic : option characteristic;
  notifyCharacteristic : option characteristic;
  temperatureData : option Buffer;
  on_data : list (characteristic * listener);
  requests : list request;
  due : list callback;
  call : entry;
  p_isPoweredOn : promise unit;
  p_scan : promise Noble.peripheral;
  p_connect : promise Noble.peripheral;
  p_load : promise Buffer;
  logged : list string;
  uncaught : list string
}.

(** Assignments to one field. *)
Definition set_noble_state (v : string) (w : world) : world :=
  {| noble_state := v; now := now w; on_stateChange := on_stateChange w;
     on_discover := on_discover w; address := address w; peripheral :=
     peripheral w; peripheral_state := peripheral_state w; on_disconnect :=
     on_disconnect w; writeCharacteristic := writeCharacteristic w;
     notifyCharacteristic := notifyCharacteristic w; temperatureData :=
     temperatureData w; on_data := on_data w; requests := requests w; due :=
     due w; call := call w; p_isPoweredOn := p_isPoweredOn w; p_scan :=
     p_scan w; p_connect := p_connect w; p_load := p_load w; logged :=
     logged w; uncaught := uncaught w |}.

Definition set_now (v : Z) (w : world) : world :=
  {| noble_state := noble_state w; now := v; on_stateChange :=
     on_stateChange w; on_discover := on_discover w; address := address w;
     peripheral := peripheral w; peripheral_state := peripheral_state w;
     on_disconnect := on_disconnect w; writeCharacteristic :=
     writeCharacteristic w; notifyCharacteristic := notifyCharacteristic w;
     temperatureData := temperatureData w; on_data := on_data w; requests :=
     requests w; due := due w; call := call w; p_isPoweredOn :=
     p_isPoweredOn w; p_scan := p_scan w; p_connect := p_connect w; p_load
     := p_load w; logged := logged w; uncaught := uncaught w |}.

Definition set_on_stateChange (v : list listener) (w : world) : world :=
  {| noble_state := noble_state w; now := now w; on_stateChange := v;
     on_discover := on_discover w; address := address w; peripheral :=
     peripheral w; peripheral_state := peripheral_state w; on_disconnect :=
     on_disconnect w; writeCharacteristic := writeCharacteristic w;
     notifyCharacteristic := notifyCharacteristic w; temperatureData :=
     temperatureData w; on_data := on_data w; requests := requests w; due :=
     due w; call := call w; p_isPoweredOn := p_isPoweredOn w; p_scan :=
     p_scan w; p_connect := p_connect w; p_load := p_load w; logged :=
     logged w; uncaught := uncaught w |}.

Definition set_on_discover (v : list listener) (w : world) : world :=
  {| noble_state := noble_state w; now := now w; on_stateChange :=
     on_stateChange w; on_discover := v; address := address w; peripheral :=
     peripheral w; peripheral_state := peripheral_state w; on_disconnect :=
     on_disconnect w; writeCharacteristic := writeCharacteristic w;
     notifyCharacteristic := notifyCharacteristic w; temperatureData :=
     temperatureData w; on_data := on_data w; requests := requests w; due :=
     due w; call := call w; p_isPoweredOn := p_isPoweredOn w; p_scan :=
     p_scan w; p_connect := p_connect w; p_load := p_load w; logged :=
     logged w; uncaught := uncaught w |}.

Definition set_address (v : option string) (w : world) : world :=
  {| noble_state := noble_state w; now := now w; on_stateChange :=
     on_stateChange w; on_discover := on_discover w; address := v;
     peripheral := peripheral w; peripheral_state := peripheral_state w;
     on_disconnect := on_disconnect w; writeCharacteristic :=
     writeCharacteristic w; notifyCharacteristic := notifyCharacteristic w;
     temperatureData := temperatureData w; on_data := on_data w; requests :=
     requests w; due := due w; call := call w; p_isPoweredOn :=
     p_isPoweredOn w; p_scan := p_scan w; p_connect := p_connect w; p_load
     := p_load w; logged := logged w; uncaught := uncaught w |}.

Definition set_peripheral (v : option Noble.peripheral) (w : world) : world :=
  {| noble_state := noble_state w; now := now w; on_stateChange :=
     on_stateChange w; on_discover := on_discover w; address := address w;
     peripheral := v; peripheral_state := peripheral_state w; on_disconnect
     := on_disconnect w; writeCharacteristic := writeCharacteristic w;
     notifyCharacteristic := notifyCharacteristic w; temperatureData :=
     temperatureData w; on_data := on_data w; requests := requests w; due :=
     due w; call := call w; p_isPoweredOn := p_isPoweredOn w; p_scan :=
     p_scan w; p_connect := p_connect w; p_load := p_load w; logged :=
     logged w; uncaught := uncaught w |}.

Definition set_peripheral_state (v : string) (w : world) : world :=
  {| noble_state := noble_state w; now := now w; on_stateChange :=
     on_stateChange w; on_discover := on_discover w; address := address w;
     peripheral := peripheral w; peripheral_state := v; on_disconnect :=
     on_disconnect w; writeCharacteristic := writeCharacteristic w;
     notifyCharacteristic := notifyCharacteristic w; temperatureData :=
     temperatureData w; on_data := on_data w; requests := requests w; due :=
     due w; call := call w; p_isPoweredOn := p_isPoweredOn w; p_scan :=
     p_scan w; p_connect := p_connect w; p_load := p_load w; logged :=
     logged w; uncaught := uncaught w |}.

Definition set_on_disconnect (v : list listener) (w : world) : world :=
  {| noble_state := noble_state w; now := now w; on_stateChange :=
     on_stateChange w; on_discover := on_discover w; address := address w;
     peripheral := peripheral w; peripheral_state := peripheral_state w;
     on_disconnect := v; writeCharacteristic := writeCharacteristic w;
     notifyCharacteristic := notifyCharacteristic w; temperatureData :=
     temperatureData w; on_data := on_data w; requests := requests w; due :=
     due w; call := call w; p_isPoweredOn := p_isPoweredOn w; p_scan :=
     p_scan w; p_connect := p_connect w; p_load := p_load w; logged :=
     logged w; uncaught := uncaught w |}.

Definition set_writeCharacteristic (v : option characteristic) (w : world) : world :=
  {| noble_state := noble_state w; now := now w; on_stateChange :=
     on_stateChange w; on_discover := on_discover w; address := address w;
     peripheral := peripheral w; peripheral_state := peripheral_state w;
     on_disconnect := on_disconnect w; writeCharacteristic := v;
     notifyCharacteristic := notifyCharacteristic w; temperatureData :=
     temperatureData w; on_data := on_data w; requests := requests w; due :=
     due w; call := call w; p_isPoweredOn := p_isPoweredOn w; p_scan :=
     p_scan w; p_connect := p_connect w; p_load := p_load w; logged :=
     logged w; uncaught := uncaught w |}.

Definition set_notifyCharacteristic (v : option characteristic) (w : world) : world :=
  {| noble_state := noble_state w; now := now w; on_stateChange :=
     on_stateChange w; on_discover := on_discover w; address := address w;
     peripheral := peripheral w; peripheral_state := peripheral_state w;
     on_disconnect := on_disconnect w; writeCharacteristic :=
     writeCharacteristic w; notifyCharacteristic := v; temperatureData :=
     temperatureData w; on_data := on_data w; requests := requests w; due :=
     due w; call := call w; p_isPoweredOn := p_isPoweredOn w; p_scan :=
     p_scan w; p_connect := p_connect w; p_load := p_load w; logged :=
     logged w; uncaught := uncaught w |}.

Definition set_temperatureData (v : option Buffer) (w : world) : world :=
  {| noble_state := noble_state w; now := now w; on_stateChange :=
     on_stateChange w; on_discover := on_discover w; address := address w;
     peripheral := peripheral w; peripheral_state := peripheral_state w;
     on_disconnect := on_disconnect w; writeCharacteristic :=
     writeCharacteristic w; notifyCharacteristic := notifyCharacteristic w;
     temperatureData := v; on_data := on_data w; requests := requests w; due
     := due w; call := call w; p_isPoweredOn := p_isPoweredOn w; p_scan :=
     p_scan w; p_connect := p_connect w; p_load := p_load w; logged :=
     logged w; uncaught := uncaught w |}.

Definition set_on_data (v : list (characteristic * listener)) (w : world) : world :=
  {| noble_state := noble_state w; now := now w; on_stateChange :=
     on_stateChange w; on_discover := on_discover w; address := address w;
     peripheral := peripheral w; peripheral_state := peripheral_state w;
     on_disconnect := on_disconnect w; writeCharacteristic :=
     writeCharacteristic w; notifyCharacteristic := notifyCharacteristic w;
     temperatureData := temperatureData w; on_data := v; requests :=
     requests w; due := due w; call := call w; p_isPoweredOn :=
     p_isPoweredOn w; p_scan := p_scan w; p_connect := p_connect w; p_load
     := p_load w; logged := logged w; uncaught := uncaught w |}.

Definition set_requests (v : list request) (w : world) : world :=
  {| noble_state := noble_state w; now := now w; on_stateChange :=
     on_stateChange w; on_discover := on_discover w; address := address w;
     peripheral := peripheral w; peripheral_state := peripheral_state w;
     on_disconnect := on_disconnect w; writeCharacteristic :=
     writeCharacteristic w; notifyCharacteristic := notifyCharacteristic w;
     temperatureData := temperatureData w; on_data := on_data w; requests :=
     v; due := due w; call := call w; p_isPoweredOn := p_isPoweredOn w;
     p_scan := p_scan w; p_connect := p_connect w; p_load := p_load w;
     logged := logged w; uncaught := uncaught w |}.

Definition set_due (v : list callback) (w : world) : world :=
  {| noble_state := noble_state w; now := now w; on_stateChange :=
     on_stateChange w; on_discover := on_discover w; address := address w;
     peripheral := peripheral w; peripheral_state := peripheral_state w;
     on_disconnect := on_disconnect w; writeCharacteristic :=
     writeCharacteristic w; notifyCharacteristic := notifyCharacteristic w;
     temperatureData := temperatureData w; on_data := on_data w; requests :=
     requests w; due := v; call := call w; p_isPoweredOn := p_isPoweredOn w;
     p_scan := p_scan w; p_connect := p_connect w; p_load := p_load w;
     logged := logged w; uncaught := uncaught w |}.

Definition set_call (v : entry) (w : world) : world :=
  {| noble_state := noble_state w; now := now w; on_stateChange :=
     on_stateChange w; on_discover := on_discover w; address := address w;
     peripheral := peripheral w; peripheral_state := peripheral_state w;
     on_disconnect := on_disconnect w; writeCharacteristic :=
     writeCharacteristic w; notifyCharacteristic := notifyCharacteristic w;
     temperatureData := temperatureData w; on_data := on_data w; requests :=
     requests w; due := due w; call := v; p_isPoweredOn := p_isPoweredOn w;
     p_scan := p_scan w; p_connect := p_connect w; p_load := p_load w;
     logged := logged w; uncaught := uncaught w |}.

Definition set_p_isPoweredOn (v : promise unit) (w : world) : world :=
  {| noble_state := noble_state w; now := now w; on_stateChange :=
     on_stateChange w; on_discover := on_discover w; address := address w;
     peripheral := peripheral w; peripheral_state := peripheral_state w;
     on_disconnect := on_disconnect w; writeCharacteristic :=
     writeCharacteristic w; notifyCharacteristic := notifyCharacteristic w;
     temperatureData := temperatureData w; on_data := on_data w; requests :=
     requests w; due := due w; call := call w; p_isPoweredOn := v; p_scan :=
     p_scan w; p_connect := p_connect w; p_load := p_load w; logged :=
     logged w; uncaught := uncaught w |}.

Definition set_p_scan (v : promise Noble.peripheral) (w : world) : world :=
  {| noble_state := noble_state w; now := now w; on_stateChange :=
     on_stateChange w; on_discover := on_discover w; address := address w;
     peripheral := peripheral w; peripheral_state := peripheral_state w;
     on_disconnect := on_disconnect w; writeCharacteristic :=
     writeCharacteristic w; notifyCharacteristic := notifyCharacteristic w;
     temperatureData := temperatureData w; on_data := on_data w; requests :=
     requests w; due := due w; call := call w; p_isPoweredOn :=
     p_isPoweredOn w; p_scan := v; p_connect := p_connect w; p_load :=
     p_load w; logged := logged w; uncaught := uncaught w |}.

Definition set_p_connect (v : promise Noble.peripheral) (w : world) : world :=
  {| noble_state := noble_state w; now := now w; on_stateChange :=
     on_stateChange w; on_discover := on_discover w; address := address w;
     peripheral := peripheral w; peripheral_state := peripheral_state w;
     on_disconnect := on_disconnect w; writeCharacteristic :=
     writeCharacteristic w; notifyCharacteristic := notifyCharacteristic w;
     temperatureData := temperatureData w; on_data := on_data w; requests :=
     requests w; due := due w; call := call w; p_isPoweredOn :=
     p_isPoweredOn w; p_scan := p_scan w; p_connect := v; p_load := p_load
     w; logged := logged w; uncaught := uncaught w |}.

Definition set_p_load (v : promise Buffer) (w : world) : world :=
  {| noble_state := noble_state w; now := now w; on_stateChange :=
     on_stateChange w; on_discover := on_discover w; address := address w;
     peripheral := peripheral w; peripheral_state := peripheral_state w;
     on_disconnect := on_disconnect w; writeCharacteristic :=
     writeCharacteristic w; notifyCharacteristic := notifyCharacteristic w;
     temperatureData := temperatureData w; on_data := on_data w; requests :=
     requests w; due := due w; call := call w; p_isPoweredOn :=
     p_isPoweredOn w; p_scan := p_scan w; p_connect := p_connect w; p_load
     := v; logged := logged w; uncaught := uncaught w |}.

Definition set_logged (v : list string) (w : world) : world :=
  {| noble_state := noble_state w; now := now w; on_stateChange :=
     on_stateChange w; on_discover := on_discover w; address := address w;
     peripheral := peripheral w; peripheral_state := peripheral_state w;
     on_disconnect := on_disconnect w; writeCharacteristic :=
     writeCharacteristic w; notifyCharacteristic := notifyCharacteristic w;
     temperatureData := temperatureData w; on_data := on_data w; requests :=
     requests w; due := due w; call := call w; p_isPoweredOn :=
     p_isPoweredOn w; p_scan := p_scan w; p_connect := p_connect w; p_load
     := p_load w; logged := v; uncaught := uncaught w |}.

Definition set_uncaught (v : list string) (w : world) : world :=
  {| noble_state := noble_state w; now := now w; on_stateChange :=
     on_stateChange w; on_discover := on_discover w; address := address w;
     peripheral := peripheral w; peripheral_state := peripheral_state w;
     on_disconnect := on_disconnect w; writeCharacteristic :=
     writeCharacteristic w; notifyCharacteristic := notifyCharacteristic w;
     temperatureData := temperatureData w; on_data := on_data w; requests :=
     requests w; due := due w; call := call w; p_isPoweredOn :=
     p_isPoweredOn w; p_scan := p_scan w; p_connect := p_connect w; p_load
     := p_load w; logged := logged w; uncaught := v |}.

(** [new ThermSmartSensor(address)] (lines 65-72). *)
Definition new (state : string) (t : Z) (addr : option string) : world :=
  {| noble_state := state; now := t; on_stateChange := []; on_discover := [];
     address := addr; peripheral := None; peripheral_state := "disconnected";
     on_disconnect := [];
     writeCharacteristic := None; notifyCharacteristic := None;
     temperatureData := None; on_data := []; requests := []; due := [];
     call := call_isPoweredOn;
     p_isPoweredOn := Pending; p_scan := Pending; p_connect := Pending;
     p_load := Pending; logged := []; uncaught := [] |}.

Fixpoint remove_listener (l : listener) (ls : list listener) : list listener :=
  match ls with
  | [] => []
  | x :: rest =>
      if listener_eqb x l && negb (existsb (listener_eqb l) rest)
      then rest
      else x :: remove_listener l rest
  end.

Fixpoint remove_data_listener (c : characteristic) (l : listener)
         (ls : list (characteristic * listener))
  : list (characteristic * listener) :=
  match ls with
  | [] => []
  | (c', l') :: rest =>
      if characteristic_eqb c' c && listener_eqb l' l
         && negb (existsb (fun x => characteristic_eqb (fst x) c
                                    && listener_eqb (snd x) l) rest)
      then rest
      else (c', l') :: remove_data_listener c l rest
  end.

Definition issue (r : request) (c : callback) (w : world) : world :=
  set_due (due w ++ [c]) (set_requests (requests w ++ [r]) w).

Definition log (msg : string) (w : world) : world :=
  set_logged (logged w ++ [msg]) w.

(** [handleDisconnect] (lines 185-191). *)
Definition handleDisconnect (w : world) : world :=
  set_temperatureData None
    (set_notifyCharacteristic None
       (set_writeCharacteristic None
          (set_peripheral None (log "Sensor was disconnected" w)))).

(** The body of [loadTemperatureData] after [connect()] (lines 195-219). *)
Definition load_body (w : world) : world :=
  match temperatureData w with
  | Some data => set_p_load (resolve data (p_load w)) w
  | None =>
      match notifyCharacteristic w with
      | None => set_p_load (reject "TypeError" (p_load w)) w
      | Some n =>
          let w1 := log "Loading temperature data..."
                      (set_on_data (on_data w ++ [(n, load_dataHandler)]) w) in
          match writeCharacteristic w1 with
          | None => set_p_load (reject "TypeError" (p_load w1)) w1
          | Some c => issue (req_write c [xd2] false) cb_write w1
          end
      end
  end.

Definition connect_settle (r : Noble.peripheral + string) (w : world) : world :=
  match p_connect w with
  | Pending =>
      match r with
      | inl p =>
          let w1 := set_p_connect (Resolved p) w in
          if continues_load (call w) then load_body w1 else w1
      | inr e =>
          let w1 := set_p_connect (Rejected e) w in
          if continues_load (call w)
          then set_p_load (reject e (p_load w1)) w1
          else w1
      end
  | _ => w
  end.

(** The body of [connect] after [scan()] (lines 139-181). *)
Definition connect_body (p : Noble.peripheral) (w : world) : world :=
  if String.eqb (peripheral_state w) "connected"
  then connect_settle (inl p) w
  else issue req_connect cb_connect (log "Connecting to sensor..." w).

Definition scan_settle (r : Noble.peripheral + string) (w : world) : world :=
  match p_scan w with
  | Pending =>
      match r with
      | inl p =>
          let w1 := set_p_scan (Resolved p) w in
          if continues_connect (call w) then connect_body p w1 else w1
      | inr e =>
          let w1 := set_p_scan (Rejected e) w in
          if continues_connect (call w) then connect_settle (inr e) w1 else w1
      end
  | _ => w
  end.

(** The body of [scan] after [isPoweredOn()] (lines 94-134). *)
Definition scan_body (w : world) : world :=
  match peripheral w with
  | Some p => scan_settle (inl p) w
  | None =>
      issue (req_startScanning [SERVICE_UUID] true) cb_startScanning w
  end.

Definition isPoweredOn_resolve (w : world) : world :=
  match p_isPoweredOn w with
  | Pending =>
      let w1 := set_p_isPoweredOn (Resolved tt) w in
      if continues_scan (call w) then scan_body w1 else w1
  | _ => w
  end.

(** [isPoweredOn] (lines 74-90). *)
Definition isPoweredOn_body (w : world) : world :=
  if String.eqb (noble_state w) "poweredOn"
  then isPoweredOn_resolve w
  else
    log "Waiting for Bluetooth device to power on..."
      (set_on_stateChange
         (on_stateChange w ++ [isPoweredOn_stateChangeHandler]) w).

Definition enter (e : entry) (w : world) : world :=
  isPoweredOn_body
    (set_p_load Pending
       (set_p_connect Pending
          (set_p_scan Pending (set_p_isPoweredOn Pending (set_call e w))))).

Definition isPoweredOn : world -> world := enter call_isPoweredOn.
Definition scan : world -> world := enter call_scan.
Definition connect : world -> world := enter call_connect.
Definition loadTemperatureData : world -> world := enter call_loadTemperatureData.

Inductive event : Type :=
| StateChange (state : string)
| Elapse (ms : Z)
| ScanStarted (error : option string)
| Discover (p : Noble.peripheral) (state : string)
| Connected (error : option string)
| Discovered (error : option string) (characteristics : list characteristic)
| Subscribed (error : option string)
| Written (error : option string)
| Data (c : characteristic) (data : Buffer) (isNotification : bool)
| Disconnect.

(** [characteristics.forEach(...)] (lines 161-167). *)
Fixpoint assign_characteristics (cs : list characteristic) (w : world) : world :=
  match cs with
  | [] => w
  | c :: rest =>
      assign_characteristics rest
        (if String.eqb (uuid c) WRITE_CHARACTERISTIC_UUID
         then set_writeCharacteristic (Some c) w
         else if String.eqb (uuid c) NOTIFY_CHARACTERISTIC_UUID
              then set_notifyCharacteristic (Some c) w
              else w)
  end.

Definition run_listener (l : listener) (ev : event) (w : world) : world :=
  match l, ev with
  | isPoweredOn_stateChangeHandler, StateChange state =>
      if String.eqb state "poweredOn"
      then
        isPoweredOn_resolve
          (set_on_stateChange
             (remove_listener isPoweredOn_stateChangeHandler (on_stateChange w))
             w)
      else w
  | scan_stateChangeHandler, StateChange state =>
      if negb (String.eqb state "poweredOn")
      then
        scan_settle (inr ("State is no longer poweredOn (" ++ state ++ ")"))
          (set_requests (requests w ++ [req_stopScanning])
             (set_on_stateChange
                (remove_listener scan_stateChangeHandler (on_stateChange w))
                (set_on_discover
                   (remove_listener scan_discoverHandler (on_discover w)) w)))
      else w
  | scan_discoverHandler, Discover p state =>
      if match address w with
         | None => true
         | Some a =>
             match Noble.address p with
             | Some b => String.eqb a b
             | None => false
             end
         end
      then
        scan_settle (inl p)
          (log "Found sensor with address"
             (set_requests (requests w ++ [req_stopScanning])
                (set_on_stateChange
                   (remove_listener scan_stateChangeHandler (on_stateChange w))
                   (set_on_discover
                      (remove_listener scan_discoverHandler (on_discover w))
                      (set_on_disconnect
                         (on_disconnect w ++ [handleDisconnect_bound])
                         (set_peripheral_state state
                            (set_peripheral (Some p) w)))))))
      else log "Skipping sensor with address" w
  | handleDisconnect_bound, Disconnect => handleDisconnect w
  | load_dataHandler, Data _ data isNotification =>
      if isNotification
      then
        match readUInt8 data 0 with
        | None => set_uncaught (uncaught w ++ ["RangeError"]) w
        | Some b =>
            if b =? GET_TEMPERATURE_COMMAND
            then
              let w1 := set_temperatureData (Some data) w in
              match notifyCharacteristic w1 with
              | None => set_uncaught (uncaught w1 ++ ["TypeError"]) w1
              | Some n =>
                  set_p_load (resolve data (p_load w1))
                    (log "Temperature data loaded"
                       (set_on_data
                          (remove_data_listener n load_dataHandler (on_data w1))
                          w1))
              end
            else w
        end
      else w
  | _, _ => w
  end.

Fixpoint emit (ls : list listener) (ev : event) (w : world) : world :=
  match ls with
  | [] => w
  | l :: rest =>
      let w' := run_listener l ev w in
      if (List.length (uncaught w) <? List.length (uncaught w'))%nat
      then w'
      else emit rest ev w'
  end.

Definition data_listeners (c : characteristic)
           (ls : list (characteristic * listener)) : list listener :=
  map snd (filter (fun x => characteristic_eqb (fst x) c) ls).

Definition owed (c : callback) (w : world) : bool :=
  existsb (callback_eqb c) (due w).

Definition paid (c : callback) (w : world) : world :=
  set_due (remove_first c (due w)) w.

(** The callbacks nested in [connect] (lines 146-180). *)
Definition subscribe_callback (error : option string) (w : world) : world :=
  match error with
  | Some e =>
      connect_settle (inr ("Failed to subscribe to characteristic: " ++ e)) w
  | None =>
      match p_scan w with                 (* [peripheral] of the closure *)
      | Resolved p => connect_settle (inl p) (log "Sensor connected" w)
      | _ => log "Sensor connected" w
      end
  end.

Definition discover_callback (error : option string)
           (characteristics : list characteristic) (w : world) : world :=
  match error with
  | Some e =>
      connect_settle
        (inr ("Failed to discover services and characteristics: " ++ e)) w
  | None =>
      let w1 := assign_characteristics characteristics w in
      match notifyCharacteristic w1 with
      | Some n => issue (req_subscribe n) cb_subscribe w1
      | None => set_uncaught (uncaught w1 ++ ["TypeError"]) w1
      end
  end.

Definition connect_callback (error : option string) (w : world) : world :=
  match error with
  | Some e => connect_settle (inr ("Failed to connect to sensor: " ++ e)) w
  | None =>
      issue
        (req_discover [SERVICE_UUID]
           [WRITE_CHARACTERISTIC_UUID; NOTIFY_CHARACTERISTIC_UUID])
        cb_discover w
  end.

(** The callback of the write of [loadTemperatureData] (lines 213-218). *)
Definition write_callback (error : option string) (w : world) : world :=
  match error with
  | Some e =>
      match notifyCharacteristic w with
      | Some n =>
          set_p_load
            (reject ("Failed to write to characteristic: " ++ e) (p_load w))
            (set_on_data (remove_data_listener n load_dataHandler (on_data w)) w)
      | None => set_uncaught (uncaught w ++ ["TypeError"]) w
      end
  | None => w
  end.

(** One turn of the event loop. *)
Definition deliver (ev : event) (w : world) : world :=
  match ev with
  | StateChange state => emit (on_stateChange w) ev (set_noble_state state w)
  | Elapse ms => set_now (now w + ms) w
  | ScanStarted error =>
      if owed cb_startScanning w
      then
        match error with
        | Some e =>
            scan_settle (inr ("Failed to scan for sensors: " ++ e))
              (paid cb_startScanning w)
        | None =>
            log "Scanning for sensors..."
              (set_on_stateChange (on_stateChange w ++ [scan_stateChangeHandler])
                 (set_on_discover (on_discover w ++ [scan_discoverHandler])
                    (paid cb_startScanning w)))
        end
      else w
  | Discover _ _ => emit (on_discover w) ev w
  | Connected error =>
      if owed cb_connect w
      then
        connect_callback error
          (match error with
           | None => set_peripheral_state "connected" (paid cb_connect w)
           | Some _ => paid cb_connect w
           end)
      else w
  | Discovered error characteristics =>
      if owed cb_discover w
      then discover_callback error characteristics (paid cb_discover w)
      else w
  | Subscribed error =>
      if owed cb_subscribe w
      then subscribe_callback error (paid cb_subscribe w)
      else w
  | Written error =>
      if owed cb_write w
      then write_callback error (paid cb_write w)
      else w
  | Data c _ _ => emit (data_listeners c (on_data w)) ev w
  | Disconnect =>
      emit (on_disconnect w) ev
        (set_on_disconnect [] (set_peripheral_state "disconnected" w))
  end.

Definition run (evs : list event) (w : world) : world :=
  fold_left (fun w ev => deliver ev w) evs w.

(** The [Ready] state of the specification: the radio is on, the sensor
    holds a connected peripheral and both characteristics. *)
Definition ready (w : world) : Prop :=
  noble_state w = "poweredOn"
  /\ peripheral w <> None
  /\ peripheral_state w = "connected"
  /\ writeCharacteristic w <> None
  /\ notifyCharacteristic w <> None.

(** The link of the sensor to its peripheral: the peripheral it holds and
    the listeners for its 'disconnect'. *)
Definition same_link (w w' : world) : Prop :=
  peripheral w' = peripheral w /\ on_disconnect w' = on_disconnect w.

(** Whoever holds a peripheral listens for its 'disconnect'. *)
Definition tracked (w : world) : Prop :=
  peripheral w <> None -> In handleDisconnect_bound (on_disconnect w).

(** What [handleDisconnect] leaves behind. *)
Definition cleared (w : world) : Prop :=
  peripheral w = None /\ writeCharacteristic w = None
  /\ notifyCharacteristic w = None /\ temperatureData w = None.

(** The fields of the object, and what a call or an event did besides. *)
Definition fields (w : world) :=
  (address w, peripheral w, peripheral_state w,
   writeCharacteristic w, notifyCharacteristic w, temperatureData w).

Definition effects (w : world) :=
  (requests w, due w, logged w, uncaught w,
   (on_stateChange w, on_discover w, on_disconnect w, on_data w)).

Definition powers_on (ev : event) : bool :=
  match ev with
  | StateChange state => String.eqb state "poweredOn"
  | _ => false
  end.

(** [isPoweredOn()] is waiting for the radio. *)
Definition waiting_for_radio (w : world) : Prop :=
  p_isPoweredOn w = Pending
  /\ on_stateChange w = [isPoweredOn_stateChangeHandler]
  /\ on_discover w = [] /\ on_disconnect w = [] /\ on_data w = []
  /\ due w = [].

(** No call is in flight and no listener is left over, but for the one
    [scan] put on the peripheral. *)
Definition quiet (w : world) : Prop :=
  due w = [] /\ on_data w = [] /\ on_stateChange w = []
  /\ on_discover w = [] /\ on_disconnect w = [handleDisconnect_bound].

(** [loadTemperatureData()] is waiting for its response on [n] and the
    peripheral is gone. *)
Definition stranded (n : characteristic) (w : world) : Prop :=
  p_load w = Pending /\ notifyCharacteristic w = None
  /\ on_data w = [(n, load_dataHandler)]
  /\ on_stateChange w = [] /\ on_discover w = [] /\ on_disconnect w = []
  /\ (due w = [cb_write] \/ due w = []).

(** What happens to a sensor: its methods are called and events arrive. *)
Inductive action : Type :=
| Call (e : entry)
| Event (ev : event).

Definition act (a : action) (w : world) : world :=
  match a with
  | Call e => enter e w
  | Event ev => deliver ev w
  end.

Definition history (acts : list action) (w : world) : world :=
  fold_left (fun w a => act a w) acts w.

End Sensor.

(* ================================================================== *)
(** ** Concrete values *)

Module Samples.
Import JS Noble.

Definition battery : Reading.t :=
  {| Reading.type := Reading.battery_level; Reading.sensor := None;
     Reading.value := 5; Reading.symbol := Some "%" |}.

(** A parser that finds one reading in every payload. *)
Definition one_reading (payload : Buffer) : list Reading.t := [battery].

(** Manufacturer data: company 0x4842, address aa:1b:2c:3d:4e:5f in little
    endian, two bytes of payload. *)
Definition frame : Buffer :=
  [x42; x48; x5f; x4e; x3d; x2c; x1b; xaa; x01; x02].

(** The same without its last two bytes: 8 bytes. *)
Definition short_frame : Buffer := firstn 8 frame.

Definition advertising (addr : option string) (data : option Buffer)
  : peripheral :=
  {| id := "e5f"; address := addr; localName := Some "ThermSmart";
     manufacturerData := data |}.

Definition wc : characteristic := {| uuid := "fff3"; handle := 1 |}.
Definition nc : characteristic := {| uuid := "fff4"; handle := 2 |}.
Definition wc' : characteristic := {| uuid := "fff3"; handle := 11 |}.
Definition nc' : characteristic := {| uuid := "fff4"; handle := 12 |}.

(** A [ThermSmart] session brought to the ready state. *)
Definition session : Session.world :=
  Session.run
    [Session.Connected None; Session.Discovered None [wc; nc];
     Session.Subscribed None]
    (Session.connect (Session.new "disconnected")).

(** A [ThermSmartSensor] brought to the ready state. *)
Definition sensor : Sensor.world :=
  Sensor.run
    [Sensor.ScanStarted None;
     Sensor.Discover (advertising (Some "aa:1b:2c:3d:4e:5f") (Some frame))
       "disconnected";
     Sensor.Connected None; Sensor.Discovered None [wc; nc];
     Sensor.Subscribed None]
    (Sensor.connect (Sensor.new "poweredOn" 0 None)).

(** What the sample sensor went through. *)
Definition sensor_story : list Sensor.action :=
  [Sensor.Call Sensor.call_connect;
   Sensor.Event (Sensor.ScanStarted None);
   Sensor.Event
     (Sensor.Discover (advertising (Some "aa:1b:2c:3d:4e:5f") (Some frame))
        "disconnected");
   Sensor.Event (Sensor.Connected None);
   Sensor.Event (Sensor.Discovered None [wc; nc]);
   Sensor.Event (Sensor.Subscribed None);
   Sensor.Call Sensor.call_loadTemperatureData;
   Sensor.Event (Sensor.Written None);
   Sensor.Event (Sensor.Data nc [xd2; x00; x01] true)].

End Samples.

(* ================================================================== *)
(** ** [ThermSmart]: reading and setting the clock ([therm-smart.js],
    lines 260-290) *)

Module TimeSync.
Import JS TimeCodec.

(** [Buffer.from([...])] keeps every number modulo 256. *)
Definition to_byte (z : Z) : byte :=
  match Byte.of_N (Z.to_N (z mod 256)) with
  | Some b => b
  | None => x00
  end.

Definition Buffer_from (numbers : list Z) : Buffer := map to_byte numbers.

(** A [Date], kept as the local calendar fields both methods work with:
    the arguments of [new Date(...)] and the results of [getFullYear()],
    [getMonth()] (which counts from 0), [getDate()], [getHours()],
    [getMinutes()] and [getSeconds()]. *)
Record date : Type := {
  fullYear : Z;
  month : Z;
  day : Z;
  hours : Z;
  minutes : Z;
  seconds : Z
}.

(** The command of [syncTime()] (lines 277-288). *)
Definition syncTime_command (now : date) : Buffer :=
  Buffer_from
    [0xd1; 0x00;
     intToBCDByte (fullYear now - 2000);
     intToBCDByte (month now + 1);
     intToBCDByte (day now);
     intToBCDByte (hours now);
     intToBCDByte (minutes now);
     intToBCDByte (seconds now)].

(** [data[i]] as an operand of [&]: [undefined] converts to 0. *)
Definition operand (data : Buffer) (i : nat) : Z :=
  match index data i with
  | Some b => b
  | None => 0
  end.

(** The callback of [readTime()] (lines 262-271): the arguments it gives
    to [new Date(...)]. *)
Definition readTime_date (data : Buffer) : date :=
  {| fullYear := bcdByteToInt (operand data 2) + 2000;
     month := bcdByteToInt (operand data 3) - 1;
     day := bcdByteToInt (operand data 4);
     hours := bcdByteToInt (operand data 5);
     minutes := bcdByteToInt (operand data 6);
     seconds := bcdByteToInt (operand data 7) |}.

(** [syncTime()] on a session (lines 274-290). *)
Definition syncTime (now : date) (w : Session.world) : Session.world :=
  Session.write (syncTime_command now) (Some 0xd1) w.

(** A time as a clock shows it, with a year the protocol can hold. *)
Definition on_the_dial (t : date) : Prop :=
  2000 <= fullYear t <= 2159 /\ 0 <= month t <= 11 /\ 1 <= day t <= 31
  /\ 0 <= hours t <= 23 /\ 0 <= minutes t <= 59 /\ 0 <= seconds t <= 59.

(** What decoding gives back for an encoded number. *)
Definition bcd_image (n : Z) : Z := ((n / 10) mod 16) * 10 + n mod 10.

Definition bcd_byte_at (n : Z) : bool :=
  bcdByteToInt (byte_val (to_byte (intToBCDByte n))) =? n.

End TimeSync.

(* ================================================================== *)
(** ** [ThermSmart]: one reading scan after another *)

Module Scans.
Import JS Noble Scan.

(** The calls a run of the handler made to [readingHandler]. *)
Definition delivered {A} (c : completion A) : list A :=
  match c with
  | Returns cs => cs
  | Throws _ => []
  end.

(** [a.indexOf(':') !== -1] *)
Fixpoint has_colon (a : string) : bool :=
  match a with
  | String c rest => Ascii.eqb c ":" || has_colon rest
  | EmptyString => false
  end.

(** The first character of a text is not the digit 0. *)
Definition starts_with_nonzero (s : string) : Prop :=
  match s with
  | String c _ => c <> "0"%char
  | EmptyString => False
  end.

(** A later call of [scanForReadings] (lines 91-144): it makes promises of
    its own. *)
Definition call_scanForReadings (w : world) : world :=
  scanForReadings (set_p_scan Pending (set_p_powerOn Pending w)).

(** The scan is running: its three listeners are on [noble]. *)
Definition listening (w : world) : Prop :=
  on_stateChange w = [scan_stateChangeHandler]
  /\ on_discover w = [scan_discoverHandler]
  /\ on_scanStop w = [scan_scanStopHandler]
  /\ starting w = false /\ timeout w = None /\ p_scan w = Pending.

(** Nothing is left of a scan: no listener, no timer, no callback due. *)
Definition silent (w : world) : Prop :=
  on_stateChange w = [] /\ on_discover w = [] /\ on_scanStop w = []
  /\ starting w = false /\ timeout w = None.

(** Time does not run backwards. *)
Definition forward (ev : event) : bool :=
  match ev with
  | Elapse ms => 0 <=? ms
  | _ => true
  end.

(** What happens to the radio: the caller scans again, or an event
    arrives. *)
Inductive action : Type :=
| Call
| Event (ev : event).

Section History.

Variable parseReadings : Buffer -> list Reading.t.
Variable readingHandler : bool.
Variable addresses : option (list string).

Definition act (a : action) (w : world) : world :=
  match a with
  | Call => call_scanForReadings w
  | Event ev => deliver parseReadings readingHandler addresses ev w
  end.

Definition history (acts : list action) (w : world) : world :=
  fold_left (fun w a => act a w) acts w.

End History.



End Scans.

(* ================================================================== *)
(** ** [ThermSmart]: where a session stands *)

Module Sessions.
Import JS Noble Session.

(** What a session owes, listens to, said and asked so far, the handles it
    has and the promise of [connect()]. *)
Definition stands (d : list callback) (od : list listener)
           (em : list signal) (rq : list request)
           (oda : list (characteristic * listener))
           (wc nc : option characteristic) (pc : promise unit)
           (w : world) : Prop :=
  due w = d /\ on_disconnect w = od /\ emitted w = em /\ requests w = rq
  /\ on_data w = oda /\ writeCharacteristic w = wc
  /\ notifyCharacteristic w = nc /\ p_connect w = pc.

(** A [write(data, null)] waits for the radio to confirm it. *)
Definition sending (data : Buffer) (w : world) : Prop :=
  p_write w = Pending /\ write_args w = Some (data, None)
  /\ due w = [cb_write] /\ on_data w = [] /\ on_disconnect w = []
  /\ notifyCharacteristic w <> None.

(** The event is not the callback of a write. *)
Definition unconfirmed (ev : event) : bool :=
  match ev with
  | Written _ => false
  | _ => true
  end.

End Sessions.

(* ================================================================== *)
(** ** [ThermSmartSensor]: what its callers see ([src/scripts/listen.js],
    lines 56-62 and 193-239) *)

Module Readout.
Import JS Noble Sensor.

(** [(data.readUInt16LE(position) - 0x3000) / 20] (lines 56-58). The
    quotient is kept as a fraction; [None] is the RangeError of a read that
    leaves the buffer. *)
Definition readTemperature (data : Buffer) (position : nat) : option Q :=
  option_map (fun raw => Qmake (raw - 0x3000) 20) (readUInt16LE data position).

(** The callbacks of [getIndoorTemperature], [getRelativeHumidity] and
    [getOutdoorTemperature] (lines 223-239), applied to the payload
    [loadTemperatureData()] was fulfilled with. *)
Definition indoorTemperature (data : Buffer) : option Q :=
  readTemperature data 3.

Definition relativeHumidity (data : Buffer) : option Z :=
  SensorCodec.readRelativeHumidity data 9.

Definition outdoorTemperature (data : Buffer) : option Q :=
  readTemperature data 12.



(** [this.address === null || this.address === peripheral.address]
    (line 100). *)
Definition wanted (addr : option string) (p : Noble.peripheral) : bool :=
  match addr with
  | None => true
  | Some a =>
      match Noble.address p with
      | Some b => String.eqb a b
      | None => false
      end
  end.

(** [scan()] is looking for a peripheral. *)
Definition looking (addr : option string) (w : world) : Prop :=
  address w = addr /\ peripheral w = None /\ p_scan w = Pending
  /\ on_discover w = [scan_discoverHandler]
  /\ on_stateChange w = [scan_stateChangeHandler]
  /\ on_disconnect w = [] /\ due w = [] /\ call w = call_scan.

(** The events of a scan that finds nothing it wants: discoveries of other
    peripheral, and time. *)
Definition passed_over (addr : option string) (ev : event) : bool :=
  match ev with
  | Discover p _ => negb (wanted addr p)
  | Elapse _ => true
  | _ => false
  end.

Definition is_discovery (ev : event) : bool :=
  match ev with
  | Discover _ _ => true
  | _ => false
  end.

(** The ways the radio can refuse a step on the way from
    [loadTemperatureData()] to its payload, each with the reason the code
    gives: the peripheral [p] is found disconnected and offers the two
    characteristics. *)
Definition refusals (e : string) (p : Noble.peripheral)
  : list (list event * string) :=
  let found := [ScanStarted None; Discover p "disconnected"] in
  let offered := Discovered None [Samples.wc; Samples.nc] in
  [ ([ScanStarted (Some e)],
     "Failed to scan for sensors: " ++ e);
    ((found ++ [Connected (Some e)])%list,
     "Failed to connect to sensor: " ++ e);
    ((found ++ [Connected None; Discovered (Some e) []])%list,
     "Failed to discover services and characteristics: " ++ e);
    ((found ++ [Connected None; offered; Subscribed (Some e)])%list,
     "Failed to subscribe to characteristic: " ++ e);
    ((found ++ [Connected None; offered; Subscribed None;
                Written (Some e)])%list,
     "Failed to write to characteristic: " ++ e) ].

End Readout.

(* ================================================================== *)
(** ** The callers: how they write the addresses ([src/scripts/listen.js],
    lines 37-39; [index.js], lines 142-144) *)

Module Addresses.
Import JS.

(** [c.toLowerCase()] for a character of ASCII. *)
Definition lower (c : ascii) : ascii :=
  let n := nat_of_ascii c in
  if ((65 <=? n) && (n <=? 90))%nat then ascii_of_nat (n + 32) else c.

(** [s.toLowerCase()] for a text of ASCII characters. *)
Fixpoint toLowerCase (s : string) : string :=
  match s with
  | String c rest => String (lower c) (toLowerCase rest)
  | EmptyString => EmptyString
  end.

(** [address => address.toLowerCase().replace(/:/g, '')] *)
Definition normalize (address : string) : string :=
  strip_colons (toLowerCase address).

(** [addresses && addresses.map(...)] *)
Definition normAddresses (addresses : option (list string))
  : option (list string) :=
  option_map (map normalize) addresses.

Definition is_ascii (c : ascii) : bool := (nat_of_ascii c <? 128)%nat.

Definition is_upper (c : ascii) : bool :=
  ((65 <=? nat_of_ascii c) && (nat_of_ascii c <=? 90))%nat.

Fixpoint all_chars (f : ascii -> bool) (s : string) : bool :=
  match s with
  | String c rest => f c && all_chars f rest
  | EmptyString => true
  end.

End Addresses.

(* ================================================================== *)
(** ** The bridge platform ([index.js], [src/unnamed/part_001]) *)

Module Platform.
Import JS.

(** A reading as the platform looks at it: the text of its type, the text
    of its sensor (or none) and its value. *)
Record reading : Type := {
  type : string;
  sensor : option string;
  value : Q
}.

(** An accessory: its context ([type], [address], [lastUpdated]), whether
    it has a humidity service, and the values last set on its temperature,
    humidity and battery services. Every accessory has a temperature and a
    battery service (lines 53-65). *)
Record accessory : Type := {
  ctx_type : string;
  ctx_address : string;
  lastUpdated : Z;
  humidity_service : bool;
  currentTemperature : option Q;
  currentRelativeHumidity : option Q;
  batteryLevel : option Q;
  statusLowBattery : option bool
}.

(** A text that is neither [undefined] nor empty. *)
Definition truthy (v : option string) : option string :=
  match v with
  | Some a => if String.eqb a "" then None else Some a
  | None => None
  end.

(** The accessory [addAccessory(type, address)] makes at time [now]
    (lines 36-77); the humidity service is for the indoor sensor only. The
    caller below passes a type and an address that are not empty. *)
Definition addAccessory (now : Z) (type address : string) : accessory :=
  {| ctx_type := type; ctx_address := address; lastUpdated := now;
     humidity_service := String.eqb type "indoor";
     currentTemperature := None; currentRelativeHumidity := None;
     batteryLevel := None; statusLowBattery := None |}.

Definition matches (type address : string) (a : accessory) : bool :=
  String.eqb (ctx_type a) type && String.eqb (ctx_address a) address.

(** [getAccessory(type, address)] (lines 79-87). *)
Definition getAccessory (type address : string) (accessories : list accessory)
  : option accessory :=
  List.find (matches type address) accessories.

(** An assignment to the first accessory that [matches type address]: the
    object [getAccessory] returned is changed where it stands. *)
Fixpoint update (type address : string) (f : accessory -> accessory)
         (accessories : list accessory) : list accessory :=
  match accessories with
  | [] => []
  | a :: rest =>
      if matches type address a then f a :: rest
      else a :: update type address f rest
  end.

Definition set_lastUpdated (now : Z) (a : accessory) : accessory :=
  {| ctx_type := ctx_type a; ctx_address := ctx_address a; lastUpdated := now;
     humidity_service := humidity_service a;
     currentTemperature := currentTemperature a;
     currentRelativeHumidity := currentRelativeHumidity a;
     batteryLevel := batteryLevel a; statusLowBattery := statusLowBattery a |}.

Definition set_temperature (v : Q) (a : accessory) : accessory :=
  {| ctx_type := ctx_type a; ctx_address := ctx_address a;
     lastUpdated := lastUpdated a; humidity_service := humidity_service a;
     currentTemperature := Some v;
     currentRelativeHumidity := currentRelativeHumidity a;
     batteryLevel := batteryLevel a; statusLowBattery := statusLowBattery a |}.

Definition set_humidity (v : Q) (a : accessory) : accessory :=
  {| ctx_type := ctx_type a; ctx_address := ctx_address a;
     lastUpdated := lastUpdated a; humidity_service := humidity_service a;
     currentTemperature := currentTemperature a;
     currentRelativeHumidity := Some v;
     batteryLevel := batteryLevel a; statusLowBattery := statusLowBattery a |}.

Definition set_battery (level : Q) (a : accessory) : accessory :=
  {| ctx_type := ctx_type a; ctx_address := ctx_address a;
     lastUpdated := lastUpdated a; humidity_service := humidity_service a;
     currentTemperature := currentTemperature a;
     currentRelativeHumidity := currentRelativeHumidity a;
     batteryLevel := Some level;
     statusLowBattery := Some (negb (Qle_bool 10 level)) |}.

(** What a call of [readingHandler] leaves: the accessories, and the error
    if it threw. *)
Inductive outcome : Type :=
| Done (accessories : list accessory)
| Threw (error : string) (accessories : list accessory).

Definition left_by (o : outcome) : list accessory :=
  match o with
  | Done accessories => accessories
  | Threw _ accessories => accessories
  end.

(** [readingHandler(reading, peripheral)] at time [now] (lines 89-131);
    [address] is [peripheral.address]. A humidity reading for an accessory
    without humidity service throws, after the accessory was found or made
    and its time set. *)
Definition readingHandler (now : Z) (r : reading) (address : option string)
           (accessories : list accessory) : outcome :=
  match truthy address with
  | None => Done accessories
  | Some address =>
      match truthy (sensor r) with
      | None =>
          if String.eqb (type r) "battery-level"
          then
            Done (map (fun a => if String.eqb (ctx_address a) address
                                then set_battery (value r) a else a)
                    accessories)
          else Done accessories
      | Some s =>
          if negb (String.eqb (type r) "temperature")
             && negb (String.eqb (type r) "humidity")
          then Done accessories
          else
            let accessories1 :=
              match getAccessory s address accessories with
              | Some _ => accessories
              | None => (accessories ++ [addAccessory now s address])%list
              end in
            let accessories2 :=
              update s address (set_lastUpdated now) accessories1 in
            if String.eqb (type r) "temperature"
            then Done (update s address (set_temperature (value r))
                         accessories2)
            else
              match getAccessory s address accessories2 with
              | Some a =>
                  if humidity_service a
                  then Done (update s address (set_humidity (value r))
                               accessories2)
                  else Threw "TypeError" accessories2
              | None => Done accessories2
              end
      end
  end.

(** [this.config.maxStaleTime || 15 * 60 * 1000] (line 163). *)
Definition maxStaleTime (configured : option Z) : Z :=
  match configured with
  | Some v => if v =? 0 then 900000 else v
  | None => 900000
  end.

Definition stale (configured : option Z) (now : Z) (a : accessory) : bool :=
  maxStaleTime configured <? now - lastUpdated a.

(** One round of the periodic cleaning at time [now] (lines 165-186). *)
Definition clean (configured : option Z) (now : Z)
           (accessories : list accessory) : list accessory :=
  filter (fun a => negb (stale configured now a)) accessories.

Definition key (a : accessory) : string * string :=
  (ctx_type a, ctx_address a).

(** What happens to the platform at a time: a reading arrives from a
    peripheral, or the cleaning runs. *)
Inductive happening : Type :=
| Reading (now : Z) (r : reading) (address : option string)
| Cleaning (now : Z).

Definition happen (configured : option Z) (h : happening)
           (accessories : list accessory) : list accessory :=
  match h with
  | Reading now r address => left_by (readingHandler now r address accessories)
  | Cleaning now => clean configured now accessories
  end.

Definition happenings (configured : option Z) (hs : list happening)
           (accessories : list accessory) : list accessory :=
  fold_left (fun accessories h => happen configured h accessories) hs
    accessories.

(** A reading that names no sensor, as the battery level does. *)
Definition sensorless (h : happening) : bool :=
  match h with
  | Reading _ r _ =>
      match truthy (sensor r) with
      | None => true
      | Some _ => false
      end
  | Cleaning _ => false
  end.

(** What the cleaning looks at, and what tells the accessories apart. *)
Definition tag (a : accessory) : (string * string) * Z :=
  (key a, lastUpdated a).

End Platform.

(* ================================================================== *)
(** ** [ThermSmart.scan]: the scan for sensors ([therm-smart.js], lines 44-89) *)

Module DeviceScan.
Import JS Noble.

Definition SERVICE_UUID : string := "fff0".

(** What the constructor keeps of a peripheral (lines 154-160). *)
Record sensor : Type := {
  s_peripheral : peripheral;
  s_id : string;
  s_address : option string;
  s_localName : option string
}.

Definition ThermSmart_new (p : peripheral) : sensor :=
  {| s_peripheral := p; s_id := id p; s_address := address p;
     s_localName := localName p |}.

Inductive listener : Type :=
| powerOn_stateChangeHandler      (* lines 32-38 *)
| scan_discoverHandler            (* [_discoverHandler], lines 49-61 *)
| scan_scanStopHandler            (* lines 63-65 *)
| scan_stateChangeHandler.        (* lines 67-75 *)

Definition listener_eqb (a b : listener) : bool :=
  match a, b with
  | powerOn_stateChangeHandler, powerOn_stateChangeHandler
  | scan_discoverHandler, scan_discoverHandler
  | scan_scanStopHandler, scan_scanStopHandler
  | scan_stateChangeHandler, scan_stateChangeHandler => true
  | _, _ => false
  end.

(** [emitter.removeListener(name, l)]: the most recently added instance of
    [l] goes. *)
Fixpoint remove_last (l : listener) (ls : list listener) : list listener :=
  match ls with
  | [] => []
  | x :: rest =>
      if listener_eqb x l && negb (existsb (listener_eqb l) rest)
      then rest
      else x :: remove_last l rest
  end.

(** The radio, the promises of one call of [scan], and the array the call
    fills. The promise is fulfilled with the array itself: who holds the
    value sees the array as it is when they look. *)
Record world : Type := {
  noble_state : string;
  now : Z;   (* the clock, in ms *)
  timeout : option Z;   (* when [powerOn]'s timer is due *)
  on_stateChange : list listener;
  on_discover : list listener;
  on_scanStop : list listener;
  requests : list Scan.request;
  starting : bool;   (* [startScanning]'s callback is due *)
  p_powerOn : promise unit;   (* the promise of [powerOn()] *)
  p_scan : promise unit;   (* the promise of [scan]; its value is [sensors] *)
  sensors : list sensor;   (* the array [sensors] (line 47) *)
  calls : list sensor   (* calls of [discoverHandler] *)
}.

(** Assignments to one field. *)
Definition set_noble_state (v : string) (w : world) : world :=
  {| noble_state := v; now := now w; timeout := timeout w;
     on_stateChange := on_stateChange w; on_discover := on_discover w;
     on_scanStop := on_scanStop w; requests := requests w; starting :=
     starting w; p_powerOn := p_powerOn w; p_scan := p_scan w; sensors
     := sensors w; calls := calls w |}.

Definition set_now (v : Z) (w : world) : world :=
  {| noble_state := noble_state w; now := v; timeout := timeout w;
     on_stateChange := on_stateChange w; on_discover := on_discover w;
     on_scanStop := on_scanStop w; requests := requests w; starting :=
     starting w; p_powerOn := p_powerOn w; p_scan := p_scan w; sensors
     := sensors w; calls := calls w |}.

Definition set_timeout (v : option Z) (w : world) : world :=
  {| noble_state := noble_state w; now := now w; timeout := v;
     on_stateChange := on_stateChange w; on_discover := on_discover w;
     on_scanStop := on_scanStop w; requests := requests w; starting :=
     starting w; p_powerOn := p_powerOn w; p_scan := p_scan w; sensors
     := sensors w; calls := calls w |}.

Definition set_on_stateChange (v : list listener) (w : world) : world :=
  {| noble_state := noble_state w; now := now w; timeout := timeout w;
     on_stateChange := v; on_discover := on_discover w; on_scanStop :=
     on_scanStop w; requests := requests w; starting := starting w;
     p_powerOn := p_powerOn w; p_scan := p_scan w; sensors := sensors w;
     calls := calls w |}.

Definition set_on_discover (v : list listener) (w : world) : world :=
  {| noble_state := noble_state w; now := now w; timeout := timeout w;
     on_stateChange := on_stateChange w; on_discover := v; on_scanStop
     := on_scanStop w; requests := requests w; starting := starting w;
     p_powerOn := p_powerOn w; p_scan := p_scan w; sensors := sensors w;
     calls := calls w |}.

Definition set_on_scanStop (v : list listener) (w : world) : world :=
  {| noble_state := noble_state w; now := now w; timeout := timeout w;
     on_stateChange := on_stateChange w; on_discover := on_discover w;
     on_scanStop := v; requests := requests w; starting := starting w;
     p_powerOn := p_powerOn w; p_scan := p_scan w; sensors := sensors w;
     calls := calls w |}.

Definition set_requests (v : list Scan.request) (w : world) : world :=
  {| noble_state := noble_state w; now := now w; timeout := timeout w;
     on_stateChange := on_stateChange w; on_discover := on_discover w;
     on_scanStop := on_scanStop w; requests := v; starting := starting
     w; p_powerOn := p_powerOn w; p_scan := p_scan w; sensors := sensors
     w; calls := calls w |}.

Definition set_starting (v : bool) (w : world) : world :=
  {| noble_state := noble_state w; now := now w; timeout := timeout w;
     on_stateChange := on_stateChange w; on_discover := on_discover w;
     on_scanStop := on_scanStop w; requests := requests w; starting :=
     v; p_powerOn := p_powerOn w; p_scan := p_scan w; sensors := sensors
     w; calls := calls w |}.

Definition set_p_powerOn (v : promise unit) (w : world) : world :=
  {| noble_state := noble_state w; now := now w; timeout := timeout w;
     on_stateChange := on_stateChange w; on_discover := on_discover w;
     on_scanStop := on_scanStop w; requests := requests w; starting :=
     starting w; p_powerOn := v; p_scan := p_scan w; sensors := sensors
     w; calls := calls w |}.

Definition set_p_scan (v : promise unit) (w : world) : world :=
  {| noble_state := noble_state w; now := now w; timeout := timeout w;
     on_stateChange := on_stateChange w; on_discover := on_discover w;
     on_scanStop := on_scanStop w; requests := requests w; starting :=
     starting w; p_powerOn := p_powerOn w; p_scan := v; sensors :=
     sensors w; calls := calls w |}.

Definition set_sensors (v : list sensor) (w : world) : world :=
  {| noble_state := noble_state w; now := now w; timeout := timeout w;
     on_stateChange := on_stateChange w; on_discover := on_discover w;
     on_scanStop := on_scanStop w; requests := requests w; starting :=
     starting w; p_powerOn := p_powerOn w; p_scan := p_scan w; sensors
     := v; calls := calls w |}.

Definition set_calls (v : list sensor) (w : world) : world :=
  {| noble_state := noble_state w; now := now w; timeout := timeout w;
     on_stateChange := on_stateChange w; on_discover := on_discover w;
     on_scanStop := on_scanStop w; requests := requests w; starting :=
     starting w; p_powerOn := p_powerOn w; p_scan := p_scan w; sensors
     := sensors w; calls := v |}.

(** The radio at rest. *)
Definition idle (state : string) (t : Z) : world :=
  {| noble_state := state; now := t; timeout := None;
     on_stateChange := []; on_discover := []; on_scanStop := [];
     requests := []; starting := false;
     p_powerOn := Pending; p_scan := Pending; sensors := []; calls := [] |}.

(** What the holder of the promise of [scan] has. *)
Definition result (w : world) : option (list sensor) :=
  match p_scan w with
  | Resolved _ => Some (sensors w)
  | _ => None
  end.

Section Scan.

(** Whether [scan] was given a [discoverHandler]. *)
Variable discoverHandler : bool.
(** The optional list of addresses; [None] is a falsy argument. *)
Variable addresses : option (list string).

(** Lines 50-53: the peripheral passes the list of addresses. *)
Definition collects (p : peripheral) : bool :=
  match addresses with
  | Some l => negb (Scan.not_listed l (Scan.stripped (address p)))
  | None => true
  end.

(** Lines 45-47 and 77: once [powerOn()] is fulfilled the array is made and
    the scan is requested, without duplicates. *)
Definition start_scan (w : world) : world :=
  set_starting true
    (set_requests (requests w ++ [Scan.startScanning [SERVICE_UUID] false])
       (set_sensors [] w)).

Definition powerOn_resolve (w : world) : world :=
  match p_powerOn w with
  | Pending => start_scan (set_p_powerOn (Resolved tt) w)
  | _ => w
  end.

Definition powerOn_reject (e : string) (w : world) : world :=
  match p_powerOn w with
  | Pending => set_p_scan (reject e (p_scan w)) (set_p_powerOn (Rejected e) w)
  | _ => w
  end.

(** [ThermSmart.powerOn] (lines 21-42), called at time [now w]. *)
Definition powerOn (w : world) : world :=
  if String.eqb (noble_state w) "poweredOn"
  then powerOn_resolve w
  else
    set_on_stateChange (on_stateChange w ++ [powerOn_stateChangeHandler])
      (set_timeout (Some (now w + 5000)) w).

(** [ThermSmart.scan(discoverHandler, addresses)] (lines 44-89). *)
Definition scan (w : world) : world := powerOn w.

(** The timer's callback (lines 27-30). *)
Definition powerOn_timeout (w : world) : world :=
  powerOn_reject
    ("Timeout while waiting for power on (state: " ++ noble_state w ++ ")")
    (set_on_stateChange
       (remove_last powerOn_stateChangeHandler (on_stateChange w))
       (set_timeout None w)).

(** One listener, called with the event's argument. *)
Definition run_listener (l : listener) (ev : Scan.event) (w : world) : world :=
  match l, ev with
  | powerOn_stateChangeHandler, Scan.StateChange state =>
      if String.eqb state "poweredOn"
      then
        powerOn_resolve
          (set_on_stateChange
             (remove_last powerOn_stateChangeHandler (on_stateChange w))
             (set_timeout None w))
      else w
  | scan_stateChangeHandler, Scan.StateChange state =>
      if negb (String.eqb state "poweredOn")
      then
        set_p_scan (reject ("State changed to " ++ state) (p_scan w))
          (set_requests (requests w ++ [Scan.stopScanning])
             (set_on_stateChange
                (remove_last scan_stateChangeHandler (on_stateChange w))
                (set_on_scanStop
                   (remove_last scan_scanStopHandler (on_scanStop w))
                   (set_on_discover
                      (remove_last scan_discoverHandler (on_discover w)) w))))
      else w
  | scan_discoverHandler, Scan.Discover p =>
      if collects p
      then
        let sensor := ThermSmart_new p in
        let w1 := set_sensors (sensors w ++ [sensor]) w in
        if discoverHandler then set_calls (calls w1 ++ [sensor]) w1 else w1
      else w
  | scan_scanStopHandler, Scan.ScanStop =>
      set_p_scan (resolve tt (p_scan w)) w
  | _, _ => w
  end.

(** [emit]: the listeners registered when the event is emitted are called in
    the order they were added. *)
Definition emit (ls : list listener) (ev : Scan.event) (w : world) : world :=
  fold_left (fun w l => run_listener l ev w) ls w.

(** One turn of the event loop. *)
Definition deliver (ev : Scan.event) (w : world) : world :=
  match ev with
  | Scan.StateChange state =>
      emit (on_stateChange w) ev (set_noble_state state w)
  | Scan.Elapse ms =>
      let w1 := set_now (now w + ms) w in
      match timeout w with
      | Some due => if due <=? now w1 then powerOn_timeout w1 else w1
      | None => w1
      end
  | Scan.ScanStarted error =>
      if starting w
      then
        match error with
        | Some e => set_p_scan (reject e (p_scan w)) (set_starting false w)
        | None =>
            set_on_stateChange (on_stateChange w ++ [scan_stateChangeHandler])
              (set_on_scanStop (on_scanStop w ++ [scan_scanStopHandler])
                 (set_on_discover (on_discover w ++ [scan_discoverHandler])
                    (set_starting false w)))
        end
      else w
  | Scan.Discover _ => emit (on_discover w) ev w
  | Scan.ScanStop => emit (on_scanStop w) ev w
  end.

Definition run (evs : list Scan.event) (w : world) : world :=
  fold_left (fun w ev => deliver ev w) evs w.

(** The scan is on: its three listeners are on [noble], its promise is
    [settled], the array holds [ss] and [discoverHandler] was called with
    [cs]. *)
Definition scanning (settled : promise unit) (ss cs : list sensor)
           (w : world) : Prop :=
  on_stateChange w = [scan_stateChangeHandler]
  /\ on_discover w = [scan_discoverHandler]
  /\ on_scanStop w = [scan_scanStopHandler]
  /\ starting w = false /\ timeout w = None
  /\ requests w = [Scan.startScanning [SERVICE_UUID] false]
  /\ p_scan w = settled /\ sensors w = ss /\ calls w = cs.

(** The scan is over: no listener is left and the radio was told to stop. *)
Definition given_up (reason : string) (ss cs : list sensor)
           (w : world) : Prop :=
  on_stateChange w = [] /\ on_discover w = [] /\ on_scanStop w = []
  /\ starting w = false /\ timeout w = None
  /\ requests w = [Scan.startScanning [SERVICE_UUID] false; Scan.stopScanning]
  /\ p_scan w = Rejected reason /\ sensors w = ss /\ calls w = cs.

(** The sensors made of the peripherals that pass the list. *)
Definition collected (ps : list peripheral) : list sensor :=
  map ThermSmart_new (filter collects ps).

(** The calls of [discoverHandler] for these sensors. *)
Definition handed (ss : list sensor) : list sensor :=
  if discoverHandler then ss else [].

End Scan.

End DeviceScan.

(* ================================================================== *)
(** * Properties *)

(** Case analysis on every test the goal still contains. *)
Ltac cases :=
  repeat (simpl in *;
          match goal with
          | |- context [match ?x with _ => _ end] => destruct x eqn:?
          end);
  simpl in *; try congruence; auto.

(** ** Codecs *)

Section Codecs.
Import JS TimeCodec SensorCodec.

Lemma bcd_roundtrip_table :
  forallb bcd_roundtrip_at (map Z.of_nat (seq 0 100)) = true.
Proof. vm_compute. reflexivity. Qed.

(** C4. For every integer [n] from 0 to 99, decoding the BCD encoding of
    [n] gives [n] back; the encoding holds the tens in the high nibble and
    the ones in the low nibble. *)
Theorem bcd_roundtrip (n : Z) :
  0 <= n <= 99 ->
  bcdByteToInt (intToBCDByte n) = n
  /\ intToBCDByte n = 16 * (n / 10) + n mod 10
  /\ shr (band (intToBCDByte n) 0xf0) 4 = n / 10
  /\ band (intToBCDByte n) 0xf = n mod 10.
Proof.
  intros Hn.
  pose proof bcd_roundtrip_table as T.
  rewrite forallb_forall in T.
  assert (Hin : In n (map Z.of_nat (seq 0 100))).
  { apply in_map_iff. exists (Z.to_nat n). split; [lia|].
    apply in_seq. lia. }
  specialize (T n Hin). unfold bcd_roundtrip_at in T.
  repeat rewrite andb_true_iff in T.
  destruct T as [[[T1 T2] T3] T4].
  rewrite Z.eqb_eq in T1, T2, T3, T4. auto.
Qed.

Lemma bcd_roundtrip_witness :
  0 <= 37 <= 99
  /\ bcdByteToInt (intToBCDByte 37) = 37
  /\ intToBCDByte 37 = 0x37.
Proof.
  split; [lia|].
  destruct (bcd_roundtrip 37 ltac:(lia)) as [H1 [H2 _]].
  split; [exact H1 | rewrite H2; reflexivity].
Defined.

Lemma humidity_single (b : byte) :
  parseInt (hex_of_bytes [b]) = humidity_of_byte b.
Proof. destruct b; vm_compute; reflexivity. Qed.

Lemma byte_at (data : Buffer) (position : nat) (b : byte) :
  nth_error data position = Some b ->
  firstn (position + 1 - position) (skipn position data) = [b].
Proof.
  replace (position + 1 - position)%nat with 1%nat by lia.
  revert data. induction position as [|k IH]; intros [|x rest] H;
    simpl in *; try discriminate.
  - injection H as ->. reflexivity.
  - apply IH. exact H.
Qed.

(** C3, as amended. The humidity decoder reads the two hexadecimal digits
    of the byte the way [parseInt] reads text in base 10: a byte whose two
    digits are decimal gives the two digits as a decimal number; where the
    low digit is a letter only the high digit is read; where the high digit
    is a letter there is no number. *)
Theorem humidity_decoder (data : Buffer) (position : nat) (b : byte) :
  nth_error data position = Some b ->
  readRelativeHumidity data position = humidity_of_byte b.
Proof.
  intros H. unfold readRelativeHumidity, toString_hex.
  rewrite (byte_at _ _ _ H). apply humidity_single.
Qed.

Lemma humidity_decoder_witness :
  readRelativeHumidity [x00; x34; x2c] 1 = Some 34
  /\ readRelativeHumidity [x00; x34; x2c] 2 = Some 2.
Proof.
  split.
  - rewrite (humidity_decoder [x00; x34; x2c] 1 x34); reflexivity.
  - rewrite (humidity_decoder [x00; x34; x2c] 2 x2c); reflexivity.
Defined.

(** C3, as stated, fails at byte [0x2C]: the decoder gives 2, not 28. *)
Lemma humidity_0x2C_is_not_28 :
  readRelativeHumidity [x2c] 0 = Some 2
  /\ readRelativeHumidity [x2c] 0 <> Some 28.
Proof. split; [reflexivity | discriminate]. Qed.

End Codecs.

(** ** The reading scan *)

Section ReadingScan.
Import JS Noble Scan.

Variable parseReadings : Buffer -> list Reading.t.
Variable readingHandler : bool.
Variable addresses : option (list string).

Local Abbreviation handler := (discoverHandler parseReadings readingHandler addresses).
Local Abbreviation step := (deliver parseReadings readingHandler addresses).

(** A round of 'discover' listeners changes the calls and the uncaught
    errors only through [discoverHandler]. *)
Lemma emit_discover_returns (p : peripheral) (ls : list listener) (w : world) :
  handler p = Returns [] ->
  calls (emit parseReadings readingHandler addresses ls (Discover p) w) = calls w
  /\ uncaught (emit parseReadings readingHandler addresses ls (Discover p) w)
     = uncaught w.
Proof.
  intros H. revert w. induction ls as [|l rest IH]; intros w; simpl.
  - auto.
  - assert (E : calls (run_listener parseReadings readingHandler addresses
                         l (Discover p) w) = calls w
                /\ uncaught (run_listener parseReadings readingHandler
                               addresses l (Discover p) w) = uncaught w).
    { destruct l; simpl; auto. rewrite H. simpl. rewrite app_nil_r. auto. }
    destruct E as [E1 E2]. rewrite E2, Nat.ltb_irrefl.
    destruct (IH (run_listener parseReadings readingHandler addresses
                    l (Discover p) w)) as [I1 I2].
    rewrite I1, I2. auto.
Qed.

(** C7. A discovered peripheral whose manufacturer data has fewer than 9
    bytes, or does not start with the company identifier 0x4842 in little
    endian, never causes a call of [readingHandler]: the handler returns
    without a call, and a 'discover' event leaves the calls of the scan as
    they were. *)
Theorem short_or_foreign_frame_is_discarded
        (p : peripheral) (data : Buffer) (w : world) :
  manufacturerData p = Some data ->
  (List.length data < 9)%nat \/ readUInt16LE data 0 <> Some COMPANY_ID ->
  handler p = Returns []
  /\ calls (step (Discover p) w) = calls w.
Proof.
  intros Hd Hbad.
  assert (H : handler p = Returns []).
  { unfold discoverHandler. rewrite Hd.
    destruct (Nat.ltb_spec (List.length data) 9) as [Hlt|Hge]; [reflexivity|].
    destruct Hbad as [Hlt|Hc]; [lia|].
    destruct (readUInt16LE data 0) as [company|] eqn:Hr; simpl.
    - destruct (Z.eqb_spec company COMPANY_ID) as [->|Hne]; simpl.
      + congruence.
      + reflexivity.
    - unfold readUInt16LE, readUIntLE in Hr.
      destruct (Nat.leb_spec (0 + 2) (List.length data)); [discriminate|].
      simpl in *. lia. }
  split; [exact H|].
  simpl. apply emit_discover_returns. exact H.
Qed.

(** C10. With no manufacturer data at all the handler throws on its first
    read ([data.length]); during a scan the error leaves the listener
    uncaught and no reading is delivered. A handler that returns had the
    field present. *)
Theorem missing_manufacturer_data_throws (p : peripheral) :
  manufacturerData p = None ->
  handler p = Throws "TypeError"
  /\ (forall w, on_discover w = [scan_discoverHandler] ->
        uncaught (step (Discover p) w) = (uncaught w ++ ["TypeError"])%list
        /\ calls (step (Discover p) w) = calls w)
  /\ (forall q cs, handler q = Returns cs -> manufacturerData q <> None).
Proof.
  intros Hd.
  assert (H : handler p = Throws "TypeError").
  { unfold discoverHandler. rewrite Hd. reflexivity. }
  split; [exact H|]. split.
  - intros w Hw. simpl. rewrite Hw. simpl. rewrite H. simpl.
    rewrite length_app. simpl.
    destruct (Nat.ltb_spec (List.length (uncaught w))
                (List.length (uncaught w) + 1)); [|lia].
    simpl. auto.
  - intros q cs Hq Hn. unfold discoverHandler in Hq. rewrite Hn in Hq.
    discriminate.
Qed.

(** The rendering of a number reads back as that number, so two addresses
    that differ as numbers differ as text. *)
Lemma rendering_reads_back (derived : Z) :
  HexString.Raw.to_N (toString16 derived) 0 = Z.to_N derived.
Proof.
  destruct derived as [|p|p]; try reflexivity.
  simpl. apply (HexString.Raw.to_N_of_pos p "" 0%N).
Qed.

Lemma different_addresses_render_differently (a : string) (derived : Z) :
  HexString.Raw.to_N a 0 <> Z.to_N derived -> toString16 derived <> a.
Proof.
  intros Hne He. apply Hne. rewrite <- He. apply rendering_reads_back.
Qed.

(** C6, as amended. Where the colon-stripped address of the peripheral is
    a non-empty string [a], the advertisement is discarded whenever the
    hexadecimal rendering of bytes 2-7 (little endian) differs from [a]. *)
Theorem address_mismatch_is_discarded
        (p : peripheral) (data : Buffer) (a : string) (derived : Z) (w : world) :
  manufacturerData p = Some data ->
  truthy (stripped (address p)) = Some a ->
  readUIntLE data 2 6 = Some derived ->
  toString16 derived <> a ->
  handler p = Returns []
  /\ calls (step (Discover p) w) = calls w.
Proof.
  intros Hd Ha Hr Hne.
  assert (H : handler p = Returns []).
  { unfold discoverHandler. rewrite Hd.
    destruct (List.length data <? 9)%nat; [reflexivity|].
    assert (Hc : exists company, readUInt16LE data 0 = Some company).
    { unfold readUInt16LE, readUIntLE in *.
      destruct (Nat.leb_spec (2 + 6) (List.length data)); [|discriminate].
      destruct (Nat.leb_spec (0 + 2) (List.length data)); [eauto|].
      simpl in *. lia. }
    destruct Hc as [company Hc]. rewrite Hc. simpl.
    destruct (company =? COMPANY_ID); simpl; [|reflexivity].
    rewrite Ha, Hr. simpl.
    destruct (String.eqb_spec (toString16 derived) a); [contradiction|].
    reflexivity. }
  split; [exact H|].
  simpl. apply emit_discover_returns. exact H.
Qed.

End ReadingScan.

(** ** Waiting for the radio *)

Section RadioReady.
Import JS Noble Scan.

Variable parseReadings : Buffer -> list Reading.t.
Variable readingHandler : bool.
Variable addresses : option (list string).

Local Abbreviation step := (deliver parseReadings readingHandler addresses).
Local Abbreviation steps := (run parseReadings readingHandler addresses).

Lemma armed_step (t0 : Z) (ev : event) (w : world) :
  armed t0 w -> powers_on ev = false ->
  fired (step ev w)
  \/ (armed t0 (step ev w) /\ now (step ev w) = now w + elapsed [ev]).
Proof.
  intros (Ht & Hn & Hs & Hd & Hp & Hg & Hq & Hr) Hev.
  destruct w; simpl in *; subst.
  destruct ev as [state|ms|error|p|]; simpl in *.
  - rewrite Hev, Nat.ltb_irrefl. right. unfold armed; simpl.
    repeat split; auto; lia.
  - destruct (Z.leb_spec (t0 + 5000) (now0 + ms)).
    + left. exists noble_state0. unfold powerOn_timeout, powerOn_reject; simpl.
      repeat split; reflexivity.
    + right. unfold armed; simpl. repeat split; auto; lia.
  - right. unfold armed; simpl. repeat split; auto; lia.
  - right. unfold armed; simpl. repeat split; auto; lia.
  - right. unfold armed; simpl. repeat split; auto; lia.
Qed.

Lemma fired_step (ev : event) (w : world) : fired w -> fired (step ev w).
Proof.
  intros (st & H1 & H2 & H3 & H4 & H5 & H6 & H7).
  destruct w; simpl in *; subst.
  destruct ev as [state|ms|error|p|]; simpl;
    exists st; simpl; repeat split; reflexivity.
Qed.

Lemma fired_steps (evs : list event) (w : world) :
  fired w -> fired (steps evs w).
Proof.
  revert w. induction evs as [|ev evs IH]; intros w H; simpl; [exact H|].
  apply IH, fired_step, H.
Qed.

Lemma armed_steps (t0 : Z) (evs : list event) (w : world) :
  armed t0 w -> existsb powers_on evs = false ->
  t0 + 5000 <= now w + elapsed evs ->
  fired (steps evs w).
Proof.
  revert w. induction evs as [|ev evs IH]; intros w Ha Hev Ht.
  - destruct Ha as (_ & Hn & _). simpl in Ht. lia.
  - simpl in Hev. apply orb_false_iff in Hev. destruct Hev as [Hev Hevs].
    change (steps (ev :: evs) w) with (steps evs (step ev w)).
    destruct (armed_step t0 ev w Ha Hev) as [Hf | [Ha' Hn']].
    + apply fired_steps, Hf.
    + apply IH; auto. rewrite Hn'.
      assert (elapsed (ev :: evs) = elapsed [ev] + elapsed evs)
        by (destruct ev; simpl; lia).
      lia.
Qed.

(** C5, as amended. [ThermSmart.powerOn], and with it
    [ThermSmart.scanForReadings], rejects with a timeout error once 5000 ms
    have passed without the radio reaching the powered-on state. *)
Theorem powerOn_times_out (state : string) (t : Z) (evs : list event) :
  String.eqb state "poweredOn" = false ->
  existsb powers_on evs = false ->
  5000 <= elapsed evs ->
  exists st,
    p_powerOn (steps evs (powerOn (idle state t)))
      = Rejected (timeout_message st)
    /\ p_scan (steps evs (scanForReadings (idle state t)))
      = Rejected (timeout_message st).
Proof.
  intros Hs Hev Ht.
  assert (Ha : armed t (powerOn (idle state t))).
  { unfold powerOn. simpl. rewrite Hs. unfold armed; simpl.
    repeat split; auto; lia. }
  assert (Hn : now (powerOn (idle state t)) = t).
  { unfold powerOn. simpl. rewrite Hs. reflexivity. }
  destruct (armed_steps t evs _ Ha Hev ltac:(rewrite Hn; lia))
    as (st & H1 & H2 & _).
  exists st. split; assumption.
Qed.

End RadioReady.

(** ** The device session of [ThermSmart] *)

Section DeviceSession.
Import JS Noble Session.

Lemma characteristic_eqb_refl (c : characteristic) : characteristic_eqb c c = true.
Proof.
  unfold characteristic_eqb. rewrite String.eqb_refl, Nat.eqb_refl. reflexivity.
Qed.

Lemma characteristic_eqb_sym (a b : characteristic) :
  characteristic_eqb a b = characteristic_eqb b a.
Proof.
  unfold characteristic_eqb. rewrite String.eqb_sym, Nat.eqb_sym. reflexivity.
Qed.

Lemma write_waits (data : Buffer) (x : Z) (n c : characteristic) (w : world) :
  notifyCharacteristic w = Some n -> writeCharacteristic w = Some c ->
  quiet w ->
  waiting data x n (write data (Some x) w)
  /\ uncaught (write data (Some x) w) = uncaught w
  /\ requests (write data (Some x) w)
     = (requests w ++ [req_write c data false])%list.
Proof.
  intros Hn Hc (Hd & Ho & Hp).
  destruct w; simpl in *; subst.
  unfold write, waiting; simpl. repeat split; auto.
Qed.

Lemma waiting_step (data : Buffer) (x : Z) (n : characteristic)
      (ev : event) (w : world) :
  waiting data x n w -> passes x n ev = true ->
  waiting data x n (deliver ev w) /\ uncaught (deliver ev w) = uncaught w.
Proof.
  intros (Hn & Hp & Ho & Hd & Ha & Hdue) Hev.
  destruct w; simpl in *; subst.
  destruct ev as [error|error cs|error|error|c d|]; simpl in *.
  - destruct Hdue as [-> | ->]; simpl; unfold waiting; simpl; auto 10.
  - destruct Hdue as [-> | ->]; simpl; unfold waiting; simpl; auto 10.
  - destruct Hdue as [-> | ->]; simpl; unfold waiting; simpl; auto 10.
  - destruct error as [e|]; [discriminate|].
    destruct Hdue as [-> | ->]; simpl; unfold waiting; simpl; auto 10.
  - unfold data_listeners; simpl.
    rewrite (characteristic_eqb_sym n c).
    destruct (characteristic_eqb c n) eqn:Hc; simpl in *.
    + destruct (index d 0) as [b|]; simpl in *.
      * apply negb_true_iff in Hev. rewrite Hev, Nat.ltb_irrefl.
        unfold waiting; simpl; auto 10.
      * rewrite Nat.ltb_irrefl. unfold waiting; simpl; auto 10.
    + unfold waiting; simpl; auto 10.
  - unfold waiting; simpl; auto 10.
Qed.

Lemma waiting_steps (data : Buffer) (x : Z) (n : characteristic)
      (evs : list event) (w : world) :
  waiting data x n w -> forallb (passes x n) evs = true ->
  waiting data x n (run evs w) /\ uncaught (run evs w) = uncaught w.
Proof.
  revert w. induction evs as [|ev evs IH]; intros w Hw Hevs; simpl in *.
  - auto.
  - apply andb_true_iff in Hevs. destruct Hevs as [Hev Hevs].
    destruct (waiting_step data x n ev w Hw Hev) as [Hw' Hu].
    destruct (IH _ Hw' Hevs) as [Hw'' Hu'].
    split; [exact Hw''|]. rewrite <- Hu. exact Hu'.
Qed.

Lemma waiting_match (data : Buffer) (x : Z) (n : characteristic)
      (payload : Buffer) (w : world) :
  waiting data x n w -> index payload 0 = Some x ->
  p_write (deliver (Data n payload) w) = Resolved (Some payload)
  /\ on_data (deliver (Data n payload) w) = [].
Proof.
  intros (Hn & Hp & Ho & Hd & Ha & Hdue) Hx.
  destruct w; simpl in *; subst.
  unfold data_listeners; simpl.
  rewrite characteristic_eqb_refl; simpl.
  rewrite Hx, Z.eqb_refl; simpl.
  rewrite characteristic_eqb_refl, Nat.ltb_irrefl; simpl.
  auto.
Qed.

Lemma listener_keeps_resolved (v : option Buffer) (l : listener)
      (ev : event) (w : world) :
  p_write w = Resolved v -> p_write (run_listener l ev w) = Resolved v.
Proof.
  intros H. destruct w; simpl in *; subst.
  destruct l, ev; simpl; try reflexivity;
    unfold getCharacteristics_settle, setupListeners_settle; cases.
Qed.

Lemma emit_keeps_resolved (v : option Buffer) (ls : list listener)
      (ev : event) (w : world) :
  p_write w = Resolved v -> p_write (emit ls ev w) = Resolved v.
Proof.
  revert w. induction ls as [|l ls IH]; intros w H; simpl; [exact H|].
  pose proof (listener_keeps_resolved v l ev w H) as H'.
  destruct (_ <? _)%nat; [exact H' | apply IH, H'].
Qed.

Lemma deliver_keeps_resolved (v : option Buffer) (ev : event) (w : world) :
  p_write w = Resolved v -> p_write (deliver ev w) = Resolved v.
Proof.
  intros H. destruct ev as [error|error cs|error|error|c d|]; simpl.
  - destruct (owed cb_connect w); [|exact H].
    destruct w; simpl in *; subst.
    unfold link_settle, _getCharacteristics; cases.
  - destruct (owed cb_discover w); [|exact H].
    destruct w; simpl in *; subst.
    unfold discover_callback, getCharacteristics_settle, _setupListeners,
      setupListeners_settle; cases.
  - destruct (owed cb_subscribe w); [|exact H].
    destruct w; simpl in *; subst.
    unfold subscribe_callback, setupListeners_settle; cases.
  - destruct (owed cb_write w); [|exact H].
    destruct w; simpl in *; subst.
    unfold write_callback; cases.
  - apply emit_keeps_resolved, H.
  - apply emit_keeps_resolved. destruct w; simpl in *; exact H.
Qed.

Lemma run_keeps_resolved (v : option Buffer) (evs : list event) (w : world) :
  p_write w = Resolved v -> p_write (run evs w) = Resolved v.
Proof.
  revert w. induction evs as [|ev evs IH]; intros w H; simpl; [exact H|].
  apply IH, deliver_keeps_resolved, H.
Qed.

(** C1. On a ready session with no call in flight, [write(data, x)] with a
    response code [x] stays pending, and throws nothing, through every
    notification that does not start with [x]; the first notification of the
    notify characteristic that starts with [x] resolves it with that
    payload, and nothing received later changes the result. *)
Theorem write_resolves_with_first_matching_notification
        (data : Buffer) (x : Z) (n c : characteristic)
        (before after : list event) (payload : Buffer) (w : world) :
  ready w -> quiet w ->
  notifyCharacteristic w = Some n -> writeCharacteristic w = Some c ->
  forallb (passes x n) before = true ->
  index payload 0 = Some x ->
  p_write (run before (write data (Some x) w)) = Pending
  /\ uncaught (run before (write data (Some x) w)) = uncaught w
  /\ p_write (run (before ++ Data n payload :: after) (write data (Some x) w))
     = Resolved (Some payload).
Proof.
  intros _ Hq Hn Hc Hb Hx.
  destruct (write_waits data x n c w Hn Hc Hq) as (Hw & Hu & _).
  destruct (waiting_steps data x n before _ Hw Hb) as [Hw' Hu'].
  split; [apply Hw'|]. split; [congruence|].
  unfold run. rewrite fold_left_app. simpl.
  apply run_keeps_resolved.
  apply (waiting_match data x n payload _ Hw' Hx).
Qed.

(** C2 (the code departs from it). A disconnect, and whatever follows it short of
    a matching notification or a failure of the write, leaves the promise of
    [write(data, x)] pending: [write] registers no 'disconnect' listener. *)
Theorem write_stays_pending_after_disconnect
        (data : Buffer) (x : Z) (n c : characteristic)
        (later : list event) (w : world) :
  ready w -> quiet w ->
  notifyCharacteristic w = Some n -> writeCharacteristic w = Some c ->
  forallb (passes x n) later = true ->
  p_write (run (Written None :: Disconnect :: later) (write data (Some x) w))
  = Pending
  /\ on_disconnect (write data (Some x) w) = [].
Proof.
  intros _ Hq Hn Hc Hl.
  destruct (write_waits data x n c w Hn Hc Hq) as (Hw & _ & _).
  assert (Hall : forallb (passes x n) (Written None :: Disconnect :: later)
                 = true) by (simpl; exact Hl).
  destruct (waiting_steps data x n _ _ Hw Hall) as [Hw' _].
  split; [apply Hw' | apply Hw].
Qed.

End DeviceSession.

(** ** The legacy class [ThermSmartSensor] *)

Section LegacySensor.
Import JS Noble Sensor.

Lemma enter_same_link (e : entry) (w : world) : same_link w (enter e w).
Proof.
  destruct w. unfold same_link, enter, isPoweredOn_body, isPoweredOn_resolve,
    scan_body, scan_settle, connect_body, connect_settle, load_body.
  cases.
Qed.

Lemma same_link_tracked (w w' : world) :
  same_link w w' -> tracked w -> tracked w'.
Proof. unfold same_link, tracked. intros [-> ->]. auto. Qed.

Lemma assign_characteristics_same_link (cs : list characteristic) (w : world) :
  same_link w (assign_characteristics cs w)
  /\ uncaught (assign_characteristics cs w) = uncaught w.
Proof.
  revert w. induction cs as [|c cs IH]; intros w; simpl.
  - unfold same_link. auto.
  - destruct (IH (if (uuid c =? WRITE_CHARACTERISTIC_UUID)%string
                  then set_writeCharacteristic (Some c) w
                  else if (uuid c =? NOTIFY_CHARACTERISTIC_UUID)%string
                       then set_notifyCharacteristic (Some c) w
                       else w)) as [[I1 I2] I3].
    unfold same_link. rewrite I1, I2, I3.
    destruct w; cases.
Qed.

(** A listener other than the one of [scan] for 'discover' keeps the link,
    unless it is [handleDisconnect] itself. *)
Lemma listener_tracked (l : listener) (ev : event) (w : world) :
  ev <> Disconnect -> tracked w -> tracked (run_listener l ev w).
Proof.
  intros Hev Ht. destruct w. unfold tracked in *.
  destruct l, ev; simpl in *; try congruence; auto;
    unfold isPoweredOn_resolve, scan_body, scan_settle, connect_body,
      connect_settle, load_body;
    cases;
    try (intros _; apply in_or_app; right; left; reflexivity).
Qed.

Lemma emit_tracked (ls : list listener) (ev : event) (w : world) :
  ev <> Disconnect -> tracked w -> tracked (emit ls ev w).
Proof.
  intros Hev. revert w. induction ls as [|l ls IH]; intros w Ht; simpl.
  - exact Ht.
  - pose proof (listener_tracked l ev w Hev Ht) as Ht'.
    destruct (_ <? _)%nat; [exact Ht' | apply IH, Ht'].
Qed.

(** A round of 'disconnect' listeners, once the one-shot listeners are
    taken off the peripheral. *)
Lemma emit_disconnect (ls : list listener) (w : world) :
  on_disconnect w = [] ->
  on_disconnect (emit ls Disconnect w) = []
  /\ (In handleDisconnect_bound ls -> cleared (emit ls Disconnect w))
  /\ (cleared w -> cleared (emit ls Disconnect w))
  /\ (peripheral w = None -> peripheral (emit ls Disconnect w) = None).
Proof.
  revert w. induction ls as [|l ls IH]; intros w Hw; simpl.
  - split; [exact Hw|]. split; [intros []|]. auto.
  - assert (Hu : uncaught (run_listener l Disconnect w) = uncaught w)
      by (destruct w, l; reflexivity).
    rewrite Hu, Nat.ltb_irrefl.
    assert (Ho : on_disconnect (run_listener l Disconnect w) = [])
      by (destruct w, l; simpl in *; auto).
    destruct (IH _ Ho) as (I1 & I2 & I3 & I4).
    split; [exact I1|]. split; [|split].
    + intros [-> | Hin]; [|auto].
      apply I3. destruct w; unfold cleared; simpl; auto.
    + intros Hc. apply I3.
      destruct w, l; unfold cleared in *; simpl in *; tauto.
    + intros Hp. apply I4. destruct w, l; simpl in *; auto.
Qed.

Lemma deliver_tracked (ev : event) (w : world) :
  tracked w -> tracked (deliver ev w).
Proof.
  intros Ht.
  destruct ev as [state|ms|error|p state|error|error cs|error|error|c d b|].
  - simpl. apply emit_tracked; [discriminate|].
    destruct w; exact Ht.
  - destruct w; exact Ht.
  - simpl. destruct (owed cb_startScanning w); [|exact Ht].
    destruct w. unfold tracked in *. unfold scan_settle, connect_body,
      connect_settle, load_body. cases.
  - simpl. apply emit_tracked; [discriminate | exact Ht].
  - simpl. destruct (owed cb_connect w); [|exact Ht].
    destruct w. unfold tracked in *. unfold connect_callback, connect_settle,
      load_body. cases.
  - simpl. destruct (owed cb_discover w); [|exact Ht].
    unfold discover_callback. destruct error as [e|].
    + destruct w. unfold tracked in *. unfold connect_settle, load_body. cases.
    + destruct (assign_characteristics_same_link cs (paid cb_discover w))
        as [[A1 A2] _].
      unfold tracked in *.
      destruct (notifyCharacteristic _); simpl; rewrite A1, A2;
        destruct w; exact Ht.
  - simpl. destruct (owed cb_subscribe w); [|exact Ht].
    destruct w. unfold tracked in *. unfold subscribe_callback, connect_settle,
      load_body. cases.
  - simpl. destruct (owed cb_write w); [|exact Ht].
    destruct w. unfold tracked in *. unfold write_callback. cases.
  - simpl. apply emit_tracked; [discriminate | exact Ht].
  - simpl.
    destruct (emit_disconnect (on_disconnect w)
                (set_on_disconnect [] (set_peripheral_state "disconnected" w)))
      as (E1 & E2 & _ & E4); [destruct w; reflexivity|].
    unfold tracked in *. intros Hp. exfalso. apply Hp.
    destruct (peripheral w) eqn:Hw.
    + apply E2, Ht. congruence.
    + apply E4. destruct w; exact Hw.
Qed.

Lemma history_tracked (acts : list action) (w : world) :
  tracked w -> tracked (history acts w).
Proof.
  revert w. induction acts as [|a acts IH]; intros w Ht; simpl; [exact Ht|].
  apply IH. destruct a as [e|ev]; simpl.
  - apply (same_link_tracked w), Ht. apply enter_same_link.
  - apply deliver_tracked, Ht.
Qed.

(** The legacy class: whatever a sensor went through, the 'disconnect'
    of the peripheral it holds clears the peripheral, both characteristics
    and the cached payload. *)
Lemma sensor_disconnect_clears
      (state : string) (t : Z) (addr : option string) (acts : list action) :
  peripheral (history acts (new state t addr)) <> None ->
  cleared (deliver Disconnect (history acts (new state t addr))).
Proof.
  intros Hp.
  assert (Ht : tracked (history acts (new state t addr))).
  { apply history_tracked. intros H. simpl in H. congruence. }
  simpl.
  destruct (emit_disconnect (on_disconnect (history acts (new state t addr)))
              (set_on_disconnect []
                 (set_peripheral_state "disconnected"
                    (history acts (new state t addr)))))
    as (_ & E2 & _); [destruct (history _ _); reflexivity|].
  apply E2, Ht, Hp.
Qed.

(** The legacy class: on a ready sensor [connect()] resolves at once
    with the peripheral held, makes no request, logs nothing and leaves
    every field and listener as it was. *)
Lemma sensor_connect_when_ready (w : world) :
  ready w ->
  exists p,
    peripheral w = Some p
    /\ p_connect (connect w) = Resolved p
    /\ fields (connect w) = fields w
    /\ effects (connect w) = effects w.
Proof.
  intros (Hn & Hp & Hs & _).
  destruct (peripheral w) as [p|] eqn:Hw; [|congruence].
  exists p. destruct w; simpl in *; subst.
  unfold connect, enter, isPoweredOn_body, isPoweredOn_resolve, scan_body,
    scan_settle, connect_body, connect_settle; simpl.
  auto.
Qed.

Lemma waiting_for_radio_step (ev : event) (w : world) :
  waiting_for_radio w -> powers_on ev = false ->
  waiting_for_radio (deliver ev w).
Proof.
  intros (H1 & H2 & H3 & H4 & H5 & H6) Hev.
  destruct w; simpl in *; subst.
  destruct ev; simpl in *; try rewrite Hev; try rewrite Nat.ltb_irrefl;
    unfold waiting_for_radio; simpl; auto 10.
Qed.

(** The legacy class: [isPoweredOn()] has no timer. Until the radio
    reports the powered-on state its promise stays pending, however much
    time passes. *)
Lemma isPoweredOn_waits_without_bound
      (state : string) (t : Z) (addr : option string) (evs : list event) :
  String.eqb state "poweredOn" = false ->
  existsb powers_on evs = false ->
  p_isPoweredOn (run evs (isPoweredOn (new state t addr))) = Pending.
Proof.
  intros Hs Hevs.
  assert (Hw : waiting_for_radio (isPoweredOn (new state t addr))).
  { unfold isPoweredOn, enter, isPoweredOn_body. simpl. rewrite Hs.
    unfold waiting_for_radio; simpl. auto 10. }
  revert Hw Hevs. generalize (isPoweredOn (new state t addr)).
  induction evs as [|ev evs IH]; intros w Hw Hevs; simpl in *.
  - apply Hw.
  - apply orb_false_iff in Hevs. destruct Hevs as [Hev Hevs].
    apply IH; [|exact Hevs]. apply waiting_for_radio_step; assumption.
Qed.

Lemma stranded_step (n : characteristic) (ev : event) (w : world) :
  stranded n w -> stranded n (deliver ev w).
Proof.
  intros (H1 & H2 & H3 & H4 & H5 & H6 & H7).
  destruct w; simpl in *; subst.
  destruct ev as [state|ms|error|p state|error|error cs|error|error|c d b|];
    simpl.
  1-3, 5-7: destruct H7 as [-> | ->]; unfold stranded; simpl; auto 10.
  - unfold stranded; simpl; auto 10.
  - destruct H7 as [-> | ->]; simpl; [|unfold stranded; simpl; auto 10].
    unfold write_callback. destruct error; unfold stranded; simpl; auto 10.
  - unfold data_listeners; simpl.
    destruct (characteristic_eqb n c); simpl; [|unfold stranded; simpl; auto 10].
    destruct b; [|rewrite Nat.ltb_irrefl; unfold stranded; simpl; auto 10].
    destruct (readUInt8 d 0) as [v|]; simpl.
    + destruct (v =? GET_TEMPERATURE_COMMAND); simpl;
        [|rewrite Nat.ltb_irrefl; unfold stranded; simpl; auto 10].
      destruct (_ <? _)%nat; unfold stranded; simpl; auto 10.
    + destruct (_ <? _)%nat; unfold stranded; simpl; auto 10.
  - unfold stranded; simpl; auto 10.
Qed.

Lemma sensor_run_cons (ev : event) (evs : list event) (w : world) :
  run (ev :: evs) w = run evs (deliver ev w).
Proof. reflexivity. Qed.

(** The legacy class: a disconnect while [loadTemperatureData()]
    waits for its response clears the fields of the sensor and leaves the
    promise pending, whatever arrives afterwards. *)
Lemma loadTemperatureData_stranded_by_disconnect
      (n c : characteristic) (evs : list event) (w : world) :
  ready w -> quiet w ->
  notifyCharacteristic w = Some n -> writeCharacteristic w = Some c ->
  temperatureData w = None ->
  p_load (run (Disconnect :: evs) (loadTemperatureData w)) = Pending.
Proof.
  intros (Hn & Hp & Hs & _) (Q1 & Q2 & Q3 & Q4 & Q5) Hnc Hwc Ht.
  assert (Hw : stranded n (deliver Disconnect (loadTemperatureData w))).
  { destruct (peripheral w) as [p|] eqn:Hw; [|congruence].
    destruct w; simpl in *; subst.
    unfold loadTemperatureData, enter, isPoweredOn_body, isPoweredOn_resolve,
      scan_body, scan_settle, connect_body, connect_settle, load_body; simpl.
    rewrite Nat.ltb_irrefl.
    unfold stranded; simpl. auto 10. }
  rewrite sensor_run_cons.
  revert Hw. generalize (deliver Disconnect (loadTemperatureData w)).
  induction evs as [|ev evs IH]; intros w' Hw'; simpl.
  - apply Hw'.
  - apply IH, stranded_step, Hw'.
Qed.

End LegacySensor.

(** ** Reconnecting *)

Section Reconnecting.
Import JS Noble Session.

Lemma listener_keeps_handles (l : listener) (w : world) :
  writeCharacteristic (run_listener l Disconnect w) = writeCharacteristic w
  /\ notifyCharacteristic (run_listener l Disconnect w)
     = notifyCharacteristic w
  /\ uncaught (run_listener l Disconnect w) = uncaught w.
Proof.
  destruct w, l; simpl; auto;
    unfold getCharacteristics_settle, setupListeners_settle; simpl;
    match goal with |- context [match ?p with _ => _ end] => destruct p end;
    simpl; auto.
Qed.

Lemma emit_keeps_handles (ls : list listener) (w : world) :
  writeCharacteristic (emit ls Disconnect w) = writeCharacteristic w
  /\ notifyCharacteristic (emit ls Disconnect w) = notifyCharacteristic w.
Proof.
  revert w. induction ls as [|l ls IH]; intros w; simpl; [auto|].
  destruct (listener_keeps_handles l w) as (H1 & H2 & H3).
  rewrite H3, Nat.ltb_irrefl.
  destruct (IH (run_listener l Disconnect w)) as [I1 I2].
  rewrite I1, I2. auto.
Qed.

(** A 'disconnect' leaves both characteristic handles of a [ThermSmart]
    session as they were. *)
Lemma session_disconnect_keeps_handles (w : world) :
  writeCharacteristic (deliver Disconnect w) = writeCharacteristic w
  /\ notifyCharacteristic (deliver Disconnect w) = notifyCharacteristic w.
Proof.
  simpl.
  destruct (emit_keeps_handles (on_disconnect w)
              (set_on_disconnect [] (set_peripheral_state "disconnected" w)))
    as [H1 H2].
  rewrite H1, H2. destruct w; auto.
Qed.

Lemma session_run_cons (ev : event) (evs : list event) (w : world) :
  run (ev :: evs) w = run evs (deliver ev w).
Proof. reflexivity. Qed.

Lemma connect_when_connected (w : world) :
  due w = [] -> peripheral_state w = "connected" ->
  discovering (connect w)
  /\ requests (connect w) = (requests w ++ [req_discover [SERVICE_UUID] []])%list.
Proof.
  intros Hd Hs. destruct w; simpl in Hd, Hs; subst.
  unfold discovering; simpl. auto 10.
Qed.

Lemma connect_when_disconnected (w : world) :
  due w = [] -> String.eqb (peripheral_state w) "connected" = false ->
  linking (connect w) /\ on_disconnect (connect w) = on_disconnect w.
Proof.
  intros Hd Hs. destruct w; simpl in Hd, Hs; subst.
  unfold linking, connect; simpl. rewrite Hs. simpl. auto.
Qed.

Lemma linking_step (w : world) :
  linking w ->
  discovering (deliver (Connected None) w)
  /\ on_disconnect (deliver (Connected None) w)
     = (on_disconnect w ++ [getCharacteristics_disconnectHandler])%list.
Proof.
  intros (H1 & H2 & H3). destruct w; simpl in H1, H2, H3; subst.
  unfold discovering; simpl. auto 10.
Qed.

Lemma discovering_step (cs : list characteristic) (n : characteristic)
      (w : world) :
  discovering w ->
  find_uuid NOTIFY_CHARACTERISTIC_UUID cs = Some n ->
  subscribing n (find_uuid WRITE_CHARACTERISTIC_UUID cs)
    (deliver (Discovered None cs) w)
  /\ on_disconnect (deliver (Discovered None cs) w)
     = (remove_listener getCharacteristics_disconnectHandler (on_disconnect w)
        ++ [setupListeners_disconnectHandler])%list.
Proof.
  intros (H1 & H2 & H3 & H4) Hn.
  destruct w; simpl in H1, H2, H3, H4; subst.
  unfold subscribing; simpl.
  unfold discover_callback, getCharacteristics_settle, _setupListeners; simpl.
  rewrite Hn; simpl. auto 10.
Qed.

Lemma subscribing_step (n : characteristic) (c : option characteristic)
      (w : world) :
  subscribing n c w ->
  p_connect (deliver (Subscribed None) w) = Resolved tt
  /\ peripheral_state (deliver (Subscribed None) w) = "connected"
  /\ writeCharacteristic (deliver (Subscribed None) w) = c
  /\ notifyCharacteristic (deliver (Subscribed None) w) = Some n.
Proof.
  intros (H1 & H2 & H3 & H4 & H5 & H6).
  destruct w; simpl in H1, H2, H3, H4, H5, H6; subst.
  simpl. auto.
Qed.

Lemma discovering_disconnect (w : world) :
  discovering w ->
  on_disconnect w = [getCharacteristics_disconnectHandler] ->
  p_connect (deliver Disconnect w) = Rejected "Peripheral disconnected unexpectedly".
Proof.
  intros (H1 & H2 & H3 & H4) H5.
  destruct w; simpl in H1, H2, H3, H4, H5; subst.
  simpl. rewrite Nat.ltb_irrefl. reflexivity.
Qed.

Lemma subscribing_disconnect (n : characteristic) (c : option characteristic)
      (w : world) :
  subscribing n c w ->
  on_disconnect w = [setupListeners_disconnectHandler] ->
  p_connect (deliver Disconnect w) = Rejected "Peripheral disconnected unexpectedly".
Proof.
  intros (H1 & H2 & H3 & H4 & H5 & H6) H7.
  destruct w; simpl in H1, H2, H3, H4, H5, H6, H7; subst.
  simpl. rewrite Nat.ltb_irrefl. reflexivity.
Qed.

Lemma session_connect_rediscovers (w : world) :
  peripheral_state w = "connected" -> p_connect (connect w) = Pending.
Proof.
  intros Hs. destruct w; simpl in Hs; subst. reflexivity.
Qed.

(** Every [connect()] that completes assigns both handles from its own
    discovery, whatever they were before. *)
Lemma session_connect_reassigns
      (w : world) (cs : list characteristic) (n : characteristic) :
  due w = [] ->
  find_uuid NOTIFY_CHARACTERISTIC_UUID cs = Some n ->
  p_connect (reconnected w cs) = Resolved tt
  /\ peripheral_state (reconnected w cs) = "connected"
  /\ writeCharacteristic (reconnected w cs)
     = find_uuid WRITE_CHARACTERISTIC_UUID cs
  /\ notifyCharacteristic (reconnected w cs) = Some n.
Proof.
  intros Hd Hn. unfold reconnected, completion_of.
  destruct (String.eqb (peripheral_state w) "connected") eqn:Hs.
  - apply String.eqb_eq in Hs.
    destruct (connect_when_connected w Hd Hs) as [H _].
    rewrite app_nil_l, !session_run_cons.
    eapply subscribing_step. apply discovering_step; eauto.
  - destruct (connect_when_disconnected w Hd Hs) as [H _].
    apply linking_step in H. destruct H as [H _].
    change ([Connected None] ++ [Discovered None cs; Subscribed None])%list
      with [Connected None; Discovered None cs; Subscribed None].
    rewrite !session_run_cons.
    eapply subscribing_step. apply discovering_step; eauto.
Qed.

(** The sibling paths of [write]: a disconnect during the discovery of the
    characteristics, or while the subscription is awaited, fails
    [connect()]. *)
Lemma connect_fails_on_disconnect (w : world) (cs : list characteristic)
      (n : characteristic) :
  due w = [] -> on_disconnect w = [] ->
  find_uuid NOTIFY_CHARACTERISTIC_UUID cs = Some n ->
  String.eqb (peripheral_state w) "connected" = false ->
  p_connect (run [Connected None; Disconnect] (connect w))
  = Rejected "Peripheral disconnected unexpectedly"
  /\ p_connect (run [Connected None; Discovered None cs; Disconnect] (connect w))
     = Rejected "Peripheral disconnected unexpectedly".
Proof.
  intros Hd Ho Hn Hs.
  destruct (connect_when_disconnected w Hd Hs) as [H Ho'].
  apply linking_step in H. destruct H as [H Ho''].
  rewrite Ho', Ho, app_nil_l in Ho''.
  rewrite !session_run_cons. split.
  - apply discovering_disconnect; assumption.
  - destruct (discovering_step cs n _ H Hn) as [H' Ho3].
    rewrite Ho'' in Ho3.
    change (remove_listener getCharacteristics_disconnectHandler
              [getCharacteristics_disconnectHandler]
            ++ [setupListeners_disconnectHandler])%list
      with [setupListeners_disconnectHandler] in Ho3.
    eapply subscribing_disconnect; eassumption.
Qed.

End Reconnecting.

(** ** Both classes side by side *)

Section BothClasses.
Import JS Noble.

(** C8, as amended. The 'disconnect' of the peripheral a legacy sensor
    holds clears its peripheral, both characteristics and the cached
    payload, whatever the sensor went through before. A [ThermSmart]
    session keeps both handles through a 'disconnect'; every [connect()]
    that completes assigns both from its own discovery. *)
Theorem disconnect_clears_sensor_and_connect_reassigns_session
        (state : string) (t : Z) (addr : option string)
        (acts : list Sensor.action)
        (w : Session.world) (cs : list characteristic) (n : characteristic) :
  Sensor.peripheral (Sensor.history acts (Sensor.new state t addr)) <> None ->
  Session.due w = [] ->
  find_uuid Session.NOTIFY_CHARACTERISTIC_UUID cs = Some n ->
  Sensor.cleared
    (Sensor.deliver Sensor.Disconnect
       (Sensor.history acts (Sensor.new state t addr)))
  /\ Session.writeCharacteristic (Session.deliver Session.Disconnect w)
     = Session.writeCharacteristic w
  /\ Session.notifyCharacteristic (Session.deliver Session.Disconnect w)
     = Session.notifyCharacteristic w
  /\ Session.writeCharacteristic (Session.reconnected w cs)
     = find_uuid Session.WRITE_CHARACTERISTIC_UUID cs
  /\ Session.notifyCharacteristic (Session.reconnected w cs) = Some n.
Proof.
  intros Hp Hd Hn.
  split; [apply sensor_disconnect_clears, Hp|].
  destruct (session_disconnect_keeps_handles w) as [K1 K2].
  destruct (session_connect_reassigns w cs n Hd Hn) as (_ & _ & R1 & R2).
  auto.
Qed.

(** C9, as amended. On a ready legacy sensor [connect()] resolves at once
    and changes nothing. On a ready [ThermSmart] session [connect()] skips
    the connection of the link only: it asks for the characteristics again,
    stays pending until they are discovered and the subscription is
    confirmed, and assigns the handles found by that discovery. *)
Theorem connect_on_a_ready_session
        (ws : Sensor.world) (w : Session.world)
        (cs : list characteristic) (n : characteristic) :
  Sensor.ready ws ->
  Session.ready w -> Session.due w = [] ->
  find_uuid Session.NOTIFY_CHARACTERISTIC_UUID cs = Some n ->
  (exists p,
      Sensor.peripheral ws = Some p
      /\ Sensor.p_connect (Sensor.connect ws) = Resolved p
      /\ Sensor.fields (Sensor.connect ws) = Sensor.fields ws
      /\ Sensor.effects (Sensor.connect ws) = Sensor.effects ws)
  /\ Session.requests (Session.connect w)
     = (Session.requests w
        ++ [Session.req_discover [Session.SERVICE_UUID] []])%list
  /\ Session.p_connect (Session.connect w) = Pending
  /\ Session.p_connect
       (Session.run [Session.Discovered None cs; Session.Subscribed None]
          (Session.connect w)) = Resolved tt
  /\ Session.writeCharacteristic
       (Session.run [Session.Discovered None cs; Session.Subscribed None]
          (Session.connect w))
     = find_uuid Session.WRITE_CHARACTERISTIC_UUID cs
  /\ Session.notifyCharacteristic
       (Session.run [Session.Discovered None cs; Session.Subscribed None]
          (Session.connect w)) = Some n.
Proof.
  intros Hws (Hs & _) Hd Hn.
  split; [apply sensor_connect_when_ready, Hws|].
  destruct (connect_when_connected w Hd Hs) as [_ Hr].
  split; [exact Hr|].
  split; [apply (session_connect_rediscovers w Hs)|].
  destruct (session_connect_reassigns w cs n Hd Hn) as (R0 & _ & R1 & R2).
  unfold Session.reconnected, Session.completion_of in R0, R1, R2.
  rewrite Hs in R0, R1, R2. simpl app in R0, R1, R2. auto.
Qed.

End BothClasses.

(** ** The properties at concrete values *)

Section Instances.
Import JS Noble Samples.

Ltac evaluate :=
  vm_compute;
  repeat match goal with |- _ /\ _ => split end;
  try reflexivity; try discriminate; try lia.

Lemma session_is_ready : Session.ready session /\ Session.quiet session.
Proof. evaluate. Qed.

Lemma sensor_is_ready : Sensor.ready sensor /\ Sensor.quiet sensor.
Proof. evaluate. Qed.

(** [write([0xd1, 0x01], 0xd1)] receives a 0xd2 payload, the confirmation of
    the write, a 0xd1 payload and another 0xd1 payload. *)
Lemma write_resolves_with_first_matching_notification_witness :
  Session.p_write
    (Session.run [Session.Data nc [xd2; x00]; Session.Written None]
       (Session.write [xd1; x01] (Some 0xd1) session)) = Pending
  /\ Session.uncaught
       (Session.run [Session.Data nc [xd2; x00]; Session.Written None]
          (Session.write [xd1; x01] (Some 0xd1) session))
     = Session.uncaught session
  /\ Session.p_write
       (Session.run
          ([Session.Data nc [xd2; x00]; Session.Written None]
             ++ Session.Data nc [xd1; x01; x24] :: [Session.Data nc [xd1; x02]])
          (Session.write [xd1; x01] (Some 0xd1) session))
     = Resolved (Some [xd1; x01; x24]).
Proof.
  apply (write_resolves_with_first_matching_notification
           [xd1; x01] 0xd1 nc wc
           [Session.Data nc [xd2; x00]; Session.Written None]
           [Session.Data nc [xd1; x02]] [xd1; x01; x24] session).
  - evaluate.
  - evaluate.
  - evaluate.
  - evaluate.
  - evaluate.
  - evaluate.
Defined.

(** The write is confirmed, then the peripheral
    disconnects. *)
Lemma write_stays_pending_after_disconnect_witness :
  Session.p_write
    (Session.run [Session.Written None; Session.Disconnect]
       (Session.write [xd1; x01] (Some 0xd1) session)) = Pending
  /\ Session.on_disconnect (Session.write [xd1; x01] (Some 0xd1) session) = [].
Proof.
  apply (write_stays_pending_after_disconnect
           [xd1; x01] 0xd1 nc wc [] session).
  - evaluate.
  - evaluate.
  - evaluate.
  - evaluate.
  - evaluate.
Defined.

(** The radio stays off: 2000 ms, a change to 'unknown', 3000 ms. *)
Lemma powerOn_times_out_witness :
  exists st,
    Scan.p_powerOn
      (Scan.run one_reading true None
         [Scan.Elapse 2000; Scan.StateChange "unknown"; Scan.Elapse 3000]
         (Scan.powerOn (Scan.idle "poweredOff" 0)))
    = Rejected (Scan.timeout_message st)
    /\ Scan.p_scan
         (Scan.run one_reading true None
            [Scan.Elapse 2000; Scan.StateChange "unknown"; Scan.Elapse 3000]
            (Scan.scanForReadings (Scan.idle "poweredOff" 0)))
       = Rejected (Scan.timeout_message st).
Proof.
  apply (powerOn_times_out one_reading true None "poweredOff" 0
           [Scan.Elapse 2000; Scan.StateChange "unknown"; Scan.Elapse 3000]).
  - evaluate.
  - evaluate.
  - evaluate.
Defined.

(** C5, as stated, fails for the legacy class: [isPoweredOn()] is still
    pending after 5 seconds, and after an hour. *)
Lemma isPoweredOn_pending_after_an_hour :
  Sensor.p_isPoweredOn
    (Sensor.run [Sensor.Elapse 5000]
       (Sensor.isPoweredOn (Sensor.new "poweredOff" 0 None))) = Pending
  /\ Sensor.p_isPoweredOn
       (Sensor.run
          [Sensor.Elapse 5000; Sensor.StateChange "unknown";
           Sensor.Elapse 3600000]
          (Sensor.isPoweredOn (Sensor.new "poweredOff" 0 None))) = Pending.
Proof. evaluate. Qed.

(** A peripheral that says it is bb:1b:2c:3d:4e:5f sends the frame of
    aa:1b:2c:3d:4e:5f. *)
Lemma address_mismatch_is_discarded_witness :
  Scan.discoverHandler one_reading true None
    (advertising (Some "bb:1b:2c:3d:4e:5f") (Some frame)) = Scan.Returns []
  /\ Scan.calls
       (Scan.deliver one_reading true None
          (Scan.Discover (advertising (Some "bb:1b:2c:3d:4e:5f") (Some frame)))
          (Scan.idle "poweredOn" 0))
     = Scan.calls (Scan.idle "poweredOn" 0).
Proof.
  apply (address_mismatch_is_discarded one_reading true None
           (advertising (Some "bb:1b:2c:3d:4e:5f") (Some frame))
           frame "bb1b2c3d4e5f" 0xaa1b2c3d4e5f (Scan.idle "poweredOn" 0)).
  - evaluate.
  - evaluate.
  - evaluate.
  - evaluate.
Defined.

(** C6, as stated, fails for a peripheral without an address: nothing is
    compared, and the readings of a frame that names aa:1b:2c:3d:4e:5f are
    delivered. The same holds for an empty address. *)
Lemma addressless_peripheral_is_delivered :
  Scan.stripped (address (advertising None (Some frame))) = None
  /\ option_map toString16 (readUIntLE frame 2 6) = Some "aa1b2c3d4e5f"
  /\ Scan.discoverHandler one_reading true None
       (advertising None (Some frame))
     = Scan.Returns [(battery, advertising None (Some frame))]
  /\ Scan.discoverHandler one_reading true None
       (advertising (Some "") (Some frame))
     = Scan.Returns [(battery, advertising (Some "") (Some frame))].
Proof. evaluate. Qed.

(** A frame of 8 bytes. *)
Lemma short_or_foreign_frame_is_discarded_witness :
  Scan.discoverHandler one_reading true None
    (advertising (Some "aa:1b:2c:3d:4e:5f") (Some short_frame))
  = Scan.Returns []
  /\ Scan.calls
       (Scan.deliver one_reading true None
          (Scan.Discover
             (advertising (Some "aa:1b:2c:3d:4e:5f") (Some short_frame)))
          (Scan.idle "poweredOn" 0))
     = Scan.calls (Scan.idle "poweredOn" 0).
Proof.
  apply (short_or_foreign_frame_is_discarded one_reading true None
           (advertising (Some "aa:1b:2c:3d:4e:5f") (Some short_frame))
           short_frame (Scan.idle "poweredOn" 0)).
  - evaluate.
  - left. evaluate.
Defined.

(** A peripheral that advertises the service without manufacturer data. *)
Lemma missing_manufacturer_data_throws_witness :
  Scan.discoverHandler one_reading true None
    (advertising (Some "aa:1b:2c:3d:4e:5f") None) = Scan.Throws "TypeError".
Proof.
  destruct (missing_manufacturer_data_throws one_reading true None
              (advertising (Some "aa:1b:2c:3d:4e:5f") None)) as [H _].
  - evaluate.
  - exact H.
Defined.

Lemma disconnect_clears_sensor_and_connect_reassigns_session_witness :
  Sensor.cleared
    (Sensor.deliver Sensor.Disconnect
       (Sensor.history sensor_story (Sensor.new "poweredOn" 0 None)))
  /\ Session.writeCharacteristic
       (Session.reconnected (Session.deliver Session.Disconnect session)
          [wc'; nc']) = Some wc'.
Proof.
  destruct (disconnect_clears_sensor_and_connect_reassigns_session
              "poweredOn" 0 None sensor_story
              (Session.deliver Session.Disconnect session) [wc'; nc'] nc')
    as (H1 & _ & _ & H2 & _).
  - evaluate.
  - evaluate.
  - evaluate.
  - split; [exact H1 | exact H2].
Defined.

(** C8, as stated, fails for [ThermSmart]: after a 'disconnect' the session
    still has both handles of the connection that ended, and [identify()]
    writes to the old write characteristic. *)
Lemma session_keeps_handles_after_disconnect :
  Session.writeCharacteristic (Session.deliver Session.Disconnect session)
  = Some wc
  /\ Session.notifyCharacteristic (Session.deliver Session.Disconnect session)
     = Some nc
  /\ Session.requests
       (Session.identify (Session.deliver Session.Disconnect session))
     = (Session.requests session ++ [Session.req_write wc [xd5] false])%list.
Proof. evaluate. Qed.

Lemma connect_on_a_ready_session_witness :
  (exists p,
      Sensor.peripheral sensor = Some p
      /\ Sensor.p_connect (Sensor.connect sensor) = Resolved p)
  /\ Sensor.fields (Sensor.connect sensor) = Sensor.fields sensor
  /\ Session.p_connect (Session.connect session) = Pending.
Proof.
  destruct (connect_on_a_ready_session sensor session [wc'; nc'] nc')
    as ((p & Hp & H1 & H2 & _) & _ & H3 & _).
  - apply sensor_is_ready.
  - apply session_is_ready.
  - evaluate.
  - evaluate.
  - split; [exists p; split; assumption | split; assumption].
Defined.

(** C9, as stated, fails for [ThermSmart]: on a ready session [connect()]
    asks the radio for the characteristics again and is pending until the
    radio answers; the answer replaces the handles. *)
Lemma session_connect_repeats_discovery :
  Session.ready session
  /\ Session.p_connect (Session.connect session) = Pending
  /\ Session.requests (Session.connect session)
     = (Session.requests session ++ [Session.req_discover ["fff0"] []])%list
  /\ Session.writeCharacteristic
       (Session.run
          [Session.Discovered None [wc'; nc']; Session.Subscribed None]
          (Session.connect session)) = Some wc'
  /\ Session.writeCharacteristic session = Some wc.
Proof. evaluate. Qed.

End Instances.

(** ** The clock *)

Section Clock.
Import JS TimeCodec TimeSync.

Lemma in_range (bound : nat) (z : Z) :
  0 <= z < Z.of_nat bound -> In z (map Z.of_nat (seq 0 bound)).
Proof.
  intros H. apply in_map_iff. exists (Z.to_nat z). split; [lia|].
  apply in_seq. lia.
Qed.

Lemma to_int32_small (z : Z) :
  -2147483648 <= z < 2147483648 -> to_int32 z = z.
Proof. intros H. unfold to_int32. rewrite Z.mod_small; lia. Qed.

(** The encoding as arithmetic, while the shift stays within 32 bits. *)
Lemma intToBCDByte_value (n : Z) :
  0 <= n < 1342177280 -> intToBCDByte n = 16 * (n / 10) + n mod 10.
Proof.
  intros Hn. unfold intToBCDByte, shl_frac, shl, rem, trunc, div.
  unfold Qdiv, Qmult, Qinv, inject_Z. simpl Qnum. simpl Qden.
  rewrite Z.mul_1_r, Z.quot_div_nonneg, Z.rem_mod_nonneg by lia.
  assert (0 <= n / 10 < 134217728).
  { split; [apply Z.div_pos; lia | apply Z.div_lt_upper_bound; lia]. }
  rewrite (to_int32_small (n / 10)) by lia.
  change (4 mod 32) with 4. rewrite Z.shiftl_mul_pow2 by lia.
  change (2 ^ 4) with 16. rewrite to_int32_small by lia. lia.
Qed.

(** The decoding as arithmetic. *)
Lemma bcdByteToInt_value (b : Z) :
  0 <= b < 2147483648 -> bcdByteToInt b = ((b / 16) mod 16) * 10 + b mod 16.
Proof.
  intros Hb. unfold bcdByteToInt, shr, band.
  rewrite (to_int32_small b) by lia.
  change (to_int32 240) with 240. change (to_int32 15) with 15.
  change (4 mod 32) with 4.
  assert (L : 0 <= Z.land b 240 < 256).
  { assert (0 <= Z.land b 240) by (apply Z.land_nonneg; lia).
    split; [assumption|].
    destruct (Z.eq_dec (Z.land b 240) 0) as [->|Hz]; [lia|].
    change 256 with (2 ^ 8). apply Z.log2_lt_pow2; [lia|].
    pose proof (Z.log2_land b 240 ltac:(lia) ltac:(lia)) as M.
    change (Z.log2 240) with 7 in M. lia. }
  rewrite (to_int32_small (Z.land b 240)) by lia.
  rewrite Z.shiftr_land. change (Z.shiftr 240 4) with (Z.ones 4).
  change 15 with (Z.ones 4). rewrite !Z.land_ones by lia.
  rewrite Z.shiftr_div_pow2 by lia. reflexivity.
Qed.

(** X1. Decoding an encoded number keeps its last digit and the tens modulo
    16: the round trip holds up to 159 and for no larger number. *)
Theorem bcd_roundtrip_holds_up_to_159 (n : Z) :
  0 <= n < 1342177280 ->
  bcdByteToInt (intToBCDByte n) = bcd_image n
  /\ (bcdByteToInt (intToBCDByte n) = n <-> n <= 159).
Proof.
  intros Hn.
  pose proof (Z.div_mod n 10 ltac:(lia)) as D.
  pose proof (Z.mod_pos_bound n 10 ltac:(lia)) as B.
  assert (Q : 0 <= n / 10 < 134217728).
  { split; [apply Z.div_pos; lia | apply Z.div_lt_upper_bound; lia]. }
  assert (E : bcdByteToInt (intToBCDByte n) = bcd_image n).
  { rewrite intToBCDByte_value by lia.
    rewrite bcdByteToInt_value by lia. unfold bcd_image.
    replace (16 * (n / 10) + n mod 10) with (n mod 10 + (n / 10) * 16) by lia.
    rewrite Z.div_add, Z.mod_add by lia.
    rewrite (Z.div_small (n mod 10) 16), (Z.mod_small (n mod 10) 16) by lia.
    reflexivity. }
  split; [exact E|]. rewrite E. unfold bcd_image.
  pose proof (Z.div_mod (n / 10) 16 ltac:(lia)) as D'.
  pose proof (Z.mod_pos_bound (n / 10) 16 ltac:(lia)) as B'.
  assert (0 <= n / 10 / 16) by (apply Z.div_pos; lia).
  split; intros H'.
  - assert (n / 10 / 16 = 0) by nia. lia.
  - assert (n / 10 < 16) by (apply Z.div_lt_upper_bound; lia).
    rewrite (Z.mod_small (n / 10) 16) by lia. lia.
Qed.

Lemma bcd_roundtrip_holds_up_to_159_witness :
  bcdByteToInt (intToBCDByte 159) = 159
  /\ bcdByteToInt (intToBCDByte 160) = 0.
Proof.
  destruct (bcd_roundtrip_holds_up_to_159 159 ltac:(lia)) as [_ [_ H1]].
  destruct (bcd_roundtrip_holds_up_to_159 160 ltac:(lia)) as [H2 _].
  split; [apply H1; lia | rewrite H2; reflexivity].
Defined.

Lemma bcd_byte_table :
  forallb bcd_byte_at (map Z.of_nat (seq 0 160)) = true.
Proof. vm_compute. reflexivity. Qed.

Lemma bcd_byte (n : Z) :
  0 <= n <= 159 -> bcdByteToInt (byte_val (to_byte (intToBCDByte n))) = n.
Proof.
  intros Hn. pose proof bcd_byte_table as T. rewrite forallb_forall in T.
  apply Z.eqb_eq. apply (T n). apply (in_range 160). lia.
Qed.

Lemma operand_Buffer_from (numbers : list Z) (i : nat) (z : Z) :
  nth_error numbers i = Some z ->
  operand (Buffer_from numbers) i = byte_val (to_byte z).
Proof.
  intros H. unfold operand, index, Buffer_from.
  rewrite nth_error_map, H. reflexivity.
Qed.

(** X2. The bytes [syncTime()] sends decode, with the decoder of [readTime()],
    to the time that was encoded, for every time from 2000 to 2159. *)
Theorem time_roundtrip (now : date) :
  on_the_dial now -> readTime_date (syncTime_command now) = now.
Proof.
  intros (Hy & Hm & Hd & Hh & Hmi & Hs).
  destruct now as [y mo d h mi s].
  cbn [fullYear month day hours minutes seconds] in *.
  unfold readTime_date, syncTime_command.
  cbn [fullYear month day hours minutes seconds].
  do 6 (erewrite operand_Buffer_from by reflexivity).
  rewrite !bcd_byte by lia.
  f_equal; lia.
Qed.

Lemma time_roundtrip_witness :
  readTime_date
    (syncTime_command
       {| fullYear := 2026; month := 10; day := 2;
          hours := 23; minutes := 59; seconds := 7 |})
  = {| fullYear := 2026; month := 10; day := 2;
       hours := 23; minutes := 59; seconds := 7 |}.
Proof.
  apply time_roundtrip. unfold on_the_dial. simpl. lia.
Defined.

Lemma operand_padding (data : Buffer) (k i : nat) :
  operand (data ++ repeat x00 k)%list i = operand data i.
Proof.
  unfold operand, index.
  destruct (Nat.lt_ge_cases i (List.length data)) as [Hlt|Hge].
  - rewrite nth_error_app1 by exact Hlt. reflexivity.
  - rewrite nth_error_app2 by exact Hge.
    rewrite (proj2 (nth_error_None data i) Hge). simpl.
    destruct (nth_error (repeat x00 k) (i - List.length data)) as [b|] eqn:E;
      [|reflexivity].
    apply nth_error_In, repeat_spec in E. subst. reflexivity.
Qed.

(** X3. Bytes the response does not have are read as zero: a response cut
    short decodes like the same response filled up with zero bytes, so
    [readTime()] does not fail on it; the opcode alone decodes to month -1
    of the year 2000. *)
Theorem readTime_reads_missing_bytes_as_zero (data : Buffer) (k : nat) :
  readTime_date (data ++ repeat x00 k)%list = readTime_date data
  /\ ((List.length data <= 2)%nat ->
      readTime_date data
      = {| fullYear := 2000; month := -1; day := 0;
           hours := 0; minutes := 0; seconds := 0 |}).
Proof.
  split.
  - unfold readTime_date. rewrite !operand_padding. reflexivity.
  - intros Hl. unfold readTime_date.
    assert (Z0 : forall i, (2 <= i)%nat -> operand data i = 0).
    { intros i Hi. unfold operand, index.
      rewrite (proj2 (nth_error_None data i)) by lia. reflexivity. }
    rewrite !Z0 by lia. reflexivity.
Qed.

Lemma readTime_reads_missing_bytes_as_zero_witness :
  readTime_date [xd1; x01]
  = {| fullYear := 2000; month := -1; day := 0;
       hours := 0; minutes := 0; seconds := 0 |}.
Proof.
  apply (readTime_reads_missing_bytes_as_zero [xd1; x01] 0). simpl. lia.
Defined.

End Clock.

(** ** Reading scans: filters, failures and repetition *)

Section ReadingScans.
Import JS Noble Scan Scans.

Variable parseReadings : Buffer -> list Reading.t.
Variable readingHandler : bool.

Local Abbreviation handler := (discoverHandler parseReadings readingHandler).
Local Abbreviation step := (deliver parseReadings readingHandler).
Local Abbreviation steps := (run parseReadings readingHandler).

(** A round of 'discover' listeners adds the calls of each listener. *)
Lemma emit_discover_silent (addresses : option (list string))
      (p : peripheral) (ls : list listener) (w : world) :
  delivered (handler addresses p) = [] ->
  calls (emit parseReadings readingHandler addresses ls (Discover p) w)
  = calls w.
Proof.
  intros H. revert w. induction ls as [|l rest IH]; intros w; simpl.
  - reflexivity.
  - assert (E : calls (run_listener parseReadings readingHandler addresses
                         l (Discover p) w) = calls w).
    { destruct l; simpl; auto.
      destruct (handler addresses p) as [cs|e]; simpl in *.
      - subst. apply app_nil_r.
      - reflexivity. }
    destruct (_ <? _)%nat; [exact E|]. rewrite IH. exact E.
Qed.

Lemma unlisted_handler_silent (l : list string) (p : peripheral) :
  not_listed l (stripped (address p)) = true ->
  delivered (handler (Some l) p) = [].
Proof.
  intros Hn. unfold discoverHandler.
  destruct (manufacturerData p) as [data|]; [|reflexivity].
  destruct (List.length data <? 9)%nat; [reflexivity|].
  destruct (readUInt16LE data 0) as [company|]; [|reflexivity]. simpl.
  destruct (negb (company =? COMPANY_ID)); [reflexivity|].
  assert (D : delivered (deliver_readings parseReadings readingHandler
                           (Some l) p data (stripped (address p))) = []).
  { unfold deliver_readings. rewrite Hn. reflexivity. }
  destruct (truthy (stripped (address p))) as [a|]; [|exact D].
  destruct (readUIntLE data 2 6) as [derived|]; [|reflexivity]. simpl.
  destruct (negb (toString16 derived =? a)%string); [reflexivity | exact D].
Qed.

(** X4. With a list of addresses, a peripheral whose colon-stripped address is
    not an element of the list causes no call of [readingHandler], and
    neither does a peripheral without an address. *)
Theorem unlisted_peripheral_is_ignored
        (l : list string) (p : peripheral) (w : world) :
  not_listed l (stripped (address p)) = true ->
  delivered (handler (Some l) p) = []
  /\ calls (step (Some l) (Discover p) w) = calls w.
Proof.
  intros Hn.
  pose proof (unlisted_handler_silent l p Hn) as H.
  split; [exact H|].
  simpl. apply emit_discover_silent. exact H.
Qed.

Lemma strip_colons_has_no_colon (a : string) : has_colon (strip_colons a) = false.
Proof.
  induction a as [|c rest IH]; simpl; [reflexivity|].
  destruct (Ascii.eqb c ":") eqn:E; simpl; [exact IH|].
  rewrite E. exact IH.
Qed.

(** X5. The addresses of the list are compared as they are: an address written
    with colons is never found, so a list of such addresses silences the
    whole scan. *)
Theorem list_with_colons_matches_nothing
        (l : list string) (p : peripheral) (w : world) :
  forallb has_colon l = true ->
  delivered (handler (Some l) p) = []
  /\ calls (step (Some l) (Discover p) w) = calls w.
Proof.
  intros Hl.
  assert (Hn : not_listed l (stripped (address p)) = true);
    [|pose proof (unlisted_handler_silent l p Hn) as H;
      split; [exact H | simpl; apply emit_discover_silent; exact H]].
  unfold not_listed, stripped.
  destruct (address p) as [a|]; [|reflexivity].
  assert (N : forall x, has_colon x = false ->
                        negb (existsb (String.eqb x) l) = true).
  { intros x Hx. apply negb_true_iff.
    destruct (existsb _ l) eqn:E; [|reflexivity]. exfalso.
    apply existsb_exists in E. destruct E as (y & Hin & Hy).
    rewrite forallb_forall in Hl. specialize (Hl y Hin).
    apply String.eqb_eq in Hy. subst y. congruence. }
  destruct (a =? "")%string; apply N;
    [reflexivity | apply strip_colons_has_no_colon].
Qed.

Lemma of_pos_starts_with_nonzero (p : positive) (rest : string) :
  starts_with_nonzero (HexString.Raw.of_pos p rest).
Proof.
  revert p rest. fix IH 1. intros p rest.
  do 4 try destruct p as [p|p|]; cbn; try apply IH; discriminate.
Qed.

Lemma rendering_has_no_leading_zero (derived : Z) (rest : string) :
  toString16 derived = String "0" rest -> rest = "".
Proof.
  destruct derived as [|p|p]; simpl; intros H.
  - injection H as <-. reflexivity.
  - pose proof (of_pos_starts_with_nonzero p "") as N. rewrite H in N.
    simpl in N. congruence.
  - injection H as <-. reflexivity.
Qed.

(** X6. A peripheral whose address starts with the digit 0 and has more digits
    is never listened to, whatever it sends: the address taken from the
    frame is rendered without leading zeros and so never equals it. *)
Theorem address_with_leading_zero_is_always_discarded
        (addresses : option (list string)) (p : peripheral) (rest : string)
        (w : world) :
  truthy (stripped (address p)) = Some (String "0" rest) ->
  rest <> "" ->
  delivered (handler addresses p) = []
  /\ calls (step addresses (Discover p) w) = calls w.
Proof.
  intros Ha Hr.
  assert (H : delivered (handler addresses p) = []).
  { unfold discoverHandler.
    destruct (manufacturerData p) as [data|]; [|reflexivity].
    destruct (List.length data <? 9)%nat; [reflexivity|].
    destruct (readUInt16LE data 0) as [company|]; [|reflexivity]. simpl.
    destruct (negb (company =? COMPANY_ID)); [reflexivity|].
    rewrite Ha.
    destruct (readUIntLE data 2 6) as [derived|]; [|reflexivity]. simpl.
    destruct (String.eqb_spec (toString16 derived) (String "0" rest)) as [E|_];
      [|reflexivity].
    apply rendering_has_no_leading_zero in E. contradiction. }
  split; [exact H|]. simpl. apply emit_discover_silent. exact H.
Qed.

End ReadingScans.

(** ** Reading scans: their start, their end and what they leave behind *)

Section ScanLife.
Import JS Noble Scan Scans.

Variable parseReadings : Buffer -> list Reading.t.
Variable readingHandler : bool.
Variable addresses : option (list string).

Local Abbreviation handler :=
  (discoverHandler parseReadings readingHandler addresses).
Local Abbreviation step := (deliver parseReadings readingHandler addresses).
Local Abbreviation steps := (run parseReadings readingHandler addresses).
Local Abbreviation story := (history parseReadings readingHandler addresses).

Lemma steps_cons (ev : event) (evs : list event) (w : world) :
  steps (ev :: evs) w = steps evs (step ev w).
Proof. reflexivity. Qed.

Lemma steps_nil (w : world) : steps [] w = w.
Proof. reflexivity. Qed.

Lemma steps_app (evs evs' : list event) (w : world) :
  steps (evs ++ evs') w = steps evs' (steps evs w).
Proof. apply fold_left_app. Qed.

(** With the radio on, the scan is asked for at once and runs as soon as
    the radio confirms it. *)
Lemma scan_runs (t : Z) :
  requests (scanForReadings (idle "poweredOn" t))
  = [startScanning [SERVICE_UUID] true]
  /\ listening (step (ScanStarted None) (scanForReadings (idle "poweredOn" t))).
Proof. split; [reflexivity|]. unfold listening; simpl. auto 10. Qed.

Lemma silent_step (ev : event) (w : world) :
  silent w ->
  silent (step ev w) /\ calls (step ev w) = calls w
  /\ p_scan (step ev w) = p_scan w.
Proof.
  intros (H1 & H2 & H3 & H4 & H5).
  destruct w; simpl in H1, H2, H3, H4, H5; subst.
  destruct ev; unfold silent; simpl; auto 10.
Qed.

Lemma silent_steps (evs : list event) (w : world) :
  silent w ->
  silent (steps evs w) /\ calls (steps evs w) = calls w
  /\ p_scan (steps evs w) = p_scan w.
Proof.
  revert w. induction evs as [|ev evs IH]; intros w Hw.
  - auto.
  - rewrite steps_cons.
    destruct (silent_step ev w Hw) as (S1 & S2 & S3).
    destruct (IH _ S1) as (I1 & I2 & I3).
    rewrite I2, I3. auto.
Qed.

(** X7. When the radio leaves the powered-on state during a scan, the scan is
    rejected with the new state, the radio is told to stop scanning, and
    no later event calls [readingHandler] or changes the outcome. *)
Theorem radio_state_change_ends_the_scan
        (state : string) (later : list event) (w : world) :
  listening w -> String.eqb state "poweredOn" = false ->
  p_scan (steps (StateChange state :: later) w)
  = Rejected ("State changed to " ++ state)
  /\ requests (step (StateChange state) w)
     = (requests w ++ [stopScanning])%list
  /\ calls (steps (StateChange state :: later) w) = calls w.
Proof.
  intros (H1 & H2 & H3 & H4 & H5 & H6) Hs.
  rewrite steps_cons.
  assert (S : silent (step (StateChange state) w)
              /\ p_scan (step (StateChange state) w)
                 = Rejected ("State changed to " ++ state)
              /\ requests (step (StateChange state) w)
                 = (requests w ++ [stopScanning])%list
              /\ calls (step (StateChange state) w) = calls w).
  { destruct w; simpl in H1, H2, H3, H4, H5, H6; subst.
    simpl. rewrite Hs. simpl. rewrite Nat.ltb_irrefl.
    unfold silent; simpl. auto 10. }
  destruct S as (S0 & S1 & S2 & S3).
  destruct (silent_steps later _ S0) as (_ & L2 & L3).
  rewrite L2, L3. auto.
Qed.

(** X8. When the radio refuses to start the scan, the call is rejected with the
    error of the radio and no listener is registered: nothing that follows
    calls [readingHandler]. *)
Theorem scan_start_failure_rejects
        (t : Z) (e : string) (later : list event) :
  p_scan (steps (ScanStarted (Some e) :: later)
            (scanForReadings (idle "poweredOn" t))) = Rejected e
  /\ calls (steps (ScanStarted (Some e) :: later)
              (scanForReadings (idle "poweredOn" t))) = [].
Proof.
  rewrite steps_cons.
  assert (S : silent (step (ScanStarted (Some e))
                        (scanForReadings (idle "poweredOn" t))))
    by (unfold silent; simpl; auto 10).
  destruct (silent_steps later _ S) as (_ & L2 & L3).
  rewrite L2, L3. auto.
Qed.

Lemma armed_holds (t0 : Z) (ev : event) (w : world) :
  armed t0 w -> powers_on ev = false ->
  now w + elapsed [ev] < t0 + 5000 ->
  armed t0 (step ev w) /\ now (step ev w) = now w + elapsed [ev]
  /\ requests (step ev w) = requests w.
Proof.
  intros (Ht & Hn & Hs & Hd & Hp & Hg & Hq & Hr) Hev Hlt.
  destruct w; simpl in Ht, Hn, Hs, Hd, Hp, Hg, Hq, Hr; subst.
  destruct ev as [state|ms|error|p|]; simpl in *.
  - rewrite Hev, Nat.ltb_irrefl. unfold armed; simpl.
    repeat split; auto; lia.
  - destruct (Z.leb_spec (t0 + 5000) (now0 + ms)); [lia|].
    unfold armed; simpl. repeat split; auto; lia.
  - unfold armed; simpl. repeat split; auto; lia.
  - unfold armed; simpl. repeat split; auto; lia.
  - unfold armed; simpl. repeat split; auto; lia.
Qed.

Lemma elapsed_nonneg (evs : list event) :
  forallb forward evs = true -> 0 <= elapsed evs.
Proof.
  induction evs as [|ev evs IH]; simpl; [lia|].
  intros H. apply andb_true_iff in H. destruct H as [H1 H2].
  specialize (IH H2). destruct ev; simpl in *; lia.
Qed.

Lemma armed_holds_on (t0 : Z) (evs : list event) (w : world) :
  armed t0 w -> existsb powers_on evs = false ->
  forallb forward evs = true ->
  now w + elapsed evs < t0 + 5000 ->
  armed t0 (steps evs w) /\ requests (steps evs w) = requests w.
Proof.
  revert w. induction evs as [|ev evs IH]; intros w Ha Hp Hf Hlt.
  - auto.
  - simpl in Hp, Hf. apply orb_false_iff in Hp. apply andb_true_iff in Hf.
    destruct Hp as [Hp Hps], Hf as [Hf Hfs].
    pose proof (elapsed_nonneg evs Hfs) as Hnn.
    assert (Hs : elapsed (ev :: evs) = elapsed [ev] + elapsed evs)
      by (destruct ev; simpl; lia).
    destruct (armed_holds t0 ev w Ha Hp ltac:(lia)) as (A1 & A2 & A3).
    rewrite steps_cons.
    destruct (IH _ A1 Hps Hfs ltac:(lia)) as [I1 I2].
    rewrite I2, A3. auto.
Qed.

Lemma armed_power_on (t0 : Z) (w : world) :
  armed t0 w ->
  p_powerOn (step (StateChange "poweredOn") w) = Resolved tt
  /\ timeout (step (StateChange "poweredOn") w) = None
  /\ requests (step (StateChange "poweredOn") w)
     = (requests w ++ [startScanning [SERVICE_UUID] true])%list
  /\ p_scan (step (StateChange "poweredOn") w) = Pending.
Proof.
  intros (Ht & Hnw & Hsc & Hd & Hst & Hg & Hq & Hrs).
  destruct w; simpl in Ht, Hnw, Hsc, Hd, Hst, Hg, Hq, Hrs; subst.
  simpl. rewrite Nat.ltb_irrefl. auto.
Qed.

Lemma no_timer_elapse (ms : Z) (w : world) :
  timeout w = None ->
  p_powerOn (step (Elapse ms) w) = p_powerOn w
  /\ requests (step (Elapse ms) w) = requests w
  /\ p_scan (step (Elapse ms) w) = p_scan w.
Proof.
  intros Ht. destruct w; simpl in Ht; subst. simpl. auto.
Qed.

(** X9. When the radio reaches the powered-on state before 5000 ms have
    passed, [powerOn()] is fulfilled, the scan is asked for, and the timer
    is cleared: no amount of time rejects the call afterwards. *)
Theorem powerOn_in_time_starts_the_scan
        (state : string) (t : Z) (before : list event) (ms : Z) :
  String.eqb state "poweredOn" = false ->
  existsb powers_on before = false ->
  forallb forward before = true ->
  elapsed before < 5000 ->
  p_powerOn (steps (before ++ [StateChange "poweredOn"; Elapse ms])
               (scanForReadings (idle state t))) = Resolved tt
  /\ requests (steps (before ++ [StateChange "poweredOn"; Elapse ms])
                 (scanForReadings (idle state t)))
     = [startScanning [SERVICE_UUID] true]
  /\ p_scan (steps (before ++ [StateChange "poweredOn"; Elapse ms])
               (scanForReadings (idle state t))) = Pending.
Proof.
  intros Hs Hp Hf Hlt.
  assert (Ha : armed t (scanForReadings (idle state t))
               /\ now (scanForReadings (idle state t)) = t
               /\ requests (scanForReadings (idle state t)) = []).
  { unfold scanForReadings, powerOn. simpl. rewrite Hs. unfold armed; simpl.
    repeat split; auto; lia. }
  destruct Ha as (Ha & Hn & Hr).
  destruct (armed_holds_on t before _ Ha Hp Hf ltac:(lia)) as [A R].
  rewrite steps_app, !steps_cons. rewrite Hr in R.
  destruct (armed_power_on t _ A) as (P1 & P2 & P3 & P4).
  destruct (no_timer_elapse ms _ P2) as (E1 & E2 & E3).
  rewrite !steps_nil, E1, E2, E3, P1, P3, P4, R. auto.
Qed.










End ScanLife.

(** ** The device session: connecting *)

Section Connecting.
Import JS Noble Session Sessions.

Lemma connect_stands
      (od : list listener) (em : list signal) (rq : list request)
      (oda : list (characteristic * listener)) (wc nc : option characteristic)
      (pc : promise unit) (w : world) :
  stands [] od em rq oda wc nc pc w ->
  String.eqb (peripheral_state w) "connected" = false ->
  stands [cb_connect] od (em ++ [sig_connecting]) (rq ++ [req_connect])
    oda wc nc Pending (connect w)
  /\ p_link (connect w) = Pending
  /\ peripheral_state (connect w) = peripheral_state w.
Proof.
  intros (H1 & H2 & H3 & H4 & H5 & H6 & H7 & H8) Hs.
  destruct w; simpl in H1, H2, H3, H4, H5, H6, H7, H8, Hs; subst.
  unfold stands, connect; simpl. rewrite Hs. simpl. auto 12.
Qed.

Lemma connected_stands
      (od : list listener) (em : list signal) (rq : list request)
      (oda : list (characteristic * listener)) (wc nc : option characteristic)
      (w : world) :
  stands [cb_connect] od em rq oda wc nc Pending w -> p_link w = Pending ->
  stands [cb_discover] (od ++ [getCharacteristics_disconnectHandler]) em
    (rq ++ [req_discover [SERVICE_UUID] []]) oda wc nc Pending
    (deliver (Connected None) w)
  /\ p_getCharacteristics (deliver (Connected None) w) = Pending
  /\ peripheral_state (deliver (Connected None) w) = "connected".
Proof.
  intros (H1 & H2 & H3 & H4 & H5 & H6 & H7 & H8) Hp.
  destruct w; simpl in H1, H2, H3, H4, H5, H6, H7, H8, Hp; subst.
  unfold stands; simpl. auto 12.
Qed.

Lemma connect_refused_stands
      (e : string) (od : list listener) (em : list signal) (rq : list request)
      (oda : list (characteristic * listener)) (wc nc : option characteristic)
      (w : world) :
  stands [cb_connect] od em rq oda wc nc Pending w -> p_link w = Pending ->
  stands [] od em rq oda wc nc (Rejected e) (deliver (Connected (Some e)) w)
  /\ peripheral_state (deliver (Connected (Some e)) w) = peripheral_state w.
Proof.
  intros (H1 & H2 & H3 & H4 & H5 & H6 & H7 & H8) Hp.
  destruct w; simpl in H1, H2, H3, H4, H5, H6, H7, H8, Hp; subst.
  unfold stands; simpl. auto 12.
Qed.

Lemma discovered_stands
      (cs : list characteristic) (n : characteristic)
      (od : list listener) (em : list signal) (rq : list request)
      (oda : list (characteristic * listener)) (wc nc : option characteristic)
      (w : world) :
  stands [cb_discover] od em rq oda wc nc Pending w ->
  p_getCharacteristics w = Pending ->
  find_uuid NOTIFY_CHARACTERISTIC_UUID cs = Some n ->
  stands [cb_subscribe]
    (remove_listener getCharacteristics_disconnectHandler od
     ++ [setupListeners_disconnectHandler])
    em (rq ++ [req_subscribe n]) oda
    (find_uuid WRITE_CHARACTERISTIC_UUID cs) (Some n) Pending
    (deliver (Discovered None cs) w)
  /\ p_setupListeners (deliver (Discovered None cs) w) = Pending
  /\ peripheral_state (deliver (Discovered None cs) w) = peripheral_state w.
Proof.
  intros (H1 & H2 & H3 & H4 & H5 & H6 & H7 & H8) Hp Hn.
  destruct w; simpl in H1, H2, H3, H4, H5, H6, H7, H8, Hp; subst.
  unfold stands; simpl.
  unfold discover_callback, getCharacteristics_settle, _setupListeners; simpl.
  rewrite Hn; simpl. auto 12.
Qed.

Lemma discovered_without_notify_stands
      (cs : list characteristic)
      (od : list listener) (em : list signal) (rq : list request)
      (oda : list (characteristic * listener)) (wc nc : option characteristic)
      (w : world) :
  stands [cb_discover] od em rq oda wc nc Pending w ->
  p_getCharacteristics w = Pending ->
  find_uuid NOTIFY_CHARACTERISTIC_UUID cs = None ->
  stands []
    (remove_listener getCharacteristics_disconnectHandler od
     ++ [setupListeners_disconnectHandler])
    em rq oda (find_uuid WRITE_CHARACTERISTIC_UUID cs) None
    (Rejected "TypeError") (deliver (Discovered None cs) w).
Proof.
  intros (H1 & H2 & H3 & H4 & H5 & H6 & H7 & H8) Hp Hn.
  destruct w; simpl in H1, H2, H3, H4, H5, H6, H7, H8, Hp; subst.
  unfold stands; simpl.
  unfold discover_callback, getCharacteristics_settle, _setupListeners,
    setupListeners_settle; simpl.
  rewrite Hn; simpl. auto 12.
Qed.

Lemma discovery_refused_stands
      (e : string) (cs : list characteristic)
      (od : list listener) (em : list signal) (rq : list request)
      (oda : list (characteristic * listener)) (wc nc : option characteristic)
      (w : world) :
  stands [cb_discover] od em rq oda wc nc Pending w ->
  p_getCharacteristics w = Pending ->
  stands [] (remove_listener getCharacteristics_disconnectHandler od)
    em rq oda wc nc (Rejected e) (deliver (Discovered (Some e) cs) w).
Proof.
  intros (H1 & H2 & H3 & H4 & H5 & H6 & H7 & H8) Hp.
  destruct w; simpl in H1, H2, H3, H4, H5, H6, H7, H8, Hp; subst.
  unfold stands; simpl. auto 12.
Qed.

Lemma subscribed_stands
      (error : option string)
      (od : list listener) (em : list signal) (rq : list request)
      (oda : list (characteristic * listener)) (wc nc : option characteristic)
      (w : world) :
  stands [cb_subscribe] od em rq oda wc nc Pending w ->
  p_setupListeners w = Pending ->
  stands [] (remove_listener setupListeners_disconnectHandler od)
    (match error with None => em ++ [sig_connected] | Some _ => em end)
    rq oda wc nc
    (match error with None => Resolved tt | Some e => Rejected e end)
    (deliver (Subscribed error) w)
  /\ peripheral_state (deliver (Subscribed error) w) = peripheral_state w.
Proof.
  intros (H1 & H2 & H3 & H4 & H5 & H6 & H7 & H8) Hp.
  destruct w; simpl in H1, H2, H3, H4, H5, H6, H7, H8, Hp; subst.
  destruct error; unfold stands; simpl; auto 12.
Qed.

(** The state of a session before [connect()]: nothing owed, no listener. *)
Lemma fresh_stands (w : world) :
  due w = [] -> on_disconnect w = [] -> on_data w = [] ->
  stands [] [] (emitted w) (requests w) []
    (writeCharacteristic w) (notifyCharacteristic w) (p_connect w) w.
Proof. intros H1 H2 H3. unfold stands. auto 12. Qed.

(** X11. With both characteristics among those discovered, [connect()] on a
    peripheral that is not connected ends in the ready state with no
    listener and no callback left over: it emits 'connecting' and then
    'connected', and asks the radio to connect, to discover and to
    subscribe, in that order. *)
Theorem connect_reaches_ready
        (cs : list characteristic) (c n : characteristic) (w : world) :
  due w = [] -> on_disconnect w = [] -> on_data w = [] ->
  String.eqb (peripheral_state w) "connected" = false ->
  find_uuid WRITE_CHARACTERISTIC_UUID cs = Some c ->
  find_uuid NOTIFY_CHARACTERISTIC_UUID cs = Some n ->
  ready (reconnected w cs) /\ quiet (reconnected w cs)
  /\ p_connect (reconnected w cs) = Resolved tt
  /\ emitted (reconnected w cs)
     = (emitted w ++ [sig_connecting; sig_connected])%list
  /\ requests (reconnected w cs)
     = (requests w
        ++ [req_connect; req_discover [SERVICE_UUID] []; req_subscribe n])%list.
Proof.
  intros Hd Ho Hda Hs Hc Hn.
  unfold reconnected, completion_of. rewrite Hs.
  change ([Connected None] ++ [Discovered None cs; Subscribed None])%list
    with [Connected None; Discovered None cs; Subscribed None].
  rewrite !session_run_cons.
  destruct (connect_stands _ _ _ _ _ _ _ _ (fresh_stands w Hd Ho Hda) Hs)
    as (S0 & P0 & _).
  destruct (connected_stands _ _ _ _ _ _ _ S0 P0) as (S1 & P1 & T1).
  destruct (discovered_stands cs n _ _ _ _ _ _ _ S1 P1 Hn) as (S2 & P2 & T2).
  destruct (subscribed_stands None _ _ _ _ _ _ _ S2 P2) as (S3 & T3).
  destruct S3 as (D & OD & EM & RQ & ODA & WC & NC & PC).
  change (run [] ?x) with x.
  unfold ready, quiet.
  rewrite T3, T2, T1, D, OD, EM, RQ, ODA, WC, NC, PC, Hc.
  rewrite <- !app_assoc. simpl.
  repeat split; auto; discriminate.
Qed.

(** X12. Whichever step the radio refuses, [connect()] is rejected with the
    error of the radio, no listener stays on the peripheral and
    'connected' is not emitted. *)
Theorem connect_fails_with_the_error_of_the_radio
        (e : string) (cs : list characteristic) (n : characteristic)
        (w : world) :
  due w = [] -> on_disconnect w = [] -> on_data w = [] ->
  String.eqb (peripheral_state w) "connected" = false ->
  find_uuid NOTIFY_CHARACTERISTIC_UUID cs = Some n ->
  forall steps,
    In steps [[Connected (Some e)];
              [Connected None; Discovered (Some e) cs];
              [Connected None; Discovered None cs; Subscribed (Some e)]] ->
    p_connect (run steps (connect w)) = Rejected e
    /\ on_disconnect (run steps (connect w)) = []
    /\ due (run steps (connect w)) = []
    /\ emitted (run steps (connect w)) = (emitted w ++ [sig_connecting])%list.
Proof.
  intros Hd Ho Hda Hs Hn steps Hin.
  destruct (connect_stands _ _ _ _ _ _ _ _ (fresh_stands w Hd Ho Hda) Hs)
    as (S0 & P0 & _).
  simpl in Hin. destruct Hin as [<- | [<- | [<- | []]]];
    rewrite !session_run_cons; change (run [] ?x) with x.
  - destruct (connect_refused_stands e _ _ _ _ _ _ _ S0 P0) as (S1 & _).
    destruct S1 as (D & OD & EM & RQ & ODA & WC & NC & PC). auto.
  - destruct (connected_stands _ _ _ _ _ _ _ S0 P0) as (S1 & P1 & T1).
    destruct (discovery_refused_stands e cs _ _ _ _ _ _ _ S1 P1)
      as (D & OD & EM & RQ & ODA & WC & NC & PC). auto.
  - destruct (connected_stands _ _ _ _ _ _ _ S0 P0) as (S1 & P1 & T1).
    destruct (discovered_stands cs n _ _ _ _ _ _ _ S1 P1 Hn) as (S2 & P2 & T2).
    destruct (subscribed_stands (Some e) _ _ _ _ _ _ _ S2 P2) as (S3 & T3).
    destruct S3 as (D & OD & EM & RQ & ODA & WC & NC & PC). auto.
Qed.

(** X13. When the notify characteristic is not among those discovered,
    [connect()] is rejected with a TypeError thrown by [_setupListeners],
    asks for no subscription, and leaves the 'disconnect' listener of
    [_setupListeners] on the peripheral. *)
Theorem connect_without_notify_characteristic
        (cs : list characteristic) (w : world) :
  due w = [] -> on_disconnect w = [] -> on_data w = [] ->
  String.eqb (peripheral_state w) "connected" = false ->
  find_uuid NOTIFY_CHARACTERISTIC_UUID cs = None ->
  p_connect (run [Connected None; Discovered None cs] (connect w))
  = Rejected "TypeError"
  /\ on_disconnect (run [Connected None; Discovered None cs] (connect w))
     = [setupListeners_disconnectHandler]
  /\ requests (run [Connected None; Discovered None cs] (connect w))
     = (requests w ++ [req_connect; req_discover [SERVICE_UUID] []])%list
  /\ due (run [Connected None; Discovered None cs] (connect w)) = [].
Proof.
  intros Hd Ho Hda Hs Hn.
  destruct (connect_stands _ _ _ _ _ _ _ _ (fresh_stands w Hd Ho Hda) Hs)
    as (S0 & P0 & _).
  destruct (connected_stands _ _ _ _ _ _ _ S0 P0) as (S1 & P1 & T1).
  destruct (discovered_without_notify_stands cs _ _ _ _ _ _ _ S1 P1 Hn)
    as (D & OD & EM & RQ & ODA & WC & NC & PC).
  rewrite !session_run_cons. change (run [] ?x) with x.
  rewrite D, OD, RQ, PC, <- app_assoc. auto.
Qed.

End Connecting.

(** ** The device session: writing *)

Section Writing.
Import JS Noble Session Sessions.

Lemma write_null_sends (data : Buffer) (c : characteristic) (w : world) :
  writeCharacteristic w = Some c -> notifyCharacteristic w <> None ->
  quiet w ->
  sending data (write data None w)
  /\ requests (write data None w) = (requests w ++ [req_write c data false])%list.
Proof.
  intros Hc Hn (Hd & Ho & Hp).
  destruct w; simpl in Hc, Hn, Hd, Ho, Hp; subst.
  unfold write, sending; simpl. auto 10.
Qed.

Lemma sending_step (data : Buffer) (ev : event) (w : world) :
  sending data w -> unconfirmed ev = true -> sending data (deliver ev w).
Proof.
  intros (H1 & H2 & H3 & H4 & H5 & H6) Hev.
  destruct w; simpl in H1, H2, H3, H4, H5, H6; subst.
  destruct ev; try discriminate; unfold sending; simpl; auto 10.
Qed.

Lemma sending_steps (data : Buffer) (evs : list event) (w : world) :
  sending data w -> forallb unconfirmed evs = true ->
  sending data (run evs w).
Proof.
  revert w. induction evs as [|ev evs IH]; intros w Hw Hevs; [exact Hw|].
  simpl in Hevs. apply andb_true_iff in Hevs. destruct Hevs as [Hev Hevs].
  rewrite session_run_cons. apply IH; [|exact Hevs].
  apply sending_step; assumption.
Qed.

Lemma sending_confirmed (data : Buffer) (error : option string) (w : world) :
  sending data w ->
  p_write (deliver (Written error) w)
  = match error with None => Resolved None | Some e => Rejected e end.
Proof.
  intros (H1 & H2 & H3 & H4 & H5 & H6).
  destruct w; simpl in H1, H2, H3, H4, H5, H6; subst.
  destruct error; simpl; [|reflexivity].
  destruct notifyCharacteristic0; [reflexivity | congruence].
Qed.

(** X14. [write(data, null)], the form [identify()] uses, registers no listener
    for notifications. It stays pending through everything that is not the
    callback of the write, is fulfilled with no value when the radio
    confirms the write and rejected with the error of the radio when it
    does not. *)
Theorem write_without_response_settles_on_the_callback
        (data : Buffer) (c : characteristic) (before : list event)
        (error : option string) (w : world) :
  ready w -> quiet w -> writeCharacteristic w = Some c ->
  forallb unconfirmed before = true ->
  on_data (write data None w) = []
  /\ p_write (run before (write data None w)) = Pending
  /\ p_write (run (before ++ [Written error]) (write data None w))
     = match error with None => Resolved None | Some e => Rejected e end.
Proof.
  intros (_ & _ & Hn) Hq Hc Hb.
  destruct (write_null_sends data c w Hc Hn Hq) as [S _].
  pose proof (sending_steps data before _ S Hb) as S'.
  split; [apply S|]. split; [apply S'|].
  unfold run. rewrite fold_left_app. simpl.
  apply (sending_confirmed data error _ S').
Qed.

Lemma waiting_keeps_due (data : Buffer) (x : Z) (n : characteristic)
      (ev : event) (w : world) :
  waiting data x n w -> due w = [cb_write] ->
  passes x n ev = true -> unconfirmed ev = true ->
  due (deliver ev w) = [cb_write].
Proof.
  intros (Hn & Hp & Ho & Hd & Ha & _) Hdue Hev Hu.
  destruct w; simpl in Hn, Hp, Ho, Hd, Ha, Hdue; subst.
  destruct ev as [error|error cs|error|error|c d|]; simpl in *;
    try reflexivity; try discriminate.
  unfold data_listeners; simpl.
  rewrite (characteristic_eqb_sym n c).
  destruct (characteristic_eqb c n); simpl in *; [|reflexivity].
  destruct (index d 0) as [b|]; simpl in *.
  - apply negb_true_iff in Hev. rewrite Hev, Nat.ltb_irrefl. reflexivity.
  - rewrite Nat.ltb_irrefl. reflexivity.
Qed.

Lemma waiting_unconfirmed (data : Buffer) (x : Z) (n : characteristic)
      (evs : list event) (w : world) :
  waiting data x n w -> due w = [cb_write] ->
  forallb (passes x n) evs = true -> forallb unconfirmed evs = true ->
  waiting data x n (run evs w) /\ due (run evs w) = [cb_write].
Proof.
  revert w. induction evs as [|ev evs IH]; intros w Hw Hd Hp Hu; [auto|].
  simpl in Hp, Hu. apply andb_true_iff in Hp. apply andb_true_iff in Hu.
  destruct Hp as [Hp Hps], Hu as [Hu Hus].
  rewrite session_run_cons. apply IH; auto.
  - apply (waiting_step data x n ev w Hw Hp).
  - apply (waiting_keeps_due data x n ev w Hw Hd Hp Hu).
Qed.

Lemma waiting_refused (data : Buffer) (x : Z) (n : characteristic)
      (e : string) (w : world) :
  waiting data x n w -> due w = [cb_write] ->
  p_write (deliver (Written (Some e)) w) = Rejected e
  /\ on_data (deliver (Written (Some e)) w) = [].
Proof.
  intros (Hn & Hp & Ho & Hd & Ha & _) Hdue.
  destruct w; simpl in Hn, Hp, Ho, Hd, Ha, Hdue; subst.
  simpl. rewrite characteristic_eqb_refl, Z.eqb_refl. simpl. auto.
Qed.

Lemma listener_keeps_rejected (e : string) (l : listener)
      (ev : event) (w : world) :
  p_write w = Rejected e -> p_write (run_listener l ev w) = Rejected e.
Proof.
  intros H. destruct w; simpl in *; subst.
  destruct l, ev; simpl; try reflexivity;
    unfold getCharacteristics_settle, setupListeners_settle; cases.
Qed.

Lemma emit_keeps_rejected (e : string) (ls : list listener)
      (ev : event) (w : world) :
  p_write w = Rejected e -> p_write (emit ls ev w) = Rejected e.
Proof.
  revert w. induction ls as [|l ls IH]; intros w H; simpl; [exact H|].
  pose proof (listener_keeps_rejected e l ev w H) as H'.
  destruct (_ <? _)%nat; [exact H' | apply IH, H'].
Qed.

Lemma deliver_keeps_rejected (e : string) (ev : event) (w : world) :
  p_write w = Rejected e -> p_write (deliver ev w) = Rejected e.
Proof.
  intros H. destruct ev as [error|error cs|error|error|c d|]; simpl.
  - destruct (owed cb_connect w); [|exact H].
    destruct w; simpl in *; subst.
    unfold link_settle, _getCharacteristics; cases.
  - destruct (owed cb_discover w); [|exact H].
    destruct w; simpl in *; subst.
    unfold discover_callback, getCharacteristics_settle, _setupListeners,
      setupListeners_settle; cases.
  - destruct (owed cb_subscribe w); [|exact H].
    destruct w; simpl in *; subst.
    unfold subscribe_callback, setupListeners_settle; cases.
  - destruct (owed cb_write w); [|exact H].
    destruct w; simpl in *; subst.
    unfold write_callback; cases.
  - apply emit_keeps_rejected, H.
  - apply emit_keeps_rejected. destruct w; simpl in *; exact H.
Qed.

Lemma run_keeps_rejected (e : string) (evs : list event) (w : world) :
  p_write w = Rejected e -> p_write (run evs w) = Rejected e.
Proof.
  revert w. induction evs as [|ev evs IH]; intros w H; simpl; [exact H|].
  apply IH, deliver_keeps_rejected, H.
Qed.

(** X15. When the radio reports that the write failed, [write(data, x)] is
    rejected with that error and its listener is taken off the notify
    characteristic: a response that arrives afterwards changes nothing. *)
Theorem write_failure_rejects_and_stops_listening
        (data : Buffer) (x : Z) (n c : characteristic) (e : string)
        (before after : list event) (w : world) :
  ready w -> quiet w ->
  notifyCharacteristic w = Some n -> writeCharacteristic w = Some c ->
  forallb (passes x n) before = true ->
  forallb unconfirmed before = true ->
  on_data (run (before ++ [Written (Some e)]) (write data (Some x) w)) = []
  /\ p_write (run (before ++ Written (Some e) :: after)
                (write data (Some x) w)) = Rejected e.
Proof.
  intros _ Hq Hn Hc Hb Hu.
  destruct (write_waits data x n c w Hn Hc Hq) as (Hw & _ & _).
  assert (Hd : due (write data (Some x) w) = [cb_write]).
  { destruct Hq as (Hd & Ho & Hp).
    destruct w; simpl in Hn, Hc, Hd, Ho, Hp; subst. reflexivity. }
  destruct (waiting_unconfirmed data x n before _ Hw Hd Hb Hu) as [Hw' Hd'].
  destruct (waiting_refused data x n e _ Hw' Hd') as [R1 R2].
  unfold run. rewrite !fold_left_app. simpl. split; [exact R2|].
  apply run_keeps_rejected, R1.
Qed.

Lemma write_without_handle (data : Buffer) (w : world) :
  writeCharacteristic w = None ->
  forall responseCommand,
    p_write (write data responseCommand w) = Rejected "TypeError"
    /\ requests (write data responseCommand w) = requests w
    /\ on_data (write data responseCommand w)
       = match responseCommand, notifyCharacteristic w with
         | Some x, Some n => (on_data w ++ [(n, write_dataHandler x)])%list
         | _, _ => on_data w
         end.
Proof.
  intros Hc rc. destruct w; simpl in Hc; subst.
  unfold write; simpl. destruct rc; simpl;
    [destruct notifyCharacteristic0|]; simpl; auto.
Qed.

(** X16. [connect()] does not look at the write characteristic: when only the
    notify characteristic is discovered it is fulfilled all the same, and
    every [write] that follows is rejected with a TypeError without a
    request to the radio; a [write] that expects a response leaves its
    listener on the notify characteristic. *)
Theorem connect_without_write_characteristic
        (cs : list characteristic) (n : characteristic)
        (data : Buffer) (x : Z) (w : world) :
  due w = [] -> on_disconnect w = [] -> on_data w = [] ->
  String.eqb (peripheral_state w) "connected" = false ->
  find_uuid WRITE_CHARACTERISTIC_UUID cs = None ->
  find_uuid NOTIFY_CHARACTERISTIC_UUID cs = Some n ->
  p_connect (reconnected w cs) = Resolved tt
  /\ p_write (write data None (reconnected w cs)) = Rejected "TypeError"
  /\ p_write (write data (Some x) (reconnected w cs)) = Rejected "TypeError"
  /\ requests (write data (Some x) (reconnected w cs))
     = requests (reconnected w cs)
  /\ on_data (write data (Some x) (reconnected w cs))
     = [(n, write_dataHandler x)].
Proof.
  intros Hd Ho Hda Hs Hc Hn.
  assert (S : stands [] [] (emitted w ++ [sig_connecting; sig_connected])
                (requests w
                 ++ [req_connect; req_discover [SERVICE_UUID] [];
                     req_subscribe n])
                [] None (Some n) (Resolved tt) (reconnected w cs)).
  { unfold reconnected, completion_of. rewrite Hs.
    change ([Connected None] ++ [Discovered None cs; Subscribed None])%list
      with [Connected None; Discovered None cs; Subscribed None].
    rewrite !session_run_cons. change (run [] ?y) with y.
    destruct (connect_stands _ _ _ _ _ _ _ _ (fresh_stands w Hd Ho Hda) Hs)
      as (S0 & P0 & _).
    destruct (connected_stands _ _ _ _ _ _ _ S0 P0) as (S1 & P1 & T1).
    destruct (discovered_stands cs n _ _ _ _ _ _ _ S1 P1 Hn) as (S2 & P2 & T2).
    destruct (subscribed_stands None _ _ _ _ _ _ _ S2 P2) as (S3 & T3).
    rewrite Hc in S3. rewrite <- !app_assoc in S3. exact S3. }
  destruct S as (D & OD & EM & RQ & ODA & WC & NC & PC).
  destruct (write_without_handle data _ WC None) as (N1 & _ & _).
  destruct (write_without_handle data _ WC (Some x)) as (X1 & X2 & X3).
  rewrite NC, ODA in X3. auto.
Qed.

End Writing.

(** ** The legacy class: loading, caching and reading the payload *)

Section LegacyReadout.
Import JS Noble Sensor Readout.







(** X18. The three readouts of the payload fail in different ways on a payload
    that is too short: each temperature throws exactly when its two bytes
    are not both there, the humidity is not a number when its byte is not
    there and never throws. A payload of 14 bytes or more gives both
    temperatures. *)
Theorem readouts_of_a_short_payload (data : Buffer) :
  (indoorTemperature data = None <-> (List.length data < 5)%nat)
  /\ (outdoorTemperature data = None <-> (List.length data < 14)%nat)
  /\ ((List.length data < 10)%nat -> relativeHumidity data = None)
  /\ ((14 <= List.length data)%nat ->
      indoorTemperature data <> None /\ outdoorTemperature data <> None).
Proof.
  assert (T : forall position,
             readTemperature data position = None
             <-> (List.length data < position + 2)%nat).
  { intros position. unfold readTemperature, readUInt16LE, readUIntLE.
    destruct (Nat.leb_spec (position + 2) (List.length data)); simpl;
      split; intros H'; try discriminate; try lia; reflexivity. }
  split; [apply (T 3%nat)|]. split; [apply (T 12%nat)|]. split.
  - intros Hl. unfold relativeHumidity, SensorCodec.readRelativeHumidity,
      toString_hex.
    rewrite skipn_all2 by lia. reflexivity.
  - intros Hl. split; intros H.
    + apply (T 3%nat) in H. lia.
    + apply (T 12%nat) in H. lia.
Qed.

End LegacyReadout.

(** ** The legacy class: finding the sensor, and failing *)

Section LegacyScan.
Import JS Noble Sensor Readout.

Lemma scan_is_looking (t : Z) (addr : option string) :
  looking addr (deliver (ScanStarted None) (scan (new "poweredOn" t addr)))
  /\ requests (deliver (ScanStarted None) (scan (new "poweredOn" t addr)))
     = [req_startScanning [SERVICE_UUID] true].
Proof. unfold looking. simpl. auto 12. Qed.

Lemma looking_step (addr : option string) (ev : event) (w : world) :
  looking addr w -> passed_over addr ev = true ->
  looking addr (deliver ev w) /\ requests (deliver ev w) = requests w.
Proof.
  intros (H1 & H2 & H3 & H4 & H5 & H6 & H7 & H8) Hev.
  destruct w; simpl in H1, H2, H3, H4, H5, H6, H7, H8; subst.
  destruct ev as [state|ms|error|q state|error|error cs|error|error|c d b|];
    simpl in Hev; try discriminate.
  - unfold looking; simpl; auto 12.
  - apply negb_true_iff in Hev. unfold wanted in Hev.
    simpl. rewrite Hev. simpl. rewrite Nat.ltb_irrefl.
    unfold looking; simpl; auto 12.
Qed.

Lemma looking_steps (addr : option string) (evs : list event) (w : world) :
  looking addr w -> forallb (passed_over addr) evs = true ->
  looking addr (run evs w) /\ requests (run evs w) = requests w.
Proof.
  revert w. induction evs as [|ev evs IH]; intros w Hw Hevs; [auto|].
  simpl in Hevs. apply andb_true_iff in Hevs. destruct Hevs as [Hev Hevs].
  rewrite sensor_run_cons.
  destruct (looking_step addr ev w Hw Hev) as [L R].
  destruct (IH _ L Hevs) as [L' R']. rewrite R', R. auto.
Qed.

Lemma looking_found (addr : option string) (p : Noble.peripheral)
      (state : string) (w : world) :
  looking addr w -> wanted addr p = true ->
  p_scan (deliver (Discover p state) w) = Resolved p
  /\ peripheral (deliver (Discover p state) w) = Some p
  /\ on_discover (deliver (Discover p state) w) = []
  /\ on_stateChange (deliver (Discover p state) w) = []
  /\ on_disconnect (deliver (Discover p state) w) = [handleDisconnect_bound]
  /\ requests (deliver (Discover p state) w)
     = (requests w ++ [req_stopScanning])%list.
Proof.
  intros (H1 & H2 & H3 & H4 & H5 & H6 & H7 & H8) Hp.
  destruct w; simpl in H1, H2, H3, H4, H5, H6, H7, H8; subst.
  unfold wanted in Hp. simpl. rewrite Hp. simpl.
  rewrite ?Nat.ltb_irrefl. simpl. auto 12.
Qed.

(** X19. [scan()] passes over every peripheral whose address is not the one the
    sensor was created with, and is fulfilled with the first one that has
    it (with the first one at all when the sensor has no address): it then
    holds that peripheral, listens for its 'disconnect', takes its
    listeners off the radio and stops the scan. The addresses are compared
    as they are written. *)
Theorem scan_finds_the_wanted_peripheral
        (t : Z) (addr : option string) (others : list event)
        (p : Noble.peripheral) (state : string) :
  forallb (passed_over addr) others = true ->
  wanted addr p = true ->
  p_scan (run (ScanStarted None :: others) (scan (new "poweredOn" t addr)))
  = Pending
  /\ p_scan (run (ScanStarted None :: others ++ [Discover p state])
               (scan (new "poweredOn" t addr))) = Resolved p
  /\ peripheral (run (ScanStarted None :: others ++ [Discover p state])
                   (scan (new "poweredOn" t addr))) = Some p
  /\ on_discover (run (ScanStarted None :: others ++ [Discover p state])
                    (scan (new "poweredOn" t addr))) = []
  /\ on_disconnect (run (ScanStarted None :: others ++ [Discover p state])
                      (scan (new "poweredOn" t addr)))
     = [handleDisconnect_bound]
  /\ requests (run (ScanStarted None :: others ++ [Discover p state])
                 (scan (new "poweredOn" t addr)))
     = [req_startScanning [SERVICE_UUID] true; req_stopScanning].
Proof.
  intros Ho Hp.
  destruct (scan_is_looking t addr) as [L R].
  destruct (looking_steps addr others _ L Ho) as [L' R'].
  destruct (looking_found addr p state _ L' Hp)
    as (F1 & F2 & F3 & F4 & F5 & F6).
  rewrite !sensor_run_cons.
  assert (E : run (others ++ [Discover p state])
                (deliver (ScanStarted None) (scan (new "poweredOn" t addr)))
              = deliver (Discover p state)
                  (run others
                     (deliver (ScanStarted None)
                        (scan (new "poweredOn" t addr)))))
    by (unfold run; rewrite fold_left_app; reflexivity).
  rewrite E, F1, F2, F3, F5, F6, R', R.
  split; [apply L'|]. auto 10.
Qed.

(** X20. Whichever step the radio refuses, [loadTemperatureData()] is rejected
    with a text that names the step and ends with the error of the radio:
    the failures of [scan()] and [connect()] reach the caller of
    [loadTemperatureData()] unchanged. *)
Theorem refusals_reach_the_caller
        (e : string) (t : Z) (p : Noble.peripheral)
        (evs : list event) (reason : string) :
  In (evs, reason) (refusals e p) ->
  p_load (run evs (loadTemperatureData (new "poweredOn" t None)))
  = Rejected reason.
Proof.
  intros Hin. unfold refusals in Hin. simpl in Hin.
  destruct Hin as [H | [H | [H | [H | [H | []]]]]];
    injection H as <- <-; vm_compute; reflexivity.
Qed.

End LegacyScan.

(** ** The addresses the callers pass *)

Section CallerAddresses.
Import JS Noble Addresses.

Lemma lower_facts (c : ascii) :
  lower (lower c) = lower c
  /\ Ascii.eqb (lower c) ":" = Ascii.eqb c ":"
  /\ is_upper (lower c) = false.
Proof.
  destruct c as [[|] [|] [|] [|] [|] [|] [|] [|]]; vm_compute; auto.
Qed.

Lemma strip_lower_commute (s : string) :
  strip_colons (toLowerCase s) = toLowerCase (strip_colons s).
Proof.
  induction s as [|c rest IH]; simpl; [reflexivity|].
  destruct (lower_facts c) as (_ & E & _). rewrite E.
  destruct (Ascii.eqb c ":"); simpl; rewrite IH; reflexivity.
Qed.

Lemma toLowerCase_idempotent (s : string) :
  toLowerCase (toLowerCase s) = toLowerCase s.
Proof.
  induction s as [|c rest IH]; simpl; [reflexivity|].
  destruct (lower_facts c) as (E & _). rewrite E, IH. reflexivity.
Qed.

Lemma strip_colons_idempotent (s : string) :
  strip_colons (strip_colons s) = strip_colons s.
Proof.
  induction s as [|c rest IH]; simpl; [reflexivity|].
  destruct (Ascii.eqb c ":") eqn:E; simpl; [exact IH|].
  rewrite E, IH. reflexivity.
Qed.

Lemma strip_colons_clean (s : string) :
  all_chars (fun c => negb (Ascii.eqb c ":")) (strip_colons s) = true.
Proof.
  induction s as [|c rest IH]; simpl; [reflexivity|].
  destruct (Ascii.eqb c ":") eqn:E; simpl; [exact IH|].
  rewrite E, IH. reflexivity.
Qed.

Lemma strip_colons_keeps (f : ascii -> bool) (s : string) :
  all_chars f s = true -> all_chars f (strip_colons s) = true.
Proof.
  induction s as [|c rest IH]; simpl; [reflexivity|].
  intros H. apply andb_true_iff in H. destruct H as [H1 H2].
  destruct (Ascii.eqb c ":"); simpl; [auto|]. rewrite H1. auto.
Qed.

Lemma toLowerCase_lowers (s : string) :
  all_chars (fun c => negb (is_upper c)) (toLowerCase s) = true.
Proof.
  induction s as [|c rest IH]; simpl; [reflexivity|].
  destruct (lower_facts c) as (_ & _ & E). rewrite E, IH. reflexivity.
Qed.

(** X21. The way both callers rewrite an address gives a text without colons
    and without capital letters, and rewriting it again changes nothing. *)
Theorem normalize_is_idempotent (a : string) :
  all_chars is_ascii a = true ->
  normalize (normalize a) = normalize a
  /\ all_chars (fun c => negb (Ascii.eqb c ":")) (normalize a) = true
  /\ all_chars (fun c => negb (is_upper c)) (normalize a) = true.
Proof.
  intros _. unfold normalize. split; [|split].
  - rewrite (strip_lower_commute (strip_colons (toLowerCase a))).
    rewrite strip_colons_idempotent, <- strip_lower_commute.
    rewrite toLowerCase_idempotent. reflexivity.
  - apply strip_colons_clean.
  - apply strip_colons_keeps, toLowerCase_lowers.
Qed.

Section WithScan.

Variable parseReadings : Buffer -> list Reading.t.
Variable readingHandler : bool.

(** X22. An address the caller was given in any spelling lets through the
    peripheral it names: after the caller's rewriting it equals the
    colon-stripped address of a peripheral that reports the same address
    in lower case, so the list does not discard that peripheral and the
    handler does with it what it does without a list. *)
Theorem normalized_list_finds_its_peripheral
        (given : list string) (a b : string) (p : peripheral) :
  In a given ->
  address p = Some b -> b <> "" ->
  toLowerCase b = b ->
  normalize a = normalize b ->
  Scan.not_listed (map normalize given) (Scan.stripped (address p)) = false
  /\ Scan.discoverHandler parseReadings readingHandler
       (normAddresses (Some given)) p
     = Scan.discoverHandler parseReadings readingHandler None p.
Proof.
  intros Hin Hp Hb Hl Hab.
  assert (N : Scan.not_listed (map normalize given)
                (Scan.stripped (address p)) = false).
  { unfold Scan.not_listed, Scan.stripped. rewrite Hp.
    destruct (String.eqb_spec b "") as [|_]; [contradiction|].
    apply negb_false_iff. apply existsb_exists.
    exists (normalize a). split; [apply in_map, Hin|].
    apply String.eqb_eq. rewrite Hab. unfold normalize. rewrite Hl.
    reflexivity. }
  split; [exact N|].
  assert (D : forall data,
             Scan.deliver_readings parseReadings readingHandler
               (normAddresses (Some given)) p data (Scan.stripped (address p))
             = Scan.deliver_readings parseReadings readingHandler
                 None p data (Scan.stripped (address p))).
  { intros data.
    change (normAddresses (Some given)) with (Some (map normalize given)).
    unfold Scan.deliver_readings. rewrite N. reflexivity. }
  unfold Scan.discoverHandler.
  destruct (manufacturerData p) as [data|]; [|reflexivity].
  destruct (List.length data <? 9)%nat; [reflexivity|].
  destruct (readUInt16LE data 0) as [company|]; [|reflexivity]. simpl.
  destruct (negb (company =? Scan.COMPANY_ID)); [reflexivity|].
  destruct (Scan.truthy (Scan.stripped (address p))) as [x|]; [|apply D].
  destruct (readUIntLE data 2 6) as [derived|]; [|reflexivity]. simpl.
  destruct (negb (toString16 derived =? x)%string); [reflexivity | apply D].
Qed.

End WithScan.

End CallerAddresses.

(** ** The bridge platform *)

Section BridgePlatform.
Import JS Platform.

Lemma update_keeps_keys (type address : string) (f : accessory -> accessory)
      (accessories : list accessory) :
  (forall a, key (f a) = key a) ->
  map key (update type address f accessories) = map key accessories.
Proof.
  intros Hf. induction accessories as [|a rest IH]; simpl; [reflexivity|].
  destruct (matches type address a); simpl; [rewrite Hf | rewrite IH];
    reflexivity.
Qed.

Lemma matches_key (type address : string) (a : accessory) :
  matches type address a = true <-> key a = (type, address).
Proof.
  unfold matches, key. rewrite andb_true_iff, !String.eqb_eq.
  split; [intros [-> ->]; reflexivity | intros H; injection H; auto].
Qed.

Lemma getAccessory_none (type address : string) (accessories : list accessory) :
  getAccessory type address accessories = None ->
  ~ In (type, address) (map key accessories).
Proof.
  intros H Hin. apply in_map_iff in Hin. destruct Hin as (a & Hk & Ha).
  apply (find_none _ _ H) in Ha.
  apply matches_key in Hk. congruence.
Qed.

Lemma readingHandler_keys (now : Z) (r : reading) (address : option string)
      (accessories : list accessory) :
  map key (left_by (readingHandler now r address accessories))
  = map key accessories
  \/ exists s ad,
       truthy (sensor r) = Some s /\ truthy address = Some ad
       /\ getAccessory s ad accessories = None
       /\ map key (left_by (readingHandler now r address accessories))
          = (map key accessories ++ [(s, ad)])%list.
Proof.
  unfold readingHandler.
  destruct (truthy address) as [ad|]; [|left; reflexivity].
  destruct (truthy (sensor r)) as [s|].
  - destruct (negb (type r =? "temperature")%string
              && negb (type r =? "humidity")%string); [left; reflexivity|].
    assert (K : forall l f, (forall a, key (f a) = key a) ->
                map key (update s ad f (update s ad (set_lastUpdated now) l))
                = map key l).
    { intros l f Hf. rewrite !update_keeps_keys; auto. }
    assert (K' : forall l,
                map key (update s ad (set_lastUpdated now) l) = map key l).
    { intros l. apply update_keeps_keys. reflexivity. }
    destruct (getAccessory s ad accessories) as [a|] eqn:G.
    + left. destruct (type r =? "temperature")%string; simpl.
      * apply K. reflexivity.
      * destruct (getAccessory s ad
                    (update s ad (set_lastUpdated now) accessories)) as [b|];
          simpl; [|apply K'].
        destruct (humidity_service b); simpl; [apply K; reflexivity|apply K'].
    + right. exists s, ad. repeat split; auto.
      destruct (type r =? "temperature")%string; simpl.
      * rewrite K by reflexivity. rewrite map_app. reflexivity.
      * destruct (getAccessory s ad
                    (update s ad (set_lastUpdated now)
                       (accessories ++ [addAccessory now s ad]))) as [b|];
          simpl.
        -- destruct (humidity_service b); simpl;
             [rewrite K by reflexivity | rewrite K'];
             rewrite map_app; reflexivity.
        -- rewrite K', map_app. reflexivity.
  - destruct (type r =? "battery-level")%string; simpl; [|left; reflexivity].
    left. rewrite map_map. apply map_ext. intros a.
    destruct (ctx_address a =? ad)%string; reflexivity.
Qed.

Lemma clean_keeps_distinct (configured : option Z) (now : Z)
      (accessories : list accessory) :
  NoDup (map key accessories) ->
  NoDup (map key (clean configured now accessories)).
Proof.
  unfold clean. induction accessories as [|a rest IH]; simpl; intros H.
  - constructor.
  - inversion H as [|k ks Hn Hr]; subst.
    destruct (negb (stale configured now a)); simpl; [|auto].
    constructor; [|auto].
    intros Hin. apply Hn. apply in_map_iff in Hin.
    destruct Hin as (b & Hk & Hb). apply filter_In in Hb.
    apply in_map_iff. exists b. tauto.
Qed.

(** X23. The platform never holds two accessories for the same sensor type and
    address: whatever readings arrive and whenever the cleaning runs, the
    accessories stay distinct by type and address if they were. *)
Theorem platform_keeps_one_accessory_per_sensor
        (configured : option Z) (hs : list happening)
        (accessories : list accessory) :
  NoDup (map key accessories) ->
  NoDup (map key (happenings configured hs accessories)).
Proof.
  revert accessories. induction hs as [|h hs IH]; intros accessories H;
    simpl; [exact H|].
  apply IH. destruct h as [now r address | now]; simpl.
  - destruct (readingHandler_keys now r address accessories)
      as [E | (s & ad & _ & _ & G & E)]; rewrite E; [exact H|].
    apply NoDup_app; [exact H | repeat constructor; intros [] |].
    intros k Hk [<- | []]. apply (getAccessory_none _ _ _ G Hk).
  - apply clean_keeps_distinct, H.
Qed.

Lemma find_update (type address : string) (f : accessory -> accessory)
      (accessories : list accessory) :
  (forall a, matches type address (f a) = matches type address a) ->
  getAccessory type address (update type address f accessories)
  = option_map f (getAccessory type address accessories).
Proof.
  intros Hf. unfold getAccessory.
  induction accessories as [|a rest IH]; simpl; [reflexivity|].
  destruct (matches type address a) eqn:E; simpl.
  - rewrite Hf, E. reflexivity.
  - rewrite E. exact IH.
Qed.

Lemma find_new (now : Z) (type address : string)
      (accessories : list accessory) :
  getAccessory type address accessories = None ->
  getAccessory type address (accessories ++ [addAccessory now type address])
  = Some (addAccessory now type address).
Proof.
  unfold getAccessory.
  induction accessories as [|a rest IH]; simpl; intros H.
  - unfold matches. simpl. rewrite !String.eqb_refl. reflexivity.
  - destruct (matches type address a); [discriminate | auto].
Qed.

Lemma update_keeps_others (type address : string)
      (f : accessory -> accessory) (b : accessory)
      (accessories : list accessory) :
  In b accessories -> matches type address b = false ->
  In b (update type address f accessories).
Proof.
  intros Hin Hb. induction accessories as [|a rest IH]; simpl; [exact Hin|].
  destruct Hin as [-> | Hin].
  - rewrite Hb. left. reflexivity.
  - destruct (matches type address a); right; auto.
Qed.

(** The accessories a temperature reading leaves. *)
Lemma temperature_done
      (now : Z) (r : reading) (address : option string) (ad s : string)
      (accessories : list accessory) :
  truthy address = Some ad -> truthy (sensor r) = Some s ->
  type r = "temperature" ->
  readingHandler now r address accessories
  = Done (update s ad (set_temperature (value r))
            (update s ad (set_lastUpdated now)
               match getAccessory s ad accessories with
               | Some _ => accessories
               | None => (accessories ++ [addAccessory now s ad])%list
               end)).
Proof.
  intros Ha Hs Ht. unfold readingHandler. rewrite Ha, Hs, Ht. reflexivity.
Qed.

Lemma temperature_found
      (now : Z) (v : Q) (ad s : string) (accessories : list accessory) :
  exists a,
    getAccessory s ad
      (update s ad (set_temperature v)
         (update s ad (set_lastUpdated now)
            match getAccessory s ad accessories with
            | Some _ => accessories
            | None => (accessories ++ [addAccessory now s ad])%list
            end)) = Some a
    /\ lastUpdated a = now /\ currentTemperature a = Some v.
Proof.
  destruct (getAccessory s ad accessories) as [a|] eqn:G.
  - rewrite !find_update, G by reflexivity. simpl. eexists. auto.
  - rewrite !find_update, (find_new now s ad accessories G) by reflexivity.
    simpl. eexists. auto.
Qed.

Lemma update_length (type address : string) (f : accessory -> accessory)
      (accessories : list accessory) :
  List.length (update type address f accessories) = List.length accessories.
Proof.
  induction accessories as [|x l IH]; simpl; [reflexivity|].
  destruct (matches type address x); simpl; auto.
Qed.

(** X24. A humidity reading of a sensor that is not the indoor sensor and has
    no accessory yet throws a TypeError: the accessory is created without
    humidity service, and it stays among the accessories. *)
Theorem humidity_reading_of_another_sensor_throws
        (now : Z) (r : reading) (address : option string) (ad s : string)
        (accessories : list accessory) :
  truthy address = Some ad -> truthy (sensor r) = Some s ->
  type r = "humidity" -> s <> "indoor" ->
  getAccessory s ad accessories = None ->
  readingHandler now r address accessories
  = Threw "TypeError" (accessories ++ [addAccessory now s ad]).
Proof.
  intros Ha Hs Ht Hi G. unfold readingHandler. rewrite Ha, Hs, Ht, G. simpl.
  assert (U : update s ad (set_lastUpdated now)
                (accessories ++ [addAccessory now s ad])
              = (accessories ++ [addAccessory now s ad])%list).
  { clear Ha Hs Ht. unfold getAccessory in G.
    induction accessories as [|a rest IH]; simpl in *.
    - unfold matches. simpl. rewrite !String.eqb_refl. reflexivity.
    - destruct (matches s ad a); [discriminate|]. rewrite IH; auto. }
  rewrite U, (find_new now s ad accessories G). simpl.
  destruct (String.eqb_spec s "indoor"); [contradiction | reflexivity].
Qed.

(** X25. A temperature reading of a sensor makes sure there is an accessory for
    the sensor type and the address, creating it when there is none, sets
    its time to now and its temperature to the value read, and leaves the
    accessories of other sensors as they are. *)
Theorem temperature_reading_refreshes_its_accessory
        (now : Z) (r : reading) (address : option string) (ad s : string)
        (accessories : list accessory) :
  truthy address = Some ad -> truthy (sensor r) = Some s ->
  type r = "temperature" ->
  exists accessories' a,
    readingHandler now r address accessories = Done accessories'
    /\ getAccessory s ad accessories' = Some a
    /\ lastUpdated a = now
    /\ currentTemperature a = Some (value r)
    /\ (getAccessory s ad accessories <> None ->
        List.length accessories' = List.length accessories)
    /\ (forall b, In b accessories -> matches s ad b = false ->
                  In b accessories').
Proof.
  intros Ha Hs Ht.
  destruct (temperature_found now (value r) ad s accessories)
    as (a & G & U & T).
  eexists. exists a.
  split; [apply (temperature_done now r address ad s); assumption|].
  split; [exact G|]. split; [exact U|]. split; [exact T|]. split.
  - intros Hsome. rewrite !update_length.
    destruct (getAccessory s ad accessories); [reflexivity | congruence].
  - intros b Hb Hm. apply update_keeps_others; [|exact Hm].
    apply update_keeps_others; [|exact Hm].
    destruct (getAccessory s ad accessories); [exact Hb|].
    apply in_or_app. left. exact Hb.
Qed.

Lemma find_filter (p q : accessory -> bool) (a : accessory)
      (l : list accessory) :
  List.find p l = Some a -> q a = true -> List.find p (filter q l) = Some a.
Proof.
  induction l as [|x l IH]; simpl; [discriminate|].
  destruct (p x) eqn:P.
  - intros [= ->] Q. rewrite Q. simpl. rewrite P. reflexivity.
  - intros H Q. destruct (q x); simpl; [rewrite P|]; auto.
Qed.

(** X26. The accessory a temperature reading refreshed outlives every cleaning
    that runs no later than the stale time after the reading. *)
Theorem refreshed_accessory_survives_cleaning
        (configured : option Z) (now later : Z) (r : reading)
        (address : option string) (ad s : string)
        (accessories : list accessory) :
  truthy address = Some ad -> truthy (sensor r) = Some s ->
  type r = "temperature" ->
  later - now <= maxStaleTime configured ->
  exists a,
    getAccessory s ad
      (happenings configured [Reading now r address; Cleaning later]
         accessories) = Some a
    /\ currentTemperature a = Some (value r).
Proof.
  intros Ha Hs Ht Hl.
  destruct (temperature_found now (value r) ad s accessories)
    as (a & G & U & T).
  exists a. split; [|exact T].
  simpl. rewrite (temperature_done now r address ad s accessories Ha Hs Ht).
  simpl. unfold clean, getAccessory.
  apply find_filter; [exact G|].
  unfold stale. rewrite U. apply negb_true_iff, Z.ltb_ge. exact Hl.
Qed.

Lemma sensorless_keeps_tags (configured : option Z) (h : happening)
      (accessories : list accessory) :
  sensorless h = true ->
  map tag (happen configured h accessories) = map tag accessories.
Proof.
  destruct h as [now r address | now]; simpl; [|discriminate].
  unfold readingHandler.
  destruct (truthy (sensor r)); [discriminate|]. intros _.
  destruct (truthy address) as [ad|]; [|reflexivity].
  destruct (type r =? "battery-level")%string; simpl; [|reflexivity].
  rewrite map_map. apply map_ext. intros a.
  destruct (ctx_address a =? ad)%string; reflexivity.
Qed.

Lemma clean_by_tags (configured : option Z) (now : Z)
      (l1 l2 : list accessory) :
  map tag l1 = map tag l2 ->
  map tag (clean configured now l1) = map tag (clean configured now l2).
Proof.
  revert l2. induction l1 as [|a l1 IH]; intros [|b l2] H;
    try discriminate; [reflexivity|].
  assert (Hab : tag a = tag b) by (simpl in H; congruence).
  assert (Hr : map tag l1 = map tag l2) by (simpl in H; congruence).
  assert (Hu : lastUpdated a = lastUpdated b)
    by (unfold tag in Hab; congruence).
  specialize (IH l2 Hr). unfold clean in *. cbn [filter].
  assert (Hs : stale configured now a = stale configured now b)
    by (unfold stale; rewrite Hu; reflexivity).
  rewrite Hs.
  destruct (stale configured now b);
    cbn [negb map]; [exact IH | rewrite Hab, IH; reflexivity].
Qed.

(** X27. Readings that name no sensor, as those of the battery level, create no
    accessory and refresh none: after any number of them every accessory
    has the type, the address and the time it had, and the cleaning removes
    the accessories it would have removed without them. *)
Theorem sensorless_readings_refresh_nothing
        (configured : option Z) (hs : list happening) (now : Z)
        (accessories : list accessory) :
  forallb sensorless hs = true ->
  map tag (happenings configured hs accessories) = map tag accessories
  /\ map tag (clean configured now (happenings configured hs accessories))
     = map tag (clean configured now accessories).
Proof.
  intros Hs.
  assert (T : map tag (happenings configured hs accessories)
              = map tag accessories).
  { revert accessories. induction hs as [|h hs IH]; intros accessories;
      [reflexivity|].
    simpl in Hs. apply andb_true_iff in Hs. destruct Hs as [Hh Hhs].
    simpl. rewrite (IH Hhs). apply sensorless_keeps_tags, Hh. }
  split; [exact T | apply clean_by_tags, T].
Qed.

End BridgePlatform.

(** ** The scan for sensors *)

Section SensorScan.
Import JS Noble DeviceScan.

Variable discoverHandler : bool.
Variable addresses : option (list string).

Local Abbreviation deliver := (DeviceScan.deliver discoverHandler addresses).
Local Abbreviation run := (DeviceScan.run discoverHandler addresses).
Local Abbreviation collects := (DeviceScan.collects addresses).
Local Abbreviation collected := (DeviceScan.collected addresses).
Local Abbreviation handed := (DeviceScan.handed discoverHandler).

Lemma device_run_cons (ev : Scan.event) (evs : list Scan.event) (w : world) :
  run (ev :: evs) w = run evs (deliver ev w).
Proof. reflexivity. Qed.

Lemma device_run_app (evs evs' : list Scan.event) (w : world) :
  run (evs ++ evs') w = run evs' (run evs w).
Proof. apply fold_left_app. Qed.

Lemma handed_app (ss ss' : list sensor) :
  handed (ss ++ ss') = (handed ss ++ handed ss')%list.
Proof. unfold DeviceScan.handed. destruct discoverHandler; reflexivity. Qed.

Lemma scan_when_on (t : Z) :
  deliver (Scan.ScanStarted None)
    (scan (idle "poweredOn" t))
  = {| noble_state := "poweredOn"; now := t; timeout := None;
       on_stateChange := [scan_stateChangeHandler];
       on_discover := [scan_discoverHandler];
       on_scanStop := [scan_scanStopHandler];
       requests := [Scan.startScanning [SERVICE_UUID] false];
       starting := false; p_powerOn := Resolved tt; p_scan := Pending;
       sensors := []; calls := [] |}.
Proof. reflexivity. Qed.

Lemma scanning_discover (settled : promise unit) (ss cs : list sensor)
      (p : peripheral) (w : world) :
  scanning settled ss cs w ->
  scanning settled (ss ++ collected [p]) (cs ++ handed (collected [p]))
    (deliver (Scan.Discover p) w).
Proof.
  intros (H1 & H2 & H3 & H4 & H5 & H6 & H7 & H8 & H9).
  destruct w; simpl in *; subst.
  unfold scanning, DeviceScan.collected, DeviceScan.handed. simpl.
  destruct (DeviceScan.collects addresses p); destruct discoverHandler;
    simpl; rewrite ?app_nil_r; auto 12.
Qed.

Lemma scanning_discoveries (settled : promise unit) (ps : list peripheral) :
  forall (ss cs : list sensor) (w : world),
  scanning settled ss cs w ->
  scanning settled (ss ++ collected ps) (cs ++ handed (collected ps))
    (run (map Scan.Discover ps) w).
Proof.
  induction ps as [|p ps IH]; intros ss cs w H.
  - unfold DeviceScan.collected, DeviceScan.handed. simpl.
    destruct discoverHandler; rewrite !app_nil_r; exact H.
  - change (map Scan.Discover (p :: ps))
      with (Scan.Discover p :: map Scan.Discover ps).
    rewrite device_run_cons.
    apply (scanning_discover settled ss cs p) in H.
    apply IH in H.
    replace (collected (p :: ps)) with (collected [p] ++ collected ps)%list
      by (unfold DeviceScan.collected; rewrite <- map_app, <- filter_app;
          reflexivity).
    rewrite handed_app, !app_assoc. exact H.
Qed.

Lemma scanning_stop (ss cs : list sensor) (w : world) :
  scanning Pending ss cs w ->
  scanning (Resolved tt) ss cs (deliver Scan.ScanStop w).
Proof.
  intros (H1 & H2 & H3 & H4 & H5 & H6 & H7 & H8 & H9).
  destruct w; simpl in *; subst. unfold scanning. simpl. auto 12.
Qed.

Lemma scanning_state_change (state : string) (ss cs : list sensor)
      (w : world) :
  state <> "poweredOn" ->
  scanning Pending ss cs w ->
  given_up ("State changed to " ++ state) ss cs
    (deliver (Scan.StateChange state) w).
Proof.
  intros Hs (H1 & H2 & H3 & H4 & H5 & H6 & H7 & H8 & H9).
  assert (E : String.eqb state "poweredOn" = false)
    by (apply String.eqb_neq, Hs).
  destruct w; simpl in H1, H2, H3, H4, H5, H6, H7, H8, H9; subst.
  unfold given_up. cbn -[String.eqb append]. rewrite E.
  cbn -[String.eqb append]. auto 12.
Qed.

Lemma given_up_discover (reason : string) (ss cs : list sensor)
      (p : peripheral) (w : world) :
  given_up reason ss cs w ->
  given_up reason ss cs (deliver (Scan.Discover p) w).
Proof.
  intros (H1 & H2 & H3 & H4 & H5 & H6 & H7 & H8 & H9).
  destruct w; simpl in *; subst. unfold given_up. simpl. auto 12.
Qed.

Lemma given_up_discoveries (reason : string) (ss cs : list sensor)
      (ps : list peripheral) :
  forall w : world,
  given_up reason ss cs w ->
  given_up reason ss cs (run (map Scan.Discover ps) w).
Proof.
  induction ps as [|p ps IH]; intros w H; [exact H|].
  change (map Scan.Discover (p :: ps))
    with (Scan.Discover p :: map Scan.Discover ps).
  rewrite device_run_cons. apply IH, given_up_discover, H.
Qed.

Lemma started_is_scanning (t : Z) :
  scanning Pending [] []
    (deliver (Scan.ScanStarted None)
       (scan (idle "poweredOn" t))).
Proof. rewrite scan_when_on. unfold scanning. simpl. auto 12. Qed.

(** X28. [scan] with the radio on: when the scan stops the promise is
    fulfilled with the sensors of the peripherals discovered so far whose
    address without colons is in the list (all of them without a list), in
    the order discovered. The listeners stay, and the array the promise was
    fulfilled with is the one they fill: peripherals discovered after the
    stop are added to it and handed to [discoverHandler] as well. *)
Theorem scan_keeps_collecting_after_it_resolved
        (t : Z) (before after : list peripheral) :
  let stopped :=
    run (Scan.ScanStarted None :: map Scan.Discover before ++ [Scan.ScanStop])
      (scan (idle "poweredOn" t)) in
  let later := run (map Scan.Discover after) stopped in
  result stopped = Some (collected before)
  /\ calls stopped = handed (collected before)
  /\ result later = Some (collected (before ++ after))
  /\ calls later = handed (collected (before ++ after))
  /\ requests later = [Scan.startScanning [SERVICE_UUID] false].
Proof.
  intros stopped later.
  assert (S : scanning (Resolved tt) (collected before)
                (handed (collected before)) stopped).
  { unfold stopped. rewrite device_run_cons, device_run_app.
    apply scanning_stop.
    apply (scanning_discoveries Pending before [] []).
    apply started_is_scanning. }
  assert (L : scanning (Resolved tt) (collected (before ++ after))
                (handed (collected (before ++ after))) later).
  { unfold later.
    replace (collected (before ++ after))
      with (collected before ++ collected after)%list
      by (unfold DeviceScan.collected; rewrite <- map_app, <- filter_app;
          reflexivity).
    rewrite handed_app. apply scanning_discoveries, S. }
  destruct S as (_ & _ & _ & _ & _ & _ & S7 & S8 & S9).
  destruct L as (_ & _ & _ & _ & _ & L6 & L7 & L8 & L9).
  unfold result. rewrite S7, S8, S9, L7, L8, L9, L6. auto.
Qed.

(** X29. When the radio leaves the powered-on state during a [scan], the
    promise is rejected with the new state in its message, the radio is told
    to stop, and the three listeners are gone: peripherals discovered
    afterwards are neither collected nor handed to [discoverHandler]. *)
Theorem state_change_ends_the_sensor_scan
        (t : Z) (state : string) (before after : list peripheral) :
  state <> "poweredOn" ->
  let w :=
    run (Scan.ScanStarted None :: map Scan.Discover before
           ++ Scan.StateChange state :: map Scan.Discover after)
      (scan (idle "poweredOn" t)) in
  p_scan w = Rejected ("State changed to " ++ state)
  /\ result w = None
  /\ sensors w = collected before
  /\ calls w = handed (collected before)
  /\ requests w
     = [Scan.startScanning [SERVICE_UUID] false; Scan.stopScanning]
  /\ on_discover w = [] /\ on_scanStop w = [] /\ on_stateChange w = [].
Proof.
  intros Hs w.
  assert (G : given_up ("State changed to " ++ state) (collected before)
                (handed (collected before)) w).
  { unfold w. rewrite device_run_cons, device_run_app, device_run_cons.
    apply given_up_discoveries, scanning_state_change; [exact Hs|].
    apply (scanning_discoveries Pending before [] []).
    apply started_is_scanning. }
  destruct G as (G1 & G2 & G3 & G4 & G5 & G6 & G7 & G8 & G9).
  unfold result. rewrite G7. auto 12.
Qed.

End SensorScan.

(** ** The further properties at concrete values *)

Section MoreInstances.
Import JS Noble.

Ltac settle :=
  vm_compute;
  repeat match goal with |- _ /\ _ => split end;
  try reflexivity; try discriminate; try lia.

Lemma unlisted_peripheral_is_ignored_witness :
  Scans.delivered
    (Scan.discoverHandler Samples.one_reading true (Some ["112233445566"])
       (Samples.advertising (Some "aa:1b:2c:3d:4e:5f") (Some Samples.frame)))
  = [].
Proof.
  apply (unlisted_peripheral_is_ignored Samples.one_reading true ["112233445566"]
           (Samples.advertising (Some "aa:1b:2c:3d:4e:5f") (Some Samples.frame))
           (Scan.idle "poweredOn" 0)).
  vm_compute; reflexivity.
Defined.

Lemma list_with_colons_matches_nothing_witness :
  Scans.delivered
    (Scan.discoverHandler Samples.one_reading true (Some ["aa:1b:2c:3d:4e:5f"])
       (Samples.advertising (Some "aa:1b:2c:3d:4e:5f") (Some Samples.frame)))
  = []
  /\ Scan.discoverHandler Samples.one_reading true None
       (Samples.advertising (Some "aa:1b:2c:3d:4e:5f") (Some Samples.frame))
     = Scan.discoverHandler Samples.one_reading true (Some ["aa1b2c3d4e5f"])
         (Samples.advertising (Some "aa:1b:2c:3d:4e:5f") (Some Samples.frame)).
Proof.
  split.
  - apply (list_with_colons_matches_nothing Samples.one_reading true ["aa:1b:2c:3d:4e:5f"]
             (Samples.advertising (Some "aa:1b:2c:3d:4e:5f")
                (Some Samples.frame))
             (Scan.idle "poweredOn" 0)).
    vm_compute; reflexivity.
  - vm_compute; reflexivity.
Defined.

(** The peripheral 0a:1b:2c:3d:4e:5f sends a frame that names it. *)
Lemma address_with_leading_zero_is_always_discarded_witness :
  Scans.delivered
    (Scan.discoverHandler Samples.one_reading true None
       (Samples.advertising (Some "0a:1b:2c:3d:4e:5f")
          (Some [x42; x48; x5f; x4e; x3d; x2c; x1b; x0a; x01; x02])))
  = []
  /\ readUIntLE [x42; x48; x5f; x4e; x3d; x2c; x1b; x0a; x01; x02] 2 6
     = Some 0x0a1b2c3d4e5f.
Proof.
  split.
  - apply (address_with_leading_zero_is_always_discarded
             Samples.one_reading true None
             (Samples.advertising (Some "0a:1b:2c:3d:4e:5f")
                (Some [x42; x48; x5f; x4e; x3d; x2c; x1b; x0a; x01; x02]))
             "a1b2c3d4e5f" (Scan.idle "poweredOn" 0)).
    + vm_compute; reflexivity.
    + discriminate.
  - vm_compute; reflexivity.
Defined.

(** A scan that is on, with the radio on and no list of addresses. *)
Lemma radio_state_change_ends_the_scan_witness :
  Scan.p_scan
    (Scan.run Samples.one_reading true None
       [Scan.StateChange "poweredOff";
        Scan.Discover
          (Samples.advertising (Some "aa:1b:2c:3d:4e:5f") (Some Samples.frame))]
       (Scan.run Samples.one_reading true None [Scan.ScanStarted None]
          (Scan.scanForReadings (Scan.idle "poweredOn" 0))))
  = Rejected "State changed to poweredOff".
Proof.
  apply (radio_state_change_ends_the_scan Samples.one_reading true None
           "poweredOff"
           [Scan.Discover
              (Samples.advertising (Some "aa:1b:2c:3d:4e:5f")
                 (Some Samples.frame))]
           (Scan.run Samples.one_reading true None [Scan.ScanStarted None]
              (Scan.scanForReadings (Scan.idle "poweredOn" 0)))); settle.
Defined.

(** The radio comes on one millisecond before the timer is due. *)
Lemma powerOn_in_time_starts_the_scan_witness :
  Scan.p_scan
    (Scan.run Samples.one_reading true None
       ([Scan.Elapse 4999]
          ++ [Scan.StateChange "poweredOn"; Scan.Elapse 100000])
       (Scan.scanForReadings (Scan.idle "poweredOff" 0)))
  = Pending.
Proof.
  apply (powerOn_in_time_starts_the_scan Samples.one_reading true None
           "poweredOff" 0 [Scan.Elapse 4999] 100000); settle.
Defined.


Lemma connect_reaches_ready_witness :
  Session.p_connect
    (Session.reconnected (Session.new "disconnected") [Samples.wc; Samples.nc])
  = Resolved tt.
Proof.
  apply (connect_reaches_ready [Samples.wc; Samples.nc] Samples.wc Samples.nc
           (Session.new "disconnected")); settle.
Defined.

Lemma connect_fails_with_the_error_of_the_radio_witness :
  Session.p_connect
    (Session.run [Session.Connected (Some "busy")]
       (Session.connect (Session.new "disconnected")))
  = Rejected "busy".
Proof.
  apply (connect_fails_with_the_error_of_the_radio "busy"
           [Samples.wc; Samples.nc] Samples.nc (Session.new "disconnected"));
    try (left; reflexivity); settle.
Defined.

Lemma connect_without_notify_characteristic_witness :
  Session.p_connect
    (Session.run [Session.Connected None; Session.Discovered None [Samples.wc]]
       (Session.connect (Session.new "disconnected")))
  = Rejected "TypeError".
Proof.
  apply (connect_without_notify_characteristic [Samples.wc]
           (Session.new "disconnected")); settle.
Defined.

Lemma write_without_response_settles_on_the_callback_witness :
  Session.p_write
    (Session.run ([Session.Data Samples.nc [xd2]] ++ [Session.Written None])
       (Session.write [x01] None Samples.session))
  = Resolved None.
Proof.
  apply (write_without_response_settles_on_the_callback [x01] Samples.wc
           [Session.Data Samples.nc [xd2]] None Samples.session); settle.
Defined.

Lemma write_failure_rejects_and_stops_listening_witness :
  Session.p_write
    (Session.run
       ([Session.Data Samples.nc [x05]]
          ++ Session.Written (Some "fail")
          :: [Session.Data Samples.nc [xd2; x00]])
       (Session.write [x01] (Some 0xd2) Samples.session))
  = Rejected "fail".
Proof.
  apply (write_failure_rejects_and_stops_listening [x01] 0xd2 Samples.nc
           Samples.wc "fail" [Session.Data Samples.nc [x05]]
           [Session.Data Samples.nc [xd2; x00]] Samples.session); settle.
Defined.

Lemma connect_without_write_characteristic_witness :
  Session.p_write
    (Session.write [x01] None
       (Session.reconnected (Session.new "disconnected") [Samples.nc]))
  = Rejected "TypeError".
Proof.
  apply (connect_without_write_characteristic [Samples.nc] Samples.nc [x01] 5
           (Session.new "disconnected")); settle.
Defined.


(** A payload of three bytes. *)
Lemma readouts_of_a_short_payload_witness :
  Readout.relativeHumidity [xd2; x00; x01] = None
  /\ Readout.indoorTemperature [xd2; x00; x01] = None.
Proof.
  split.
  - apply (readouts_of_a_short_payload [xd2; x00; x01]). simpl. lia.
  - apply (readouts_of_a_short_payload [xd2; x00; x01]). simpl. lia.
Defined.

Lemma scan_finds_the_wanted_peripheral_witness :
  Sensor.p_scan
    (Sensor.run
       (Sensor.ScanStarted None
          :: [Sensor.Discover
                (Samples.advertising (Some "11:22:33:44:55:66") None)
                "disconnected"]
          ++ [Sensor.Discover
                (Samples.advertising (Some "aa:1b:2c:3d:4e:5f")
                   (Some Samples.frame)) "disconnected"])
       (Sensor.scan (Sensor.new "poweredOn" 0 (Some "aa:1b:2c:3d:4e:5f"))))
  = Resolved
      (Samples.advertising (Some "aa:1b:2c:3d:4e:5f") (Some Samples.frame)).
Proof.
  apply (scan_finds_the_wanted_peripheral 0 (Some "aa:1b:2c:3d:4e:5f")
           [Sensor.Discover
              (Samples.advertising (Some "11:22:33:44:55:66") None)
              "disconnected"]
           (Samples.advertising (Some "aa:1b:2c:3d:4e:5f")
              (Some Samples.frame)) "disconnected"); settle.
Defined.

Lemma refusals_reach_the_caller_witness :
  Sensor.p_load
    (Sensor.run [Sensor.ScanStarted (Some "busy")]
       (Sensor.loadTemperatureData (Sensor.new "poweredOn" 0 None)))
  = Rejected "Failed to scan for sensors: busy".
Proof.
  apply (refusals_reach_the_caller "busy" 0
           (Samples.advertising (Some "aa:1b:2c:3d:4e:5f")
              (Some Samples.frame))).
  left. reflexivity.
Defined.

Lemma normalize_is_idempotent_witness :
  Addresses.normalize (Addresses.normalize "AA:1b:2C:3d:4E:5f")
  = Addresses.normalize "AA:1b:2C:3d:4E:5f".
Proof.
  apply (normalize_is_idempotent "AA:1b:2C:3d:4E:5f"); settle.
Defined.

Lemma normalized_list_finds_its_peripheral_witness :
  Scan.not_listed (map Addresses.normalize ["AA:1B:2C:3D:4E:5F"])
    (Scan.stripped
       (address
          (Samples.advertising (Some "aa:1b:2c:3d:4e:5f")
             (Some Samples.frame))))
  = false.
Proof.
  apply (normalized_list_finds_its_peripheral Samples.one_reading true
           ["AA:1B:2C:3D:4E:5F"] "AA:1B:2C:3D:4E:5F" "aa:1b:2c:3d:4e:5f"
           (Samples.advertising (Some "aa:1b:2c:3d:4e:5f")
              (Some Samples.frame)));
    try (left; reflexivity); settle.
Defined.

(** A temperature reading, a humidity reading and a cleaning on a platform
    without accessories. *)
Lemma platform_keeps_one_accessory_per_sensor_witness :
  NoDup
    (map Platform.key
       (Platform.happenings None
          [Platform.Reading 0
             {| Platform.type := "temperature";
                Platform.sensor := Some "indoor"; Platform.value := 21 |}
             (Some "aa:1b:2c:3d:4e:5f");
           Platform.Reading 5
             {| Platform.type := "humidity";
                Platform.sensor := Some "indoor"; Platform.value := 40 |}
             (Some "aa:1b:2c:3d:4e:5f");
           Platform.Cleaning 10] [])).
Proof.
  apply (platform_keeps_one_accessory_per_sensor None _ []). constructor.
Defined.

Lemma humidity_reading_of_another_sensor_throws_witness :
  Platform.readingHandler 0
    {| Platform.type := "humidity"; Platform.sensor := Some "outdoor";
       Platform.value := 40 |} (Some "aa:1b:2c:3d:4e:5f") []
  = Platform.Threw "TypeError"
      ([] ++ [Platform.addAccessory 0 "outdoor" "aa:1b:2c:3d:4e:5f"]).
Proof.
  apply (humidity_reading_of_another_sensor_throws 0
           {| Platform.type := "humidity"; Platform.sensor := Some "outdoor";
              Platform.value := 40 |} (Some "aa:1b:2c:3d:4e:5f")
           "aa:1b:2c:3d:4e:5f" "outdoor" []); settle.
Defined.

Lemma temperature_reading_refreshes_its_accessory_witness :
  exists accessories' a,
    Platform.readingHandler 7
      {| Platform.type := "temperature"; Platform.sensor := Some "indoor";
         Platform.value := 21 |} (Some "aa:1b:2c:3d:4e:5f") []
    = Platform.Done accessories'
    /\ Platform.getAccessory "indoor" "aa:1b:2c:3d:4e:5f" accessories'
       = Some a
    /\ Platform.lastUpdated a = 7.
Proof.
  destruct (temperature_reading_refreshes_its_accessory 7
              {| Platform.type := "temperature";
                 Platform.sensor := Some "indoor"; Platform.value := 21 |}
              (Some "aa:1b:2c:3d:4e:5f") "aa:1b:2c:3d:4e:5f" "indoor" []
              eq_refl eq_refl eq_refl)
    as (accessories' & a & H1 & H2 & H3 & _).
  exists accessories', a. split; [exact H1 | split; [exact H2 | exact H3]].
Defined.

(** The cleaning runs exactly the stale time after the reading. *)
Lemma refreshed_accessory_survives_cleaning_witness :
  exists a,
    Platform.getAccessory "indoor" "aa:1b:2c:3d:4e:5f"
      (Platform.happenings None
         [Platform.Reading 0
            {| Platform.type := "temperature";
               Platform.sensor := Some "indoor"; Platform.value := 21 |}
            (Some "aa:1b:2c:3d:4e:5f");
          Platform.Cleaning 900000] [])
    = Some a
    /\ Platform.currentTemperature a = Some 21%Q.
Proof.
  apply (refreshed_accessory_survives_cleaning None 0 900000
           {| Platform.type := "temperature";
              Platform.sensor := Some "indoor"; Platform.value := 21 |}
           (Some "aa:1b:2c:3d:4e:5f") "aa:1b:2c:3d:4e:5f" "indoor" []);
    settle.
Defined.

(** A battery level on a platform with one accessory. *)
Lemma sensorless_readings_refresh_nothing_witness :
  map Platform.tag
    (Platform.happenings None
       [Platform.Reading 5
          {| Platform.type := "battery-level"; Platform.sensor := None;
             Platform.value := 5 |} (Some "aa:1b:2c:3d:4e:5f")]
       [Platform.addAccessory 0 "indoor" "aa:1b:2c:3d:4e:5f"])
  = map Platform.tag [Platform.addAccessory 0 "indoor" "aa:1b:2c:3d:4e:5f"].
Proof.
  apply (sensorless_readings_refresh_nothing None
           [Platform.Reading 5
              {| Platform.type := "battery-level"; Platform.sensor := None;
                 Platform.value := 5 |} (Some "aa:1b:2c:3d:4e:5f")]
           10 [Platform.addAccessory 0 "indoor" "aa:1b:2c:3d:4e:5f"]);
    settle.
Defined.

Lemma state_change_ends_the_sensor_scan_witness :
  DeviceScan.sensors
    (DeviceScan.run true (Some ["aa1b2c3d4e5f"])
       (Scan.ScanStarted None
          :: map Scan.Discover
               [Samples.advertising (Some "aa:1b:2c:3d:4e:5f") None]
          ++ Scan.StateChange "poweredOff"
          :: map Scan.Discover
               [Samples.advertising (Some "aa:1b:2c:3d:4e:5f") None])
       (DeviceScan.scan (DeviceScan.idle "poweredOn" 0)))
  = DeviceScan.collected (Some ["aa1b2c3d4e5f"])
      [Samples.advertising (Some "aa:1b:2c:3d:4e:5f") None].
Proof.
  pose proof (state_change_ends_the_sensor_scan true (Some ["aa1b2c3d4e5f"]) 0
                "poweredOff"
                [Samples.advertising (Some "aa:1b:2c:3d:4e:5f") None]
                [Samples.advertising (Some "aa:1b:2c:3d:4e:5f") None]) as H.
  cbv zeta in H. apply H. discriminate.
Defined.

End MoreInstances.
